(** * Comptes communaux de Wallis-et-Futuna: the synthetic generator

    A shallow embedding of [WallisFutunaCommuneFinanceAnalyzer]
    (src/WFucom.py): the configuration lookup, the per-metric series
    generators, the assembly of the table and the pass that adds the
    territory's trends.

    Numbers.  Python's floats are idealised as exact rationals ([Q]); the
    integers of the configuration and the years are injected into [Q] where
    Python would promote them.  Equalities between computed values are
    stated with [==] (equality of rationals) unless the two sides are the
    same expression.  The idealisation matters for one kind of statement:
    an equality [==] that regroups the factors of a product holds in [Q]
    and, in binary64, up to the rounding of the last digits.  A value
    stated as the expression the code evaluates, in the code's order, a
    sign, or an inequality with a margin does not depend on it.  The
    module [Double] evaluates loop bodies in binary64 where a statement is
    about exact equality.

    Randomness.  [np.random.normal(loc, scale)] reads the global generator.
    The generator is a state: the sequence of standard normal variates it
    will hand out and the number already drawn.  A draw is
    [loc + scale * g] for the next variate [g], as in NumPy.  The state
    type admits any sequence of variates; [gauss_in_range] is the range
    of those NumPy hands out. *)

From Stdlib Require Import Floats.PrimFloat.
From Stdlib Require Import QArith ZArith String List Bool Arith Lia Lqa.
From Stdlib Require Import Morphisms Setoid.
Import ListNotations.

Local Open Scope Q_scope.

(* ------------------------------------------------------------------ *)
(** ** Python containers *)

Module Py.

(** A [dict] with string keys, in insertion order. *)
Definition dict (V : Type) : Type := list (string * V).

(** [d[k]]: [None] stands for [KeyError]. *)
Fixpoint getitem {V} (d : dict V) (k : string) : option V :=
  match d with
  | [] => None
  | (k', v) :: d' => if String.eqb k' k then Some v else getitem d' k
  end.

(** [d.get(k, default)]. *)
Definition get {V} (d : dict V) (k : string) (default : V) : V :=
  match getitem d k with
  | Some v => v
  | None => default
  end.

(** [d[k] = v]: an existing key keeps its place, a new one goes last. *)
Fixpoint setitem {V} (d : dict V) (k : string) (v : V) : dict V :=
  match d with
  | [] => [(k, v)]
  | (k', v') :: d' =>
      if String.eqb k' k then (k', v) :: d' else (k', v') :: setitem d' k v
  end.

(** [x in xs] for a list of strings. *)
Definition contains (x : string) (xs : list string) : bool :=
  existsb (String.eqb x) xs.

(** [year in [y1, y2, ...]] for a list of integers. *)
Definition Zcontains (x : Z) (xs : list Z) : bool :=
  existsb (Z.eqb x) xs.

(** [xs[i] = v] on a list, for [i] in range. *)
Fixpoint list_set {A} (xs : list A) (i : nat) (v : A) : list A :=
  match xs, i with
  | [], _ => []
  | _ :: xs', O => v :: xs'
  | x :: xs', S i' => x :: list_set xs' i' v
  end.

End Py.

(* ------------------------------------------------------------------ *)
(** ** The random generator *)

Record RandomState : Type := mkRandomState {
  gauss : nat -> Q;   (* the standard normal variates, in drawing order *)
  drawn : nat         (* how many were drawn so far *)
}.

(** Computations that read the global generator. *)
Definition Rand (A : Type) : Type := RandomState -> A * RandomState.

Definition ret {A} (a : A) : Rand A := fun st => (a, st).

Definition bind {A B} (m : Rand A) (k : A -> Rand B) : Rand B :=
  fun st => let (a, st') := m st in k a st'.

Notation "x <- m ;; k" := (bind m (fun x => k))
  (at level 61, m at next level, right associativity).

(** The generator after [n] more draws. *)
Definition advance (st : RandomState) (n : nat) : RandomState :=
  mkRandomState (gauss st) (drawn st + n).

(** [np.random.normal(loc, scale)]. *)
Definition normal (loc scale : Q) : Rand Q :=
  fun st => (loc + scale * gauss st (drawn st), advance st 1).

(** The value of the [k]-th next draw of [np.random.normal(1, scale)]. *)
Definition noise_at (st : RandomState) (scale : Q) (k : nat) : Q :=
  1 + scale * gauss st (drawn st + k).

(** [out = []; for i, x in enumerate(xs): out.append(body(i, x))], the loop
    of every series generator, started at index [i] with [out = acc]. *)
Fixpoint for_enumerate {A B} (body : nat -> A -> Rand B)
    (i : nat) (xs : list A) (acc : list B) : Rand (list B) :=
  match xs with
  | [] => ret acc
  | x :: xs' => v <- body i x ;; for_enumerate body (S i) xs' (acc ++ [v])
  end.

(** The same loop for a body that draws nothing. *)
Fixpoint for_enumerate_pure {A B} (body : nat -> A -> B)
    (i : nat) (xs : list A) (acc : list B) : list B :=
  match xs with
  | [] => acc
  | x :: xs' => for_enumerate_pure body (S i) xs' (acc ++ [body i x])
  end.

(** The loop index as a number. *)
Definition idx (i : nat) : Q := inject_Z (Z.of_nat i).

(* ------------------------------------------------------------------ *)
(** ** Dates *)

Record Timestamp : Type := mkTimestamp { year : Z; month : Z; day : Z }.

(** [pd.date_range(start=f'{s}-01-01', end=f'{e}-12-31', freq='Y')]: the
    year ends lying between the two dates, one per year from [s] to [e]. *)
Definition date_range_Y (s e : Z) : list Timestamp :=
  map (fun k => mkTimestamp (s + Z.of_nat k) 12 31)
      (seq 0 (Z.to_nat (e - s + 1))).

(* ------------------------------------------------------------------ *)
(** ** Configuration *)

Record Config : Type := mkConfig {
  population_base : Q;
  budget_base : Q;
  type : string;
  specialites : list string
}.

Definition default_config : Config :=
  mkConfig 2000 30 "district"
    ["agriculture"; "peche"; "artisanat"; "services_locaux"]%string.

Definition configs : Py.dict Config :=
  [ ("Mata-Utu"%string,
      mkConfig 1200 35 "chef_lieu"
        ["administration"; "commerce"; "port"; "tourisme"; "services"]%string);
    ("Hahake"%string,
      mkConfig 2500 30 "district"
        ["agriculture"; "elevage"; "artisanat"; "culture"]%string);
    ("Hihifo"%string,
      mkConfig 1800 28 "district"
        ["peche"; "agriculture"; "tourisme"; "patrimoine"]%string);
    ("Mua"%string,
      mkConfig 2200 32 "district"
        ["agriculture"; "elevage"; "artisanat"; "services"]%string);
    ("Sigave"%string,
      mkConfig 1500 28 "district_futuna"
        ["peche"; "agriculture"; "culture"; "artisanat"]%string);
    ("Alo"%string,
      mkConfig 2000 30 "district_futuna"
        ["agriculture"; "elevage"; "peche"; "tourisme"]%string);
    ("default"%string, default_config) ].

(** [configs.get(self.commune, configs["default"])].  The second argument
    is the registry's own entry for the key "default", which is
    [default_config] (lemma [configs_default] below). *)
Definition _get_commune_config (commune : string) : Config :=
  Py.get configs commune default_config.

Record Analyzer : Type := mkAnalyzer {
  commune : string;
  start_year : Z;
  end_year : Z;
  config : Config
}.

(** [WallisFutunaCommuneFinanceAnalyzer(commune_name)], the constructor. *)
Definition WallisFutunaCommuneFinanceAnalyzer (commune_name : string)
  : Analyzer :=
  mkAnalyzer commune_name 2002 2025 (_get_commune_config commune_name).

(* ------------------------------------------------------------------ *)
(** ** The series generators *)

Section Generators.

Variable self : Analyzer.

Definition _simulate_population (dates : list Timestamp) : list Q :=
  let base_population := population_base (config self) in
  for_enumerate_pure (fun i date =>
    let growth_rate :=
      if String.eqb (type (config self)) "chef_lieu" then 0.01
      else if String.eqb (type (config self)) "district_futuna" then 0.008
      else 0.009 in
    let growth := 1 + growth_rate * idx i in
    base_population * growth) 0 dates [].

Definition _simulate_households (dates : list Timestamp) : list Q :=
  let base_households := population_base (config self) / 4.5 in
  for_enumerate_pure (fun i date =>
    let growth := 1 + 0.008 * idx i in
    base_households * growth) 0 dates [].

Definition _simulate_total_revenue (dates : list Timestamp) : Rand (list Q) :=
  let base_revenue := budget_base (config self) in
  for_enumerate (fun i date =>
    let growth_rate :=
      if String.eqb (type (config self)) "chef_lieu" then 0.028
      else if String.eqb (type (config self)) "district_futuna" then 0.025
      else 0.026 in
    let growth := 1 + growth_rate * idx i in
    noise <- normal 1 0.08 ;;
    ret (base_revenue * growth * noise)) 0 dates [].

Definition _simulate_tax_revenue (dates : list Timestamp) : Rand (list Q) :=
  let base_tax := budget_base (config self) * 0.25 in
  for_enumerate (fun i date =>
    let growth := 1 + 0.015 * idx i in
    noise <- normal 1 0.09 ;;
    ret (base_tax * growth * noise)) 0 dates [].

Definition _simulate_state_grants (dates : list Timestamp) : Rand (list Q) :=
  let base_grants := budget_base (config self) * 0.55 in
  for_enumerate (fun i date =>
    let year := year date in
    let increase :=
      if (2010 <=? year)%Z then 1 + 0.012 * inject_Z (year - 2010) else 1 in
    noise <- normal 1 0.06 ;;
    ret (base_grants * increase * noise)) 0 dates [].

Definition _simulate_territorial_grants (dates : list Timestamp)
  : Rand (list Q) :=
  let base_grants := budget_base (config self) * 0.12 in
  for_enumerate (fun i date =>
    let year := year date in
    let increase :=
      if (2005 <=? year)%Z then 1 + 0.01 * inject_Z (year - 2005) else 1 in
    noise <- normal 1 0.07 ;;
    ret (base_grants * increase * noise)) 0 dates [].

Definition _simulate_other_revenue (dates : list Timestamp) : Rand (list Q) :=
  let base_other := budget_base (config self) * 0.08 in
  for_enumerate (fun i date =>
    let growth := 1 + 0.018 * idx i in
    noise <- normal 1 0.10 ;;
    ret (base_other * growth * noise)) 0 dates [].

Definition _simulate_total_expenses (dates : list Timestamp) : Rand (list Q) :=
  let base_expenses := budget_base (config self) * 0.98 in
  for_enumerate (fun i date =>
    let growth := 1 + 0.026 * idx i in
    noise <- normal 1 0.07 ;;
    ret (base_expenses * growth * noise)) 0 dates [].

Definition _simulate_operating_expenses (dates : list Timestamp)
  : Rand (list Q) :=
  let base_operating := budget_base (config self) * 0.68 in
  for_enumerate (fun i date =>
    let growth := 1 + 0.024 * idx i in
    noise <- normal 1 0.06 ;;
    ret (base_operating * growth * noise)) 0 dates [].

Definition _simulate_investment_expenses (dates : list Timestamp)
  : Rand (list Q) :=
  let base_investment := budget_base (config self) * 0.30 in
  for_enumerate (fun i date =>
    let year := year date in
    let multiplier :=
      if Py.Zcontains year [2006; 2012; 2018; 2023]%Z then 1.6
      else if Py.Zcontains year [2008; 2014; 2020]%Z then 0.8
      else 1.0 in
    let growth := 1 + 0.022 * idx i in
    noise <- normal 1 0.16 ;;
    ret (base_investment * growth * multiplier * noise)) 0 dates [].

Definition _simulate_debt_charges (dates : list Timestamp) : Rand (list Q) :=
  let base_debt_charge := budget_base (config self) * 0.06 in
  for_enumerate (fun i date =>
    let year := year date in
    let increase :=
      if (2005 <=? year)%Z then 1 + 0.009 * inject_Z (year - 2005) else 1 in
    noise <- normal 1 0.10 ;;
    ret (base_debt_charge * increase * noise)) 0 dates [].

Definition _simulate_staff_costs (dates : list Timestamp) : Rand (list Q) :=
  let base_staff := budget_base (config self) * 0.48 in
  for_enumerate (fun i date =>
    let growth := 1 + 0.026 * idx i in
    noise <- normal 1 0.05 ;;
    ret (base_staff * growth * noise)) 0 dates [].

Definition _simulate_gross_savings (dates : list Timestamp) : Rand (list Q) :=
  for_enumerate (fun i date =>
    let base_saving := budget_base (config self) * 0.02 in
    let year := year date in
    let improvement :=
      if (2010 <=? year)%Z then 1 + 0.007 * inject_Z (year - 2010) else 1 in
    noise <- normal 1 0.13 ;;
    ret (base_saving * improvement * noise)) 0 dates [].

Definition _simulate_total_debt (dates : list Timestamp) : Rand (list Q) :=
  let base_debt := budget_base (config self) * 0.75 in
  for_enumerate (fun i date =>
    let year := year date in
    let change :=
      if Py.Zcontains year [2006; 2012; 2018; 2023]%Z then 1.25
      else if Py.Zcontains year [2009; 2015; 2021]%Z then 0.92
      else 1.0 in
    noise <- normal 1 0.09 ;;
    ret (base_debt * change * noise)) 0 dates [].

Definition _simulate_agriculture_investment (dates : list Timestamp)
  : Rand (list Q) :=
  let base_investment := budget_base (config self) * 0.07 in
  let multiplier :=
    if Py.contains "agriculture" (specialites (config self))
    then 1.5 else 0.8 in
  for_enumerate (fun i date =>
    let year := year date in
    let year_multiplier :=
      if Py.Zcontains year [2005; 2010; 2015; 2020]%Z then 1.8 else 1.0 in
    let growth := 1 + 0.026 * idx i in
    noise <- normal 1 0.15 ;;
    ret (base_investment * growth * year_multiplier * multiplier * noise))
    0 dates [].

Definition _simulate_fishing_investment (dates : list Timestamp)
  : Rand (list Q) :=
  let base_investment := budget_base (config self) * 0.06 in
  let multiplier :=
    if Py.contains "peche" (specialites (config self)) then 1.6 else 0.7 in
  for_enumerate (fun i date =>
    let year := year date in
    let year_multiplier :=
      if Py.Zcontains year [2007; 2013; 2019; 2024]%Z then 1.7 else 1.0 in
    let growth := 1 + 0.028 * idx i in
    noise <- normal 1 0.16 ;;
    ret (base_investment * growth * year_multiplier * multiplier * noise))
    0 dates [].

Definition _simulate_transport_investment (dates : list Timestamp)
  : Rand (list Q) :=
  let base_investment := budget_base (config self) * 0.05 in
  let multiplier :=
    if Py.contains "transport" (specialites (config self))
    then 1.4 else 0.9 in
  for_enumerate (fun i date =>
    let year := year date in
    let year_multiplier :=
      if Py.Zcontains year [2006; 2012; 2018; 2023]%Z then 1.6 else 1.0 in
    let growth := 1 + 0.024 * idx i in
    noise <- normal 1 0.14 ;;
    ret (base_investment * growth * year_multiplier * multiplier * noise))
    0 dates [].

Definition _simulate_education_investment (dates : list Timestamp)
  : Rand (list Q) :=
  let base_investment := budget_base (config self) * 0.06 in
  let multiplier :=
    if Py.contains "education" (specialites (config self))
    then 1.4 else 0.9 in
  for_enumerate (fun i date =>
    let year := year date in
    let year_multiplier :=
      if Py.Zcontains year [2008; 2014; 2020]%Z then 1.6 else 1.0 in
    let growth := 1 + 0.027 * idx i in
    noise <- normal 1 0.17 ;;
    ret (base_investment * growth * year_multiplier * multiplier * noise))
    0 dates [].

Definition _simulate_health_investment (dates : list Timestamp)
  : Rand (list Q) :=
  let base_investment := budget_base (config self) * 0.05 in
  let multiplier :=
    if Py.contains "sante" (specialites (config self)) then 1.5 else 0.9 in
  for_enumerate (fun i date =>
    let year := year date in
    let year_multiplier :=
      if Py.Zcontains year [2009; 2015; 2021]%Z then 1.7 else 1.0 in
    let growth := 1 + 0.025 * idx i in
    noise <- normal 1 0.16 ;;
    ret (base_investment * growth * year_multiplier * multiplier * noise))
    0 dates [].

Definition _simulate_culture_investment (dates : list Timestamp)
  : Rand (list Q) :=
  let base_investment := budget_base (config self) * 0.04 in
  let multiplier :=
    if Py.contains "culture" (specialites (config self)) then 1.6 else 0.7 in
  for_enumerate (fun i date =>
    let year := year date in
    let year_multiplier :=
      if Py.Zcontains year [2010; 2016; 2022]%Z then 1.7 else 1.0 in
    let growth := 1 + 0.023 * idx i in
    noise <- normal 1 0.15 ;;
    ret (base_investment * growth * year_multiplier * multiplier * noise))
    0 dates [].

End Generators.

(** The two ratio series are methods as well; they read nothing of [self]. *)

Definition _simulate_debt_ratio (self : Analyzer) (dates : list Timestamp)
  : Rand (list Q) :=
  for_enumerate (fun i date =>
    let base_ratio := 0.70 in
    let year := year date in
    let improvement :=
      if (2010 <=? year)%Z then 1 - 0.01 * inject_Z (year - 2010) else 1 in
    noise <- normal 1 0.07 ;;
    ret (base_ratio * improvement * noise)) 0 dates [].

Definition _simulate_tax_rate (self : Analyzer) (dates : list Timestamp)
  : Rand (list Q) :=
  for_enumerate (fun i date =>
    let base_rate := 0.80 in
    let year := year date in
    let increase :=
      if (2010 <=? year)%Z then 1 + 0.004 * inject_Z (year - 2010) else 1 in
    noise <- normal 1 0.04 ;;
    ret (base_rate * increase * noise)) 0 dates [].

(* ------------------------------------------------------------------ *)
(** ** The table *)

(** A [pd.DataFrame] over the default index [0 .. index-1]: its columns in
    order, each a list of numbers. *)
Record DataFrame : Type := mkDataFrame {
  index : nat;
  columns : Py.dict (list Q)
}.

(** [pd.DataFrame(data)] for a dict of lists: pandas raises [ValueError]
    ([None]) unless all lists have one length. *)
Definition pd_DataFrame (data : Py.dict (list Q)) : option DataFrame :=
  match data with
  | [] => Some (mkDataFrame 0 [])
  | (_, c) :: _ =>
      if forallb (fun kv => Nat.eqb (length (snd kv)) (length c)) data
      then Some (mkDataFrame (length c) data)
      else None
  end.

(** [df.loc[i, c]], read: [None] stands for [KeyError]. *)
Definition cell (df : DataFrame) (c : string) (i : nat) : option Q :=
  match Py.getitem (columns df) c with
  | Some v => nth_error v i
  | None => None
  end.

(** A row as [iterrows] yields it: a copy, indexed by column label. *)
Definition Series : Type := string -> option Q.

(** [df.iterrows()]: the rows are copied from the table as it is when the
    iteration starts. *)
Definition iterrows (df : DataFrame) : list (nat * Series) :=
  map (fun i => (i, fun c => cell df c i)) (seq 0 (index df)).

(** [df.loc[i, c] *= f]. *)
Definition loc_imul (df : DataFrame) (i : nat) (c : string) (f : Q)
  : option DataFrame :=
  match Py.getitem (columns df) c with
  | Some v =>
      match nth_error v i with
      | Some x =>
          Some (mkDataFrame (index df)
                  (Py.setitem (columns df) c (Py.list_set v i (x * f))))
      | None => None
      end
  | None => None
  end.

Definition obind {A B} (m : option A) (k : A -> option B) : option B :=
  match m with
  | Some a => k a
  | None => None
  end.

Notation "x <-? m ;; k" := (obind m (fun x => k))
  (at level 61, m at next level, right associativity).

(** The body of the loop of [_add_municipal_trends], for the row at [i]
    whose year is [year]. *)
Definition _add_municipal_trends_row (i : nat) (year : Q) (df : DataFrame)
  : option DataFrame :=
  df <-? (if Qle_bool 2002 year && Qle_bool year 2005 then
            df <-? loc_imul df i "Investissement_Agriculture" 1.4 ;;
            loc_imul df i "Investissement_Peche" 1.3
          else Some df) ;;
  df <-? (if Qle_bool 2008 year && Qle_bool year 2009 then
            df <-? loc_imul df i "Recettes_Totales" 0.94 ;;
            df <-? loc_imul df i "Investissement" 0.85 ;;
            loc_imul df i "Autres_Recettes" 0.88
          else if Qle_bool 2010 year && Qle_bool year 2015 then
            df <-? loc_imul df i "Investissement_Education" 1.3 ;;
            loc_imul df i "Investissement_Sante" 1.4
          else Some df) ;;
  df <-? (if Qle_bool 2020 year && Qle_bool year 2021 then
            if Qeq_bool year 2020 then
              df <-? loc_imul df i "Autres_Recettes" 0.78 ;;
              loc_imul df i "Dotations_Etat" 1.15
            else Some df
          else Some df) ;;
  if Qle_bool 2022 year then
    df <-? loc_imul df i "Investissement" 1.14 ;;
    df <-? loc_imul df i "Investissement_Agriculture" 1.12 ;;
    loc_imul df i "Investissement_Peche" 1.10
  else Some df.

Fixpoint _add_municipal_trends_loop (rows : list (nat * Series))
    (df : DataFrame) : option DataFrame :=
  match rows with
  | [] => Some df
  | (i, row) :: rows' =>
      year <-? row "Annee"%string ;;
      df <-? _add_municipal_trends_row i year df ;;
      _add_municipal_trends_loop rows' df
  end.

(** [_add_municipal_trends(df)]: the table is changed in place; here the
    changed table is returned. *)
Definition _add_municipal_trends (df : DataFrame) : option DataFrame :=
  _add_municipal_trends_loop (iterrows df) df.

(** [generate_financial_data()].  The progress message is not modelled. *)
Definition generate_financial_data (self : Analyzer)
  : Rand (option DataFrame) :=
  let dates := date_range_Y (start_year self) (end_year self) in
  let data :=
    [("Annee"%string, map (fun date => inject_Z (year date)) dates)] in
  let data := Py.setitem data "Population" (_simulate_population self dates) in
  let data := Py.setitem data "Menages" (_simulate_households self dates) in
  v <- _simulate_total_revenue self dates ;;
  let data := Py.setitem data "Recettes_Totales" v in
  v <- _simulate_tax_revenue self dates ;;
  let data := Py.setitem data "Impots_Locaux" v in
  v <- _simulate_state_grants self dates ;;
  let data := Py.setitem data "Dotations_Etat" v in
  v <- _simulate_territorial_grants self dates ;;
  let data := Py.setitem data "Dotations_Territoriales" v in
  v <- _simulate_other_revenue self dates ;;
  let data := Py.setitem data "Autres_Recettes" v in
  v <- _simulate_total_expenses self dates ;;
  let data := Py.setitem data "Depenses_Totales" v in
  v <- _simulate_operating_expenses self dates ;;
  let data := Py.setitem data "Fonctionnement" v in
  v <- _simulate_investment_expenses self dates ;;
  let data := Py.setitem data "Investissement" v in
  v <- _simulate_debt_charges self dates ;;
  let data := Py.setitem data "Charge_Dette" v in
  v <- _simulate_staff_costs self dates ;;
  let data := Py.setitem data "Personnel" v in
  v <- _simulate_gross_savings self dates ;;
  let data := Py.setitem data "Epargne_Brute" v in
  v <- _simulate_total_debt self dates ;;
  let data := Py.setitem data "Dette_Totale" v in
  v <- _simulate_debt_ratio self dates ;;
  let data := Py.setitem data "Taux_Endettement" v in
  v <- _simulate_tax_rate self dates ;;
  let data := Py.setitem data "Taux_Fiscalite" v in
  v <- _simulate_agriculture_investment self dates ;;
  let data := Py.setitem data "Investissement_Agriculture" v in
  v <- _simulate_fishing_investment self dates ;;
  let data := Py.setitem data "Investissement_Peche" v in
  v <- _simulate_transport_investment self dates ;;
  let data := Py.setitem data "Investissement_Transport" v in
  v <- _simulate_education_investment self dates ;;
  let data := Py.setitem data "Investissement_Education" v in
  v <- _simulate_health_investment self dates ;;
  let data := Py.setitem data "Investissement_Sante" v in
  v <- _simulate_culture_investment self dates ;;
  let data := Py.setitem data "Investissement_Culture" v in
  ret (df <-? pd_DataFrame data ;; _add_municipal_trends df).

(** A generator whose variates are all [g]. *)
Definition constant_state (g : Q) : RandomState := mkRandomState (fun _ => g) 0.

(* ------------------------------------------------------------------ *)
(** ** Definitions used to state and prove the properties *)

(** The columns of the table, in the order [generate_financial_data]
    inserts them. *)
Definition column_names : list string :=
  [ "Annee"; "Population"; "Menages";
    "Recettes_Totales"; "Impots_Locaux"; "Dotations_Etat";
    "Dotations_Territoriales"; "Autres_Recettes";
    "Depenses_Totales"; "Fonctionnement"; "Investissement";
    "Charge_Dette"; "Personnel";
    "Epargne_Brute"; "Dette_Totale"; "Taux_Endettement"; "Taux_Fiscalite";
    "Investissement_Agriculture"; "Investissement_Peche";
    "Investissement_Transport"; "Investissement_Education";
    "Investissement_Sante"; "Investissement_Culture" ]%string.

(** The columns [_add_municipal_trends] assigns to. *)
Definition shock_columns : list string :=
  [ "Investissement_Agriculture"; "Investissement_Peche";
    "Recettes_Totales"; "Investissement"; "Autres_Recettes";
    "Investissement_Education"; "Investissement_Sante";
    "Dotations_Etat" ]%string.

(** The assignments the loop body makes for a row of year [year], in
    order: the column and its factor ([trends_row_rules] proves it). *)
Definition shock_rules (year : Q) : list (string * Q) :=
  ((if Qle_bool 2002 year && Qle_bool year 2005 then
      [("Investissement_Agriculture"%string, 1.4);
       ("Investissement_Peche"%string, 1.3)]
    else [])
   ++ (if Qle_bool 2008 year && Qle_bool year 2009 then
         [("Recettes_Totales"%string, 0.94); ("Investissement"%string, 0.85);
          ("Autres_Recettes"%string, 0.88)]
       else if Qle_bool 2010 year && Qle_bool year 2015 then
         [("Investissement_Education"%string, 1.3);
          ("Investissement_Sante"%string, 1.4)]
       else [])
   ++ (if Qle_bool 2020 year && Qle_bool year 2021 then
         if Qeq_bool year 2020 then
           [("Autres_Recettes"%string, 0.78); ("Dotations_Etat"%string, 1.15)]
         else []
       else [])
   ++ (if Qle_bool 2022 year then
         [("Investissement"%string, 1.14);
          ("Investissement_Agriculture"%string, 1.12);
          ("Investissement_Peche"%string, 1.10)]
       else []))%list.

(** A list of assignments [df.loc[i, c] *= f], run in order. *)
Fixpoint loc_imul_all (i : nat) (rs : list (string * Q)) (df : DataFrame)
  : option DataFrame :=
  match rs with
  | [] => Some df
  | (c, f) :: rs' => df' <-? loc_imul df i c f ;; loc_imul_all i rs' df'
  end.

(** What a list of assignments does to the value [x] of column [c]. *)
Fixpoint apply_rules (rs : list (string * Q)) (c : string) (x : Q) : Q :=
  match rs with
  | [] => x
  | (c', f) :: rs' => apply_rules rs' c (if String.eqb c' c then x * f else x)
  end.

(** A loop body that draws one noise value of deviation [scale] and
    returns [f i x noise]. *)
Definition noisy {A} (body : nat -> A -> Rand Q) (scale : Q)
    (f : nat -> A -> Q -> Q) : Prop :=
  forall i x, body i x = (noise <- normal 1 scale ;; ret (f i x noise)).

(** The generator never draws a variate other than [g]. *)
Definition all_draws (st : RandomState) (g : Q) : Prop :=
  forall n, gauss st n == g.

(** A table of two rows, 2007 and 2008, with the three columns of the
    2008-2009 rule. *)
Definition crisis_table : DataFrame :=
  mkDataFrame 2
    [ ("Annee"%string, [2007; 2008]);
      ("Recettes_Totales"%string, [100; 200]);
      ("Investissement"%string, [10; 20]);
      ("Autres_Recettes"%string, [1; 2]) ].

Definition crisis_table_after : DataFrame :=
  mkDataFrame 2
    [ ("Annee"%string, [2007; 2008]);
      ("Recettes_Totales"%string, [100; 200 * 0.94]);
      ("Investissement"%string, [10; 20 * 0.85]);
      ("Autres_Recettes"%string, [1; 2 * 0.88]) ].

(** The six sector-investment metrics. *)
Inductive Sector : Type :=
  Agriculture | Peche | Transport | Education | Sante | Culture.

Definition simulate_sector (s : Sector)
  : Analyzer -> list Timestamp -> Rand (list Q) :=
  match s with
  | Agriculture => _simulate_agriculture_investment
  | Peche => _simulate_fishing_investment
  | Transport => _simulate_transport_investment
  | Education => _simulate_education_investment
  | Sante => _simulate_health_investment
  | Culture => _simulate_culture_investment
  end.

(** The investment-cycle years of each sector and the multiplier of a
    cycle year, as the generators list them. *)
Definition cycle_years (s : Sector) : list Z :=
  match s with
  | Agriculture => [2005; 2010; 2015; 2020]
  | Peche => [2007; 2013; 2019; 2024]
  | Transport => [2006; 2012; 2018; 2023]
  | Education => [2008; 2014; 2020]
  | Sante => [2009; 2015; 2021]
  | Culture => [2010; 2016; 2022]
  end%Z.

Definition cycle_multiplier (s : Sector) : Q :=
  match s with
  | Agriculture => 1.8
  | Peche => 1.7
  | Transport => 1.6
  | Education => 1.6
  | Sante => 1.7
  | Culture => 1.7
  end.

(** The value the trend alone gives a sector at index [i]: the base share
    of the budget, the linear growth and the speciality factor, without
    cycle multiplier and without noise. *)
Definition trend_only (s : Sector) (self : Analyzer) (i : nat) : Q :=
  let b := budget_base (config self) in
  let has tag := Py.contains tag (specialites (config self)) in
  match s with
  | Agriculture =>
      b * 0.07 * (1 + 0.026 * idx i)
      * (if has "agriculture"%string then 1.5 else 0.8)
  | Peche =>
      b * 0.06 * (1 + 0.028 * idx i)
      * (if has "peche"%string then 1.6 else 0.7)
  | Transport =>
      b * 0.05 * (1 + 0.024 * idx i)
      * (if has "transport"%string then 1.4 else 0.9)
  | Education =>
      b * 0.06 * (1 + 0.027 * idx i)
      * (if has "education"%string then 1.4 else 0.9)
  | Sante =>
      b * 0.05 * (1 + 0.025 * idx i)
      * (if has "sante"%string then 1.5 else 0.9)
  | Culture =>
      b * 0.04 * (1 + 0.023 * idx i)
      * (if has "culture"%string then 1.6 else 0.7)
  end.

(** The generators that draw noise, in the order
    [generate_financial_data] calls them. *)
Definition noisy_generators
  : list (Analyzer -> list Timestamp -> Rand (list Q)) :=
  [ _simulate_total_revenue; _simulate_tax_revenue; _simulate_state_grants;
    _simulate_territorial_grants; _simulate_other_revenue;
    _simulate_total_expenses; _simulate_operating_expenses;
    _simulate_investment_expenses; _simulate_debt_charges;
    _simulate_staff_costs;
    _simulate_gross_savings; _simulate_total_debt; _simulate_debt_ratio;
    _simulate_tax_rate;
    _simulate_agriculture_investment; _simulate_fishing_investment;
    _simulate_transport_investment; _simulate_education_investment;
    _simulate_health_investment; _simulate_culture_investment ].

(** The dates of an analyzer and the dict [generate_financial_data] hands
    to [pd.DataFrame]: the [k]-th noisy generator starts from the state the
    [k] generators before it have left ([generate_run] proves it). *)
Definition dates_of (self : Analyzer) : list Timestamp :=
  date_range_Y (start_year self) (end_year self).

Definition raw_data (self : Analyzer) (st : RandomState)
  : Py.dict (list Q) :=
  let dates := dates_of self in
  let run (k : nat) (g : Analyzer -> list Timestamp -> Rand (list Q)) :=
    fst (g self dates (advance st (k * length dates))) in
  [ ("Annee", map (fun date => inject_Z (year date)) dates);
    ("Population", _simulate_population self dates);
    ("Menages", _simulate_households self dates);
    ("Recettes_Totales", run 0%nat _simulate_total_revenue);
    ("Impots_Locaux", run 1%nat _simulate_tax_revenue);
    ("Dotations_Etat", run 2%nat _simulate_state_grants);
    ("Dotations_Territoriales", run 3%nat _simulate_territorial_grants);
    ("Autres_Recettes", run 4%nat _simulate_other_revenue);
    ("Depenses_Totales", run 5%nat _simulate_total_expenses);
    ("Fonctionnement", run 6%nat _simulate_operating_expenses);
    ("Investissement", run 7%nat _simulate_investment_expenses);
    ("Charge_Dette", run 8%nat _simulate_debt_charges);
    ("Personnel", run 9%nat _simulate_staff_costs);
    ("Epargne_Brute", run 10%nat _simulate_gross_savings);
    ("Dette_Totale", run 11%nat _simulate_total_debt);
    ("Taux_Endettement", run 12%nat _simulate_debt_ratio);
    ("Taux_Fiscalite", run 13%nat _simulate_tax_rate);
    ("Investissement_Agriculture", run 14%nat _simulate_agriculture_investment);
    ("Investissement_Peche", run 15%nat _simulate_fishing_investment);
    ("Investissement_Transport", run 16%nat _simulate_transport_investment);
    ("Investissement_Education", run 17%nat _simulate_education_investment);
    ("Investissement_Sante", run 18%nat _simulate_health_investment);
    ("Investissement_Culture", run 19%nat _simulate_culture_investment)
  ]%string.

(** The table before the pass. *)
Definition raw_table (self : Analyzer) (st : RandomState) : DataFrame :=
  mkDataFrame (length (dates_of self)) (raw_data self st).

(** The columns filled by the noisy generators. *)
Definition noisy_columns : list string :=
  [ "Recettes_Totales"; "Impots_Locaux"; "Dotations_Etat";
    "Dotations_Territoriales"; "Autres_Recettes";
    "Depenses_Totales"; "Fonctionnement"; "Investissement";
    "Charge_Dette"; "Personnel";
    "Epargne_Brute"; "Dette_Totale"; "Taux_Endettement"; "Taux_Fiscalite";
    "Investissement_Agriculture"; "Investissement_Peche";
    "Investissement_Transport"; "Investissement_Education";
    "Investissement_Sante"; "Investissement_Culture" ]%string.

(** Two tables have different numbers in row [i] of column [c]. *)
Definition differ_at (df1 df2 : DataFrame) (i : nat) (c : string) : bool :=
  match cell df1 c i, cell df2 c i with
  | Some x, Some y => negb (Qeq_bool x y)
  | _, _ => false
  end.

(** Two runs from the states [st1] and [st2] differ in the first row of
    every noisy column. *)
Definition noise_sensitive (self : Analyzer) (st1 st2 : RandomState) : bool :=
  match fst (generate_financial_data self st1),
        fst (generate_financial_data self st2) with
  | Some df1, Some df2 => forallb (differ_at df1 df2 0) noisy_columns
  | _, _ => false
  end.

(** The table of two runs for Mata-Utu: every variate 0, every variate 1. *)
Definition mata_utu_table (g : Q) : option DataFrame :=
  fst (generate_financial_data
         (WallisFutunaCommuneFinanceAnalyzer "Mata-Utu") (constant_state g)).

Definition mata_utu_table_0 : DataFrame :=
  Eval vm_compute in
    match mata_utu_table 0 with
    | Some df => df
    | None => mkDataFrame 0 []
    end.

Definition mata_utu_table_1 : DataFrame :=
  Eval vm_compute in
    match mata_utu_table 1 with
    | Some df => df
    | None => mkDataFrame 0 []
    end.

(* ------------------------------------------------------------------ *)
(** ** The report: the figures it computes *)

(** [df[c]], a column: [None] stands for [KeyError]. *)
Definition df_col (df : DataFrame) (c : string) : option (list Q) :=
  Py.getitem (columns df) c.

(** [xs[k]] and [s.iloc[k]] for an integer [k]: a negative [k] counts from
    the end; [None] stands for [IndexError]. *)
Definition py_index {A} (xs : list A) (k : Z) : option A :=
  if (k <? 0)%Z then
    if (- k <=? Z.of_nat (length xs))%Z
    then nth_error xs (Z.to_nat (Z.of_nat (length xs) + k))
    else None
  else nth_error xs (Z.to_nat k).

(** A computed figure: [None] stands for a value that is not a finite
    number ([nan] or an infinity); the operations below keep it so. *)
Definition Figure : Type := option Q.

(** [s.mean()]: the sum over the count, [nan] for an empty series. *)
Definition Series_mean (v : list Q) : Figure :=
  match v with
  | [] => None
  | _ :: _ => Some (fold_left Qplus v 0 / idx (length v))
  end.

(** [x / y] on NumPy floats: a division by zero gives [nan] or an
    infinity, it does not raise. *)
Definition np_div (x y : Figure) : Figure :=
  match x, y with
  | Some a, Some b => if Qeq_bool b 0 then None else Some (a / b)
  | _, _ => None
  end.

Definition np_sub (x : Figure) (c : Q) : Figure :=
  option_map (fun a => a - c) x.
Definition np_mul (x : Figure) (c : Q) : Figure :=
  option_map (fun a => a * c) x.

(** The figures [_generate_financial_insights] prints, in the order it
    computes them. *)
Record Insights : Type := mkInsights {
  avg_revenue : Figure;
  avg_expenses : Figure;
  avg_savings : Figure;
  avg_debt : Figure;
  revenue_growth : Figure;
  population_growth : Figure;
  tax_share : Figure;
  state_share : Figure;
  territorial_share : Figure;
  investment_share : Figure;
  avg_debt_ratio : Figure;
  avg_tax_rate : Figure;
  last_debt_ratio : Figure
}.

(** [df[c].mean()]. *)
Definition col_mean (df : DataFrame) (c : string) : option Figure :=
  v <-? df_col df c ;; Some (Series_mean v).

(** [df[c].iloc[k]]. *)
Definition col_iloc (df : DataFrame) (c : string) (k : Z) : option Figure :=
  v <-? df_col df c ;; x <-? py_index v k ;; Some (Some x).

(** [_generate_financial_insights(df)]: the figures, before they are
    formatted and printed; the texts it prints are not modelled.  The outer
    [None] stands for an exception ([KeyError], [IndexError]). *)
Definition _generate_financial_insights (self : Analyzer) (df : DataFrame)
  : option Insights :=
  avg_revenue <-? col_mean df "Recettes_Totales" ;;
  avg_expenses <-? col_mean df "Depenses_Totales" ;;
  avg_savings <-? col_mean df "Epargne_Brute" ;;
  avg_debt <-? col_mean df "Dette_Totale" ;;
  r_last <-? col_iloc df "Recettes_Totales" (-1) ;;
  r_first <-? col_iloc df "Recettes_Totales" 0 ;;
  let revenue_growth := np_mul (np_sub (np_div r_last r_first) 1) 100 in
  p_last <-? col_iloc df "Population" (-1) ;;
  p_first <-? col_iloc df "Population" 0 ;;
  let population_growth := np_mul (np_sub (np_div p_last p_first) 1) 100 in
  m1 <-? col_mean df "Impots_Locaux" ;;
  m2 <-? col_mean df "Recettes_Totales" ;;
  let tax_share := np_mul (np_div m1 m2) 100 in
  m1 <-? col_mean df "Dotations_Etat" ;;
  m2 <-? col_mean df "Recettes_Totales" ;;
  let state_share := np_mul (np_div m1 m2) 100 in
  m1 <-? col_mean df "Dotations_Territoriales" ;;
  m2 <-? col_mean df "Recettes_Totales" ;;
  let territorial_share := np_mul (np_div m1 m2) 100 in
  m1 <-? col_mean df "Investissement" ;;
  m2 <-? col_mean df "Depenses_Totales" ;;
  let investment_share := np_mul (np_div m1 m2) 100 in
  m <-? col_mean df "Taux_Endettement" ;;
  let avg_debt_ratio := np_mul m 100 in
  avg_tax_rate <-? col_mean df "Taux_Fiscalite" ;;
  d_last <-? col_iloc df "Taux_Endettement" (-1) ;;
  let last_debt_ratio := np_mul d_last 100 in
  Some (mkInsights avg_revenue avg_expenses avg_savings avg_debt
          revenue_growth population_growth
          tax_share state_share territorial_share investment_share
          avg_debt_ratio avg_tax_rate last_debt_ratio).

(* ------------------------------------------------------------------ *)
(** ** The stacked charts: the bars they draw *)

(** One call [ax.bar(x, height, width, label=, bottom=, color=)]. *)
Record BarCall : Type := mkBarCall {
  bar_x : list Q;
  bar_height : list Q;
  bar_width : Q;
  bar_label : string;
  bar_bottom : list Q;
  bar_color : string
}.

(** [bottom += values] on arrays of one length; the columns of one
    DataFrame always have the length of its index, another length is an
    error ([None]). *)
Definition np_iadd (bottom values : list Q) : option (list Q) :=
  if Nat.eqb (length bottom) (length values)
  then Some (map (fun p => fst p + snd p) (combine bottom values))
  else None.

(** [for i, category in enumerate(categories):
       ax.bar(years, df[category], width, label=labels[i], bottom=bottom,
              color=colors[i])
       bottom += df[category]]
    from index [i] on: the calls made, in order. *)
Fixpoint stacked_bars (df : DataFrame) (years : list Q) (width : Q)
    (labels colors : list string) (i : nat) (categories : list string)
    (bottom : list Q) : option (list BarCall) :=
  match categories with
  | [] => Some []
  | category :: rest =>
      height <-? df_col df category ;;
      label <-? nth_error labels i ;;
      color <-? nth_error colors i ;;
      values <-? df_col df category ;;
      bottom' <-? np_iadd bottom values ;;
      calls <-? stacked_bars df years width labels colors (S i) rest bottom' ;;
      Some (mkBarCall years height width label bottom color :: calls)
  end.

(** [np.zeros(n)]. *)
Definition np_zeros (n : nat) : list Q := repeat 0 n.

(** The three stacked charts: the bars they draw.  Title, axis label,
    legend and grid carry no data and are not modelled. *)
Definition _plot_revenue_structure (df : DataFrame) : option (list BarCall) :=
  years <-? df_col df "Annee" ;;
  let width := 0.8 in
  let bottom := np_zeros (length years) in
  let categories :=
    ["Impots_Locaux"; "Dotations_Etat"; "Dotations_Territoriales";
     "Autres_Recettes"]%string in
  let colors := ["#264653"; "#2A9D8F"; "#45B7D1"; "#E76F51"]%string in
  let labels :=
    ["Impôts Locaux"; "Dotations État"; "Dotations Territoriales";
     "Autres Recettes"]%string in
  stacked_bars df years width labels colors 0 categories bottom.

Definition _plot_expenses_structure (df : DataFrame) : option (list BarCall) :=
  years <-? df_col df "Annee" ;;
  let width := 0.8 in
  let bottom := np_zeros (length years) in
  let categories :=
    ["Fonctionnement"; "Investissement"; "Charge_Dette"; "Personnel"]%string in
  let colors := ["#264653"; "#2A9D8F"; "#E76F51"; "#F9A602"]%string in
  let labels :=
    ["Fonctionnement"; "Investissement"; "Charge Dette"; "Personnel"]%string in
  stacked_bars df years width labels colors 0 categories bottom.

Definition _plot_sectorial_investments (df : DataFrame)
  : option (list BarCall) :=
  years <-? df_col df "Annee" ;;
  let width := 0.8 in
  let bottom := np_zeros (length years) in
  let categories :=
    ["Investissement_Agriculture"; "Investissement_Peche";
     "Investissement_Transport"; "Investissement_Education";
     "Investissement_Sante"]%string in
  let colors :=
    ["#264653"; "#2A9D8F"; "#E76F51"; "#F9A602"; "#6A0572"]%string in
  let labels :=
    ["Agriculture"; "Pêche"; "Transport"; "Éducation"; "Santé"]%string in
  stacked_bars df years width labels colors 0 categories bottom.

(** The top of a bar: its bottom plus its height, year by year. *)
Definition bar_top (b : BarCall) : list Q :=
  map (fun p => fst p + snd p) (combine (bar_bottom b) (bar_height b)).

(* ------------------------------------------------------------------ *)
(** ** The choice of the subdivision in [main] *)

Definition circonscriptions : list string :=
  ["Mata-Utu"; "Hahake"; "Hihifo"; "Mua"; "Sigave"; "Alo"]%string.

(** The [try] block of [main].  [choix] is the result of
    [int(input(...))], [None] when [int] raises [ValueError]; a choice out
    of range raises [ValueError] too, and the handler of [ValueError] and
    [IndexError] selects Mata-Utu. *)
Definition circonscription_selectionnee (choix : option Z) : string :=
  match choix with
  | None => "Mata-Utu"
  | Some choix =>
      if (choix <? 1)%Z || (choix >? Z.of_nat (length circonscriptions))%Z
      then "Mata-Utu"
      else match py_index circonscriptions (choix - 1) with
           | Some name => name
           | None => "Mata-Utu"
           end
  end%string.

(** [main], up to the generation of the data: the analyzer it builds and
    the table it generates. *)
Definition main_analyzer (choix : option Z) : Analyzer :=
  WallisFutunaCommuneFinanceAnalyzer (circonscription_selectionnee choix).

Definition main_financial_data (choix : option Z) : Rand (option DataFrame) :=
  generate_financial_data (main_analyzer choix).

(** [f'{circonscription_selectionnee}_financial_data_2002_2025.csv']. *)
Definition output_file (choix : option Z) : string :=
  (circonscription_selectionnee choix
   ++ "_financial_data_2002_2025.csv")%string.

(* ------------------------------------------------------------------ *)
(** ** More definitions for the statements *)

(** The investment expenses the trend alone gives at index [i]. *)
Definition investment_trend (self : Analyzer) (i : nat) : Q :=
  budget_base (config self) * 0.30 * (1 + 0.022 * idx i).


(** An analyzer with a category outside the registry's three. *)
Definition atoll_analyzer : Analyzer :=
  mkAnalyzer "Atoll" 2002 2025
    (mkConfig 900 12 "atoll" ["peche"]%string).

Definition atoll_as_district : Analyzer :=
  mkAnalyzer "Atoll" 2002 2025
    (mkConfig 900 12 "district" ["peche"]%string).

(** Two random generators that agree on their third variate only. *)
Definition third_draw_a : RandomState :=
  mkRandomState (fun n => if Nat.eqb n 2 then 1 else 0) 0.

Definition third_draw_b : RandomState :=
  mkRandomState (fun n => if Nat.eqb n 2 then 1 else 5) 0.

(** A table with a row for each of the years 2001, 2003, 2006, 2012, 2020,
    2021 and 2030 and the eight columns the pass assigns to, and the table
    the pass makes of it. *)
Definition events_table : DataFrame :=
  mkDataFrame 7
    [ ("Annee"%string, [2001; 2003; 2006; 2012; 2020; 2021; 2030]);
      ("Recettes_Totales"%string, [10; 11; 12; 13; 14; 15; 16]);
      ("Dotations_Etat"%string, [20; 21; 22; 23; 24; 25; 26]);
      ("Autres_Recettes"%string, [30; 31; 32; 33; 34; 35; 36]);
      ("Investissement"%string, [40; 41; 42; 43; 44; 45; 46]);
      ("Investissement_Agriculture"%string, [50; 51; 52; 53; 54; 55; 56]);
      ("Investissement_Peche"%string, [60; 61; 62; 63; 64; 65; 66]);
      ("Investissement_Education"%string, [70; 71; 72; 73; 74; 75; 76]);
      ("Investissement_Sante"%string, [80; 81; 82; 83; 84; 85; 86]) ].

Definition events_table_after : DataFrame :=
  Eval vm_compute in
    match _add_municipal_trends events_table with
    | Some df => df
    | None => events_table
    end.

(** A table of one row that has no column of years. *)
Definition no_year_table : DataFrame :=
  mkDataFrame 1 [("Recettes_Totales"%string, [1])].

(** A table of one row of the year 2009 with the columns of the rule of
    2008-2009. *)
Definition crisis_row_table : DataFrame :=
  mkDataFrame 1
    [ ("Annee"%string, [2009]);
      ("Recettes_Totales"%string, [200]);
      ("Investissement"%string, [20]);
      ("Autres_Recettes"%string, [2]) ].

Definition crisis_row_table_after : DataFrame :=
  mkDataFrame 1
    [ ("Annee"%string, [2009]);
      ("Recettes_Totales"%string, [200 * 0.94]);
      ("Investissement"%string, [20 * 0.85]);
      ("Autres_Recettes"%string, [2 * 0.88]) ].

(** Two random generators that agree on the variate at position 50 only,
    and the tables of Mata-Utu drawn from them. *)
Definition draw_50_a : RandomState :=
  mkRandomState (fun n => if Nat.eqb n 50 then 1 else 0) 0.

Definition draw_50_b : RandomState :=
  mkRandomState (fun n => if Nat.eqb n 50 then 1 else 5) 0.

Definition mata_utu_table_a : DataFrame :=
  Eval vm_compute in
    match fst (generate_financial_data
                 (WallisFutunaCommuneFinanceAnalyzer "Mata-Utu") draw_50_a)
    with
    | Some df => df
    | None => mkDataFrame 0 []
    end.

Definition mata_utu_table_b : DataFrame :=
  Eval vm_compute in
    match fst (generate_financial_data
                 (WallisFutunaCommuneFinanceAnalyzer "Mata-Utu") draw_50_b)
    with
    | Some df => df
    | None => mkDataFrame 0 []
    end.

(** The columns the report reads, and those of which it reads the first
    or the last value. *)
Definition insight_columns : list string :=
  [ "Recettes_Totales"; "Depenses_Totales"; "Epargne_Brute"; "Dette_Totale";
    "Population"; "Impots_Locaux"; "Dotations_Etat";
    "Dotations_Territoriales"; "Investissement"; "Taux_Endettement";
    "Taux_Fiscalite" ]%string.

Definition insight_end_columns : list string :=
  [ "Recettes_Totales"; "Population"; "Taux_Endettement" ]%string.

(** The bars of the revenue chart of Mata-Utu without noise. *)
Definition mata_utu_revenue_bars : list BarCall :=
  Eval vm_compute in
    match _plot_revenue_structure mata_utu_table_0 with
    | Some calls => calls
    | None => []
    end.

(* ------------------------------------------------------------------ *)
(** ** The variates of NumPy's generator *)

(** [np.random.normal] is the legacy generator of NumPy: a standard
    variate comes from the polar method applied to two uniform doubles of
    53 bits, [x2 * sqrt (-2 * log r2 / r2)] with [r2 = x1^2 + x2^2] in
    [(0, 1)], whose magnitude is at most [sqrt (-2 * log r2)]; the least
    [r2] is [2^-104], which bounds every variate by
    [sqrt (2 * 104 * log 2) < 12.0073].  The generator is not part of the
    repository; its range enters the statements as this predicate. *)
Definition gauss_in_range (st : RandomState) : Prop :=
  forall n, -12.0073 <= gauss st n /\ gauss st n <= 12.0073.

(* ------------------------------------------------------------------ *)
(** ** The product of a sector generator *)

(** The deviation of the noise of each sector generator. *)
Definition sector_noise (s : Sector) : Q :=
  match s with
  | Agriculture => 0.15
  | Peche => 0.16
  | Transport => 0.14
  | Education => 0.17
  | Sante => 0.16
  | Culture => 0.15
  end.

(** [base_investment * growth * year_multiplier * multiplier * noise], the
    value a sector generator appends at index [i], as a function of the
    year multiplier and of the noise. *)
Definition sector_value (s : Sector) (self : Analyzer) (i : nat)
    (year_multiplier noise : Q) : Q :=
  let b := budget_base (config self) in
  let has tag := Py.contains tag (specialites (config self)) in
  match s with
  | Agriculture =>
      b * 0.07 * (1 + 0.026 * idx i) * year_multiplier
      * (if has "agriculture"%string then 1.5 else 0.8) * noise
  | Peche =>
      b * 0.06 * (1 + 0.028 * idx i) * year_multiplier
      * (if has "peche"%string then 1.6 else 0.7) * noise
  | Transport =>
      b * 0.05 * (1 + 0.024 * idx i) * year_multiplier
      * (if has "transport"%string then 1.4 else 0.9) * noise
  | Education =>
      b * 0.06 * (1 + 0.027 * idx i) * year_multiplier
      * (if has "education"%string then 1.4 else 0.9) * noise
  | Sante =>
      b * 0.05 * (1 + 0.025 * idx i) * year_multiplier
      * (if has "sante"%string then 1.5 else 0.9) * noise
  | Culture =>
      b * 0.04 * (1 + 0.023 * idx i) * year_multiplier
      * (if has "culture"%string then 1.6 else 0.7) * noise
  end.

(* ------------------------------------------------------------------ *)
(** ** The lists of the stacked charts *)

(** The three stacked charts and the lists each one hands to its loop. *)
Inductive StackedChart : Type := RevenueChart | ExpensesChart | SectorChart.

Definition plot_chart (ch : StackedChart)
  : DataFrame -> option (list BarCall) :=
  match ch with
  | RevenueChart => _plot_revenue_structure
  | ExpensesChart => _plot_expenses_structure
  | SectorChart => _plot_sectorial_investments
  end.

Definition chart_categories (ch : StackedChart) : list string :=
  match ch with
  | RevenueChart =>
      ["Impots_Locaux"; "Dotations_Etat"; "Dotations_Territoriales";
       "Autres_Recettes"]
  | ExpensesChart =>
      ["Fonctionnement"; "Investissement"; "Charge_Dette"; "Personnel"]
  | SectorChart =>
      ["Investissement_Agriculture"; "Investissement_Peche";
       "Investissement_Transport"; "Investissement_Education";
       "Investissement_Sante"]
  end%string.

Definition chart_labels (ch : StackedChart) : list string :=
  match ch with
  | RevenueChart =>
      ["Impôts Locaux"; "Dotations État"; "Dotations Territoriales";
       "Autres Recettes"]
  | ExpensesChart =>
      ["Fonctionnement"; "Investissement"; "Charge Dette"; "Personnel"]
  | SectorChart =>
      ["Agriculture"; "Pêche"; "Transport"; "Éducation"; "Santé"]
  end%string.

Definition chart_colors (ch : StackedChart) : list string :=
  match ch with
  | RevenueChart => ["#264653"; "#2A9D8F"; "#45B7D1"; "#E76F51"]
  | ExpensesChart => ["#264653"; "#2A9D8F"; "#E76F51"; "#F9A602"]
  | SectorChart => ["#264653"; "#2A9D8F"; "#E76F51"; "#F9A602"; "#6A0572"]
  end%string.

(* ------------------------------------------------------------------ *)
(** ** The same products in binary64

    Python evaluates [a * b * c] from left to right in IEEE 754 binary64
    and rounds after every operation.  The loop bodies below are those of
    the generators over Rocq's primitive floats, which are binary64 with
    rounding to nearest even; a literal denotes the nearest double, as in
    Python, and an integer is converted where Python promotes it. *)

Module Double.

#[local] Set Warnings "-inexact-float".
Local Open Scope float_scope.

(** [float(n)] for an integer [n]; exact below [2^53]. *)
Fixpoint of_pos (p : positive) : float :=
  match p with
  | xH => 1
  | xO p' => 2 * of_pos p'
  | xI p' => 2 * of_pos p' + 1
  end.

Definition of_Z (z : Z) : float :=
  match z with
  | Z0 => 0
  | Zpos p => of_pos p
  | Zneg p => - of_pos p
  end.

(** The double of an entry of the configuration (an integer there). *)
Definition of_Q (q : Q) : float := of_Z (Qnum q) / of_pos (Qden q).

(** The body of the loop of [_simulate_fishing_investment] at index [i]
    and date [date], for the draw [noise]. *)
Definition fishing_investment_at (self : Analyzer) (i : nat)
    (date : Timestamp) (noise : float) : float :=
  let base_investment := of_Q (budget_base (config self)) * 0.06 in
  let multiplier :=
    if Py.contains "peche" (specialites (config self)) then 1.6 else 0.7 in
  let year := year date in
  let year_multiplier :=
    if Py.Zcontains year [2007; 2013; 2019; 2024]%Z then 1.7 else 1.0 in
  let growth := 1 + 0.028 * of_Z (Z.of_nat i) in
  base_investment * growth * year_multiplier * multiplier * noise.

(** The value of the trend alone at index [i]: the base share of the
    budget, the linear growth and the speciality factor. *)
Definition fishing_trend_only (self : Analyzer) (i : nat) : float :=
  let base_investment := of_Q (budget_base (config self)) * 0.06 in
  let multiplier :=
    if Py.contains "peche" (specialites (config self)) then 1.6 else 0.7 in
  let growth := 1 + 0.028 * of_Z (Z.of_nat i) in
  base_investment * growth * multiplier.

(** The bodies of the loops of the five revenue generators. *)
Definition total_revenue_at (self : Analyzer) (i : nat) (noise : float)
  : float :=
  let base_revenue := of_Q (budget_base (config self)) in
  let growth_rate :=
    if String.eqb (type (config self)) "chef_lieu" then 0.028
    else if String.eqb (type (config self)) "district_futuna" then 0.025
    else 0.026 in
  let growth := 1 + growth_rate * of_Z (Z.of_nat i) in
  base_revenue * growth * noise.

Definition tax_revenue_at (self : Analyzer) (i : nat) (noise : float)
  : float :=
  let base_tax := of_Q (budget_base (config self)) * 0.25 in
  let growth := 1 + 0.015 * of_Z (Z.of_nat i) in
  base_tax * growth * noise.

Definition state_grants_at (self : Analyzer) (date : Timestamp)
    (noise : float) : float :=
  let base_grants := of_Q (budget_base (config self)) * 0.55 in
  let year := year date in
  let increase :=
    if (2010 <=? year)%Z then 1 + 0.012 * of_Z (year - 2010) else 1 in
  base_grants * increase * noise.

Definition territorial_grants_at (self : Analyzer) (date : Timestamp)
    (noise : float) : float :=
  let base_grants := of_Q (budget_base (config self)) * 0.12 in
  let year := year date in
  let increase :=
    if (2005 <=? year)%Z then 1 + 0.01 * of_Z (year - 2005) else 1 in
  base_grants * increase * noise.

Definition other_revenue_at (self : Analyzer) (i : nat) (noise : float)
  : float :=
  let base_other := of_Q (budget_base (config self)) * 0.08 in
  let growth := 1 + 0.018 * of_Z (Z.of_nat i) in
  base_other * growth * noise.

(** Two neighbouring doubles, written with 17 digits. *)
Definition fishing_hihifo_2007 : float := 5.2093440000000015.

Definition fishing_hihifo_2007_from_trend : float := 5.2093440000000006.

(** The cycle multiplier of the fishing investment times the value of the
    trend alone at index [i]. *)
Definition fishing_cycle_of_trend (self : Analyzer) (i : nat) : float :=
  1.7 * fishing_trend_only self i.

(** [value == 1.7 * trend] for the fishing investment at index [i] and
    date [date], with the noise at 1. *)
Definition fishing_is_multiple (self : Analyzer) (i : nat)
    (date : Timestamp) : bool :=
  PrimFloat.eqb (fishing_investment_at self i date 1)
                (fishing_cycle_of_trend self i).

(** [taxes + state + territorial + other == revenue] in the first year,
    with the noise at 1. *)
Definition first_year_revenue_adds_up (self : Analyzer) : bool :=
  let date := mkTimestamp 2002 12 31 in
  PrimFloat.eqb
    (tax_revenue_at self 0 1 + state_grants_at self date 1
     + territorial_grants_at self date 1 + other_revenue_at self 0 1)
    (total_revenue_at self 0 1).

End Double.

(* ------------------------------------------------------------------ *)
(** * Properties *)

(* ------------------------------------------------------------------ *)
(** ** Containers *)

Lemma getitem_setitem {V} (d : Py.dict V) k v k' :
  Py.getitem (Py.setitem d k v) k' =
  if String.eqb k k' then Some v else Py.getitem d k'.
Proof.
  induction d as [|[k0 v0] d IH]; simpl.
  - reflexivity.
  - destruct (String.eqb k0 k) eqn:E0; simpl.
    + apply String.eqb_eq in E0; subst k0.
      destruct (String.eqb k k'); reflexivity.
    + rewrite IH. destruct (String.eqb k0 k') eqn:E1; [|reflexivity].
      apply String.eqb_eq in E1; subst k0.
      rewrite String.eqb_sym, E0. reflexivity.
Qed.

Lemma setitem_keys {V} (d : Py.dict V) k v v0 :
  Py.getitem d k = Some v0 ->
  map fst (Py.setitem d k v) = map fst d.
Proof.
  induction d as [|[k1 v1] d IH]; simpl; [discriminate|].
  destruct (String.eqb k1 k); simpl; [reflexivity|].
  intros H. rewrite (IH H). reflexivity.
Qed.

Lemma setitem_In {V} (d : Py.dict V) k v k' v' :
  In (k', v') (Py.setitem d k v) -> In (k', v') d \/ (k' = k /\ v' = v).
Proof.
  induction d as [|[k1 v1] d IH]; simpl.
  - intros [H|[]]. inversion H. right. split; reflexivity.
  - destruct (String.eqb k1 k) eqn:E; simpl.
    + apply String.eqb_eq in E; subst k1.
      intros [H|H];
        [inversion H; right; split; reflexivity | left; right; exact H].
    + intros [H|H]; [left; left; exact H|].
      destruct (IH H) as [H'|H']; [left; right; exact H' | right; exact H'].
Qed.

Lemma list_set_length {A} (xs : list A) i v :
  length (Py.list_set xs i v) = length xs.
Proof.
  revert i; induction xs as [|x xs IH]; intros [|i]; simpl; auto.
Qed.

Lemma list_set_nth {A} (xs : list A) i v j :
  nth_error (Py.list_set xs i v) j =
  if Nat.eqb j i then option_map (fun _ => v) (nth_error xs j)
  else nth_error xs j.
Proof.
  revert i j; induction xs as [|x xs IH]; intros i j.
  - destruct j, i; simpl; try reflexivity. now destruct (Nat.eqb j i).
  - destruct j, i; simpl; try reflexivity. apply IH.
Qed.

(* ------------------------------------------------------------------ *)
(** ** The loops of the generators *)

Lemma advance_advance st a b : advance (advance st a) b = advance st (a + b).
Proof. unfold advance; simpl. f_equal. lia. Qed.

Lemma advance_0 st : advance st 0 = st.
Proof. destruct st; unfold advance; simpl. f_equal. lia. Qed.

Lemma noise_at_advance st a scale k :
  noise_at (advance st a) scale k = noise_at st scale (a + k).
Proof. unfold noise_at; simpl. do 3 f_equal. lia. Qed.

Lemma for_enumerate_run {A} (body : nat -> A -> Rand Q) scale f :
  noisy body scale f ->
  forall xs i acc st,
  exists out,
    for_enumerate body i xs acc st = (acc ++ out, advance st (length xs)) /\
    length out = length xs /\
    forall j x, nth_error xs j = Some x ->
      nth_error out j = Some (f (i + j)%nat x (noise_at st scale j)).
Proof.
  intros Hb xs. induction xs as [|x xs IH]; intros i acc st; simpl.
  - exists []. rewrite app_nil_r, advance_0. unfold ret.
    repeat split. intros [|j] y; discriminate.
  - unfold bind at 1. rewrite Hb. unfold bind, normal, ret.
    destruct (IH (S i) (acc ++ [f i x (1 + scale * gauss st (drawn st))])
                (advance st 1)) as (out & Hrun & Hlen & Hnth).
    exists (f i x (1 + scale * gauss st (drawn st)) :: out).
    rewrite Hrun, advance_advance, <- app_assoc. simpl.
    repeat split.
    + now rewrite Hlen.
    + intros [|j] y Hy; simpl in *.
      * inversion Hy; subst y. unfold noise_at.
        now rewrite Nat.add_0_r, Nat.add_0_r.
      * rewrite (Hnth j y Hy), noise_at_advance.
        now rewrite Nat.add_succ_r.
Qed.

Lemma for_enumerate_state {A} (body : nat -> A -> Rand Q) scale f :
  noisy body scale f ->
  forall xs st,
    for_enumerate body 0 xs [] st =
    (fst (for_enumerate body 0 xs [] st), advance st (length xs)).
Proof.
  intros Hb xs st.
  destruct (for_enumerate_run body scale f Hb xs 0%nat [] st)
    as (out & Hrun & _). now rewrite Hrun.
Qed.

Lemma for_enumerate_length {A} (body : nat -> A -> Rand Q) scale f :
  noisy body scale f ->
  forall xs st, length (fst (for_enumerate body 0 xs [] st)) = length xs.
Proof.
  intros Hb xs st.
  destruct (for_enumerate_run body scale f Hb xs 0%nat [] st)
    as (out & Hrun & Hlen & _). now rewrite Hrun.
Qed.

Lemma for_enumerate_nth {A} (body : nat -> A -> Rand Q) scale f :
  noisy body scale f ->
  forall xs st j x, nth_error xs j = Some x ->
    nth_error (fst (for_enumerate body 0 xs [] st)) j =
    Some (f j x (noise_at st scale j)).
Proof.
  intros Hb xs st j x Hx.
  destruct (for_enumerate_run body scale f Hb xs 0%nat [] st)
    as (out & Hrun & _ & Hnth). rewrite Hrun. simpl. now apply Hnth.
Qed.

Lemma for_enumerate_pure_run {A B} (body : nat -> A -> B) :
  forall xs i acc,
  exists out,
    for_enumerate_pure body i xs acc = acc ++ out /\
    length out = length xs /\
    forall j x, nth_error xs j = Some x ->
      nth_error out j = Some (body (i + j)%nat x).
Proof.
  induction xs as [|x xs IH]; intros i acc; simpl.
  - exists []. rewrite app_nil_r. repeat split. intros [|j] y; discriminate.
  - destruct (IH (S i) (acc ++ [body i x])) as (out & Hrun & Hlen & Hnth).
    exists (body i x :: out). rewrite Hrun, <- app_assoc. simpl.
    repeat split.
    + now rewrite Hlen.
    + intros [|j] y Hy; simpl in *.
      * inversion Hy; subst y. now rewrite Nat.add_0_r.
      * rewrite (Hnth j y Hy). now rewrite Nat.add_succ_r.
Qed.

Lemma for_enumerate_pure_length {A B} (body : nat -> A -> B) xs :
  length (for_enumerate_pure body 0 xs []) = length xs.
Proof.
  destruct (for_enumerate_pure_run body xs 0%nat []) as (out & Hrun & Hlen & _).
  now rewrite Hrun.
Qed.

Lemma for_enumerate_pure_nth {A B} (body : nat -> A -> B) xs j x :
  nth_error xs j = Some x ->
  nth_error (for_enumerate_pure body 0 xs []) j = Some (body j x).
Proof.
  intros Hx.
  destruct (for_enumerate_pure_run body xs 0%nat []) as (out & Hrun & _ & Hnth).
  rewrite Hrun. simpl. now apply Hnth.
Qed.

(* ------------------------------------------------------------------ *)
(** ** One assignment, one row, the whole pass *)

Lemma loc_imul_cell df i c f df' :
  loc_imul df i c f = Some df' ->
  index df' = index df /\
  map fst (columns df') = map fst (columns df) /\
  forall c' j,
    cell df' c' j =
    if String.eqb c c' && Nat.eqb j i
    then option_map (fun x => x * f) (cell df c' j)
    else cell df c' j.
Proof.
  unfold loc_imul.
  destruct (Py.getitem (columns df) c) as [v|] eqn:Hv; [|discriminate].
  destruct (nth_error v i) as [x|] eqn:Hx; [|discriminate].
  intros H; inversion H; subst df'; clear H. simpl.
  split; [reflexivity|]. split; [eapply setitem_keys; eassumption|].
  intros c' j. unfold cell; simpl. rewrite getitem_setitem.
  destruct (String.eqb c c') eqn:E; simpl; [|reflexivity].
  apply String.eqb_eq in E; subst c'. rewrite Hv, list_set_nth.
  destruct (Nat.eqb j i) eqn:Ej; [|reflexivity].
  apply Nat.eqb_eq in Ej; subst j. rewrite Hx. reflexivity.
Qed.

Lemma loc_imul_columns df i c f df' :
  loc_imul df i c f = Some df' ->
  forall c' v', In (c', v') (columns df') ->
    exists v, In (c', v) (columns df) /\ length v' = length v.
Proof.
  unfold loc_imul.
  destruct (Py.getitem (columns df) c) as [v|] eqn:Hv; [|discriminate].
  destruct (nth_error v i) as [x|] eqn:Hx; [|discriminate].
  intros H; inversion H; subst df'; clear H. simpl.
  intros c' v' Hin. apply setitem_In in Hin. destruct Hin as [Hin|[-> ->]].
  - exists v'. split; [exact Hin | reflexivity].
  - exists v. split; [|apply list_set_length].
    clear Hx. induction (columns df) as [|[k w] d IH]; simpl in *;
      [discriminate|].
    destruct (String.eqb k c) eqn:E.
    + apply String.eqb_eq in E; subst k. inversion Hv; subst w. now left.
    + right. now apply IH.
Qed.

Lemma loc_imul_some df i c f :
  cell df c i <> None -> exists df', loc_imul df i c f = Some df'.
Proof.
  unfold cell, loc_imul.
  destruct (Py.getitem (columns df) c) as [v|]; [|congruence].
  destruct (nth_error v i) as [x|]; [|congruence].
  intros _. eexists; reflexivity.
Qed.

Lemma loc_imul_all_cell i rs : forall df df',
  loc_imul_all i rs df = Some df' ->
  index df' = index df /\
  map fst (columns df') = map fst (columns df) /\
  forall c j,
    cell df' c j =
    if Nat.eqb j i then option_map (apply_rules rs c) (cell df c j)
    else cell df c j.
Proof.
  induction rs as [|[c0 f] rs IH]; intros df df'; simpl.
  - intros H; inversion H; subst df'. repeat split.
    intros c j. destruct (Nat.eqb j i); [|reflexivity].
    now destruct (cell df c j).
  - destruct (loc_imul df i c0 f) as [d1|] eqn:H1; simpl; [|discriminate].
    intros H2. destruct (loc_imul_cell _ _ _ _ _ H1) as (Hi1 & Hk1 & Hc1).
    destruct (IH _ _ H2) as (Hi2 & Hk2 & Hc2).
    split; [congruence|]. split; [congruence|].
    intros c j. rewrite Hc2, Hc1.
    destruct (Nat.eqb j i); [|now rewrite andb_false_r].
    rewrite andb_true_r.
    destruct (String.eqb c0 c); destruct (cell df c j); reflexivity.
Qed.

Lemma loc_imul_all_columns i rs : forall df df',
  loc_imul_all i rs df = Some df' ->
  forall c' v', In (c', v') (columns df') ->
    exists v, In (c', v) (columns df) /\ length v' = length v.
Proof.
  induction rs as [|[c0 f] rs IH]; intros df df'; simpl.
  - intros H; inversion H; subst df'. intros c' v' Hin.
    exists v'. now split.
  - destruct (loc_imul df i c0 f) as [d1|] eqn:H1; simpl; [|discriminate].
    intros H2 c' v' Hin.
    destruct (IH _ _ H2 _ _ Hin) as (v1 & Hin1 & Hl1).
    destruct (loc_imul_columns _ _ _ _ _ H1 _ _ Hin1) as (v & Hin0 & Hl0).
    exists v. split; [exact Hin0 | congruence].
Qed.

Lemma loc_imul_all_some i rs : forall df,
  (forall c f, In (c, f) rs -> cell df c i <> None) ->
  exists df', loc_imul_all i rs df = Some df'.
Proof.
  induction rs as [|[c0 f] rs IH]; intros df Hall; simpl.
  - eexists; reflexivity.
  - destruct (loc_imul_some df i c0 f) as (d1 & H1).
    { apply (Hall c0 f). now left. }
    rewrite H1; simpl. apply IH. intros c g Hin.
    destruct (loc_imul_cell _ _ _ _ _ H1) as (_ & _ & Hc). rewrite Hc.
    specialize (Hall c g (or_intror Hin)).
    destruct (String.eqb c0 c && Nat.eqb i i); [|exact Hall].
    destruct (cell df c i); [discriminate | congruence].
Qed.

(** When the assignments succeed, every assigned cell had a value. *)
Lemma loc_imul_all_defined i rs : forall df df',
  loc_imul_all i rs df = Some df' ->
  forall c f, In (c, f) rs -> cell df c i <> None.
Proof.
  induction rs as [|[c0 f0] rs IH]; intros df df'; simpl.
  - intros _ c f [].
  - destruct (loc_imul df i c0 f0) as [d1|] eqn:H1; simpl; [|discriminate].
    intros H2 c f [Hin|Hin].
    + inversion Hin; subst c0 f0. revert H1. unfold loc_imul, cell.
      destruct (Py.getitem (columns df) c) as [v|]; [|discriminate].
      destruct (nth_error v i); [discriminate | discriminate].
    + pose proof (IH _ _ H2 c f Hin) as Hd.
      destruct (loc_imul_cell _ _ _ _ _ H1) as (_ & _ & Hc).
      rewrite Hc in Hd.
      destruct (String.eqb c0 c && Nat.eqb i i); [|exact Hd].
      destruct (cell df c i); [discriminate | exact Hd].
Qed.

(** The loop body makes exactly the assignments of [shock_rules]. *)
Lemma trends_row_rules i year df :
  _add_municipal_trends_row i year df = loc_imul_all i (shock_rules year) df.
Proof.
  unfold _add_municipal_trends_row, shock_rules.
  destruct (Qle_bool 2002 year && Qle_bool year 2005);
  destruct (Qle_bool 2008 year && Qle_bool year 2009);
  destruct (Qle_bool 2010 year && Qle_bool year 2015);
  destruct (Qle_bool 2020 year && Qle_bool year 2021);
  destruct (Qeq_bool year 2020);
  destruct (Qle_bool 2022 year); simpl;
  repeat match goal with
    | |- context [loc_imul ?d ?j ?c ?f] =>
        destruct (loc_imul d j c f); simpl; try reflexivity
    end; reflexivity.
Qed.

Lemma shock_rules_columns year c f :
  In (c, f) (shock_rules year) -> In c shock_columns.
Proof.
  unfold shock_rules, shock_columns.
  destruct (Qle_bool 2002 year && Qle_bool year 2005);
  destruct (Qle_bool 2008 year && Qle_bool year 2009);
  destruct (Qle_bool 2010 year && Qle_bool year 2015);
  destruct (Qle_bool 2020 year && Qle_bool year 2021);
  destruct (Qeq_bool year 2020);
  destruct (Qle_bool 2022 year); simpl; intros H;
  repeat (destruct H as [H|H]; [inversion H; subst; simpl; tauto|]);
  destruct H.
Qed.

#[global] Instance shock_rules_compat : Proper (Qeq ==> eq) shock_rules.
Proof.
  intros y y' Hy. unfold shock_rules.
  assert (Hle : forall a, Qle_bool a y = Qle_bool a y')
    by (intros a; now rewrite Hy).
  assert (Hge : forall a, Qle_bool y a = Qle_bool y' a)
    by (intros a; now rewrite Hy).
  assert (Heq : forall a, Qeq_bool y a = Qeq_bool y' a)
    by (intros a; now rewrite Hy).
  now rewrite !Hle, !Hge, !Heq.
Qed.

(** A column that is not assigned to keeps its value. *)
Lemma apply_rules_frame rs c x :
  (forall f, ~ In (c, f) rs) -> apply_rules rs c x = x.
Proof.
  revert x; induction rs as [|[c0 f] rs IH]; intros x Hn; simpl.
  - reflexivity.
  - destruct (String.eqb c0 c) eqn:E.
    + apply String.eqb_eq in E; subst c0. exfalso. apply (Hn f). now left.
    + apply IH. intros g Hg. apply (Hn g). now right.
Qed.

Lemma trends_loop_cell df0 : forall n a df df',
  _add_municipal_trends_loop
    (map (fun i => (i, fun c => cell df0 c i)) (seq a n)) df = Some df' ->
  index df' = index df /\
  map fst (columns df') = map fst (columns df) /\
  (forall c' v', In (c', v') (columns df') ->
     exists v, In (c', v) (columns df) /\ length v' = length v) /\
  forall c j,
    ((a <= j < a + n)%nat ->
       exists y, cell df0 "Annee" j = Some y /\
         cell df' c j = option_map (apply_rules (shock_rules y) c) (cell df c j)
         /\ (forall f, In (c, f) (shock_rules y) -> cell df c j <> None))
    /\ (~ (a <= j < a + n)%nat -> cell df' c j = cell df c j).
Proof.
  induction n as [|n IH]; intros a df df'; simpl.
  - intros H; inversion H; subst df'. repeat split; try lia.
    + intros c' v' Hin. exists v'. now split.
  - destruct (cell df0 "Annee" a) as [y|] eqn:Hy; simpl; [|discriminate].
    rewrite trends_row_rules.
    destruct (loc_imul_all a (shock_rules y) df) as [d1|] eqn:H1; simpl;
      [|discriminate].
    intros H2.
    destruct (loc_imul_all_cell _ _ _ _ H1) as (Hi1 & Hk1 & Hc1).
    destruct (IH _ _ _ H2) as (Hi2 & Hk2 & Hcol2 & Hc2).
    split; [congruence|]. split; [congruence|]. split.
    { intros c' v' Hin. destruct (Hcol2 _ _ Hin) as (v1 & Hin1 & Hl1).
      destruct (loc_imul_all_columns _ _ _ _ H1 _ _ Hin1) as (v & Hin0 & Hl0).
      exists v. split; [exact Hin0 | congruence]. }
    intros c j. destruct (Hc2 c j) as (Hin & Hout). split.
    + intros Hj. destruct (Nat.eq_dec j a) as [->|Hne].
      * exists y. split; [exact Hy|]. split.
        -- rewrite Hout by lia. rewrite Hc1, Nat.eqb_refl. reflexivity.
        -- intros f Hf. exact (loc_imul_all_defined _ _ _ _ H1 c f Hf).
      * destruct Hin as (y' & Hy' & Hc' & Hd'); [lia|].
        apply Nat.eqb_neq in Hne.
        exists y'. split; [exact Hy'|]. split.
        -- rewrite Hc', Hc1. now rewrite Hne.
        -- intros f Hf. specialize (Hd' f Hf). rewrite Hc1, Hne in Hd'.
           exact Hd'.
    + intros Hj. rewrite Hout by lia. rewrite Hc1.
      assert (Hne : Nat.eqb j a = false) by (apply Nat.eqb_neq; lia).
      now rewrite Hne.
Qed.

Lemma trends_loop_some df0 : forall n a df,
  (forall j, (a <= j < a + n)%nat ->
     cell df0 "Annee" j <> None /\
     forall c, In c shock_columns -> cell df c j <> None) ->
  exists df',
    _add_municipal_trends_loop
      (map (fun i => (i, fun c => cell df0 c i)) (seq a n)) df = Some df'.
Proof.
  induction n as [|n IH]; intros a df Hall; simpl.
  - eexists; reflexivity.
  - destruct (Hall a ltac:(lia)) as (Hy & Hcols).
    destruct (cell df0 "Annee" a) as [y|]; [|congruence]. simpl.
    rewrite trends_row_rules.
    destruct (loc_imul_all_some a (shock_rules y) df) as (d1 & H1).
    { intros c f Hin. apply Hcols. eapply shock_rules_columns; eassumption. }
    rewrite H1; simpl. apply IH. intros j Hj.
    destruct (Hall j ltac:(lia)) as (Hyj & Hcj). split; [exact Hyj|].
    intros c Hc. destruct (loc_imul_all_cell _ _ _ _ H1) as (_ & _ & Hc1).
    rewrite Hc1. assert (Hne : Nat.eqb j a = false) by (apply Nat.eqb_neq; lia).
    rewrite Hne. now apply Hcj.
Qed.

(** The pass, cell by cell: the row at [j] gets the assignments of its
    year, once; nothing else changes. *)
Lemma trends_cell df df' :
  _add_municipal_trends df = Some df' ->
  index df' = index df /\
  map fst (columns df') = map fst (columns df) /\
  (forall c' v', In (c', v') (columns df') ->
     exists v, In (c', v) (columns df) /\ length v' = length v) /\
  forall c j,
    ((j < index df)%nat ->
       exists y, cell df "Annee" j = Some y /\
         cell df' c j = option_map (apply_rules (shock_rules y) c) (cell df c j)
         /\ (forall f, In (c, f) (shock_rules y) -> cell df c j <> None))
    /\ ((index df <= j)%nat -> cell df' c j = cell df c j).
Proof.
  unfold _add_municipal_trends, iterrows. intros H.
  destruct (trends_loop_cell _ _ _ _ _ H) as (Hi & Hk & Hcol & Hc).
  repeat split; try assumption.
  - intros Hj. apply (proj1 (Hc c j)). lia.
  - intros Hj. apply (proj2 (Hc c j)). lia.
Qed.


(** Totality of the pass: it raises nothing on a table whose year column
    and eight assigned columns have a value in every row. *)
Lemma trends_some df :
  (forall j, (j < index df)%nat ->
     cell df "Annee" j <> None /\
     forall c, In c shock_columns -> cell df c j <> None) ->
  exists df', _add_municipal_trends df = Some df'.
Proof.
  intros H. unfold _add_municipal_trends, iterrows.
  apply trends_loop_some. intros j Hj. apply H. lia.
Qed.

Lemma getitem_keys {V} (d : Py.dict V) : forall (d' : Py.dict V) c,
  map fst d = map fst d' ->
  Py.getitem d c = None -> Py.getitem d' c = None.
Proof.
  induction d as [|[k v] d IH]; intros [|[k' v'] d'] c Hk; simpl in *;
    try discriminate; try reflexivity.
  inversion Hk; subst k'.
  destruct (String.eqb k c); [discriminate|]. now apply IH.
Qed.

Lemma getitem_absent {V} (d : Py.dict V) k :
  ~ In k (map fst d) -> Py.getitem d k = None.
Proof.
  induction d as [|[k' v] d IH]; simpl; intros Hn; [reflexivity|].
  destruct (String.eqb k' k) eqn:E.
  - apply String.eqb_eq in E. exfalso. apply Hn. now left.
  - apply IH. intros Hin. apply Hn. now right.
Qed.

(* ------------------------------------------------------------------ *)
(** ** The configuration lookup *)

Lemma configs_default : Py.getitem configs "default" = Some default_config.
Proof. reflexivity. Qed.

(** Every configuration the lookup can return has positive bases. *)
Lemma config_positive name :
  0 < population_base (_get_commune_config name) /\
  0 < budget_base (_get_commune_config name).
Proof.
  unfold _get_commune_config, Py.get, configs. cbn [Py.getitem].
  repeat match goal with
    | |- context [String.eqb ?a name] => destruct (String.eqb a name)
    end; split; reflexivity.
Qed.

(** C4.  A subdivision name that is not a key of the registry resolves to
    the default configuration, value for value: population base 2000,
    budget base 30, category district and the default specialities; this is
    also what the key "default" itself resolves to.  The lookup is a total
    function, it cannot fail. *)
Theorem C4_unknown_name_default (name : string) :
  ~ In name (map fst configs) ->
  _get_commune_config name = default_config /\
  _get_commune_config name = _get_commune_config "default" /\
  config (WallisFutunaCommuneFinanceAnalyzer name) = default_config /\
  default_config =
    mkConfig 2000 30 "district"
      ["agriculture"; "peche"; "artisanat"; "services_locaux"]%string.
Proof.
  intros Hn.
  assert (E : _get_commune_config name = default_config).
  { unfold _get_commune_config, Py.get.
    now rewrite (getitem_absent _ _ Hn). }
  unfold WallisFutunaCommuneFinanceAnalyzer; cbn [config].
  rewrite E. repeat split; reflexivity.
Qed.

Lemma C4_unknown_name_default_witness :
  _get_commune_config "Uvea" = default_config /\
  _get_commune_config "Uvea" = _get_commune_config "default" /\
  config (WallisFutunaCommuneFinanceAnalyzer "Uvea") = default_config /\
  default_config =
    mkConfig 2000 30 "district"
      ["agriculture"; "peche"; "artisanat"; "services_locaux"]%string.
Proof.
  apply (C4_unknown_name_default "Uvea").
  simpl. intros H.
  repeat (destruct H as [H|H]; [discriminate H|]). exact H.
Defined.

(* ------------------------------------------------------------------ *)
(** ** The pass on an arbitrary table *)

Lemma option_map_id {A} (f : A -> A) (o : option A) :
  (forall x, f x = x) -> option_map f o = o.
Proof. intros H. destruct o; simpl; [now rewrite H | reflexivity]. Qed.

(** C3.  In the pass, a row of year 2007 gets none of the 2008-2009
    adjustments (no cell of that row changes at all), and a row of year
    2008 or 2009 has its total revenue multiplied by 0.94, its investment
    expense by 0.85 and its other revenue by 0.88, each exactly once: the
    bounds of the window are inclusive. *)
Theorem C3_crisis_window_bounds (df df' : DataFrame) (i : nat) (y : Q) :
  _add_municipal_trends df = Some df' ->
  (i < index df)%nat ->
  cell df "Annee" i = Some y ->
  (y == 2007 -> forall c, cell df' c i = cell df c i) /\
  (y == 2008 \/ y == 2009 ->
     exists revenue investment other,
       cell df "Recettes_Totales" i = Some revenue /\
       cell df "Investissement" i = Some investment /\
       cell df "Autres_Recettes" i = Some other /\
       cell df' "Recettes_Totales" i = Some (revenue * 0.94) /\
       cell df' "Investissement" i = Some (investment * 0.85) /\
       cell df' "Autres_Recettes" i = Some (other * 0.88)).
Proof.
  intros Hrun Hi Hy.
  destruct (trends_cell _ _ Hrun) as (_ & _ & _ & Hc).
  assert (Hcell : forall c,
            cell df' c i =
              option_map (apply_rules (shock_rules y) c) (cell df c i) /\
            (forall f, In (c, f) (shock_rules y) -> cell df c i <> None)).
  { intros c. destruct (proj1 (Hc c i) Hi) as (y' & Hy' & Hc' & Hd').
    rewrite Hy in Hy'. inversion Hy'; subst y'. split; assumption. }
  split.
  - intros E c. rewrite (proj1 (Hcell c)), (shock_rules_compat _ _ E).
    apply option_map_id. reflexivity.
  - intros E.
    assert (Hrules : shock_rules y =
              [("Recettes_Totales"%string, 0.94);
               ("Investissement"%string, 0.85);
               ("Autres_Recettes"%string, 0.88)]).
    { destruct E as [E|E]; now rewrite (shock_rules_compat _ _ E). }
    destruct (Hcell "Recettes_Totales"%string) as (H1 & D1).
    destruct (Hcell "Investissement"%string) as (H2 & D2).
    destruct (Hcell "Autres_Recettes"%string) as (H3 & D3).
    rewrite Hrules in *.
    destruct (cell df "Recettes_Totales" i) as [revenue|];
      [|exfalso; apply (D1 0.94); [simpl; tauto | reflexivity]].
    destruct (cell df "Investissement" i) as [investment|];
      [|exfalso; apply (D2 0.85); [simpl; tauto | reflexivity]].
    destruct (cell df "Autres_Recettes" i) as [other|];
      [|exfalso; apply (D3 0.88); [simpl; tauto | reflexivity]].
    exists revenue, investment, other.
    rewrite H1, H2, H3. repeat split; reflexivity.
Qed.

Lemma C3_crisis_window_bounds_witness :
  (forall c, cell crisis_table_after c 0 = cell crisis_table c 0) /\
  cell crisis_table_after "Recettes_Totales" 1 = Some (200 * 0.94) /\
  cell crisis_table_after "Investissement" 1 = Some (20 * 0.85) /\
  cell crisis_table_after "Autres_Recettes" 1 = Some (2 * 0.88).
Proof.
  assert (Hrun : _add_municipal_trends crisis_table = Some crisis_table_after)
    by reflexivity.
  split.
  - apply (proj1 (C3_crisis_window_bounds crisis_table crisis_table_after
                    0 2007 Hrun ltac:(simpl; lia) eq_refl)).
    reflexivity.
  - destruct (proj2 (C3_crisis_window_bounds crisis_table crisis_table_after
                       1 2008 Hrun ltac:(simpl; lia) eq_refl))
      as (r & v & o & Hr & Hv & Ho & Hr' & Hv' & Ho').
    + left. reflexivity.
    + inversion Hr; subst r. inversion Hv; subst v. inversion Ho; subst o.
      repeat split; assumption.
Defined.

(** A column the pass does not assign to is the same list afterwards. *)
Lemma trends_frame_column (df df' : DataFrame) (c : string) :
  _add_municipal_trends df = Some df' ->
  ~ In c shock_columns ->
  Py.getitem (columns df') c = Py.getitem (columns df) c.
Proof.
  intros Hrun Hn.
  destruct (trends_cell _ _ Hrun) as (Hi & Hk & _ & Hc).
  assert (Hcell : forall j, cell df' c j = cell df c j).
  { intros j. destruct (Nat.lt_ge_cases j (index df)) as [Hj|Hj].
    - destruct (proj1 (Hc c j) Hj) as (y & _ & -> & _).
      apply option_map_id. intros x. apply apply_rules_frame.
      intros f Hin. apply Hn. eapply shock_rules_columns; eassumption.
    - apply (proj2 (Hc c j) Hj). }
  unfold cell in Hcell.
  destruct (Py.getitem (columns df') c) as [v'|] eqn:E';
    destruct (Py.getitem (columns df) c) as [v|] eqn:E.
  - f_equal. apply nth_error_ext. exact Hcell.
  - rewrite (getitem_keys _ _ _ (eq_sym Hk) E) in E'. discriminate.
  - rewrite (getitem_keys _ _ _ Hk E') in E. discriminate.
  - reflexivity.
Qed.

Ltac not_a_shock_column :=
  unfold shock_columns; simpl; intros H;
  repeat (destruct H as [H|H]; [discriminate H|]); exact H.

(** C8.  The pass assigns only to the eight columns of its rules: every
    other column (the fifteen remaining columns of the generated table
    among them) is the same list after the pass as before, in every row;
    the index and the column labels do not change either. *)
Theorem C8_trends_frame (df df' : DataFrame) :
  _add_municipal_trends df = Some df' ->
  index df' = index df /\
  map fst (columns df') = map fst (columns df) /\
  (forall c, ~ In c shock_columns ->
     Py.getitem (columns df') c = Py.getitem (columns df) c) /\
  Forall (fun c => Py.getitem (columns df') c = Py.getitem (columns df) c)
    [ "Annee"; "Population"; "Menages"; "Impots_Locaux";
      "Dotations_Territoriales"; "Depenses_Totales"; "Fonctionnement";
      "Charge_Dette"; "Personnel"; "Epargne_Brute"; "Dette_Totale";
      "Taux_Endettement"; "Taux_Fiscalite"; "Investissement_Transport";
      "Investissement_Culture" ]%string.
Proof.
  intros Hrun.
  destruct (trends_cell _ _ Hrun) as (Hi & Hk & _ & _).
  repeat split; try assumption.
  - intros c Hn. now apply trends_frame_column.
  - repeat constructor; apply trends_frame_column; try assumption;
      not_a_shock_column.
Qed.

Lemma C8_trends_frame_witness :
  index crisis_table_after = index crisis_table /\
  map fst (columns crisis_table_after) = map fst (columns crisis_table) /\
  (forall c, ~ In c shock_columns ->
     Py.getitem (columns crisis_table_after) c =
     Py.getitem (columns crisis_table) c) /\
  Forall (fun c => Py.getitem (columns crisis_table_after) c =
                   Py.getitem (columns crisis_table) c)
    [ "Annee"; "Population"; "Menages"; "Impots_Locaux";
      "Dotations_Territoriales"; "Depenses_Totales"; "Fonctionnement";
      "Charge_Dette"; "Personnel"; "Epargne_Brute"; "Dette_Totale";
      "Taux_Endettement"; "Taux_Fiscalite"; "Investissement_Transport";
      "Investissement_Culture" ]%string.
Proof.
  apply (C8_trends_frame crisis_table crisis_table_after). reflexivity.
Defined.

(* ------------------------------------------------------------------ *)
(** ** The series, value by value *)

(** The value at [j] of a generator whose loop draws one noise value. *)
Ltac series_nth H :=
  erewrite for_enumerate_nth; [ | intros ? ?; reflexivity | exact H ];
  cbv beta zeta.

Lemma Zcontains_true x xs : In x xs -> Py.Zcontains x xs = true.
Proof.
  intros H. apply existsb_exists. exists x. split; [exact H | apply Z.eqb_refl].
Qed.

Lemma Zcontains_false x xs : ~ In x xs -> Py.Zcontains x xs = false.
Proof.
  intros H. destruct (Py.Zcontains x xs) eqn:E; [|reflexivity].
  apply existsb_exists in E. destruct E as (y & Hy & Exy).
  apply Z.eqb_eq in Exy; subst y. contradiction.
Qed.

Lemma idx_nonneg i : 0 <= idx i.
Proof.
  unfold idx. change 0 with (inject_Z 0). rewrite <- Zle_Qle. lia.
Qed.

Lemma noise_at_one st scale k : all_draws st 0 -> noise_at st scale k == 1.
Proof.
  intros H. unfold noise_at. rewrite (H _). ring.
Qed.

(** C6.  The debt ratio and the tax rate start from the constants 0.70 and
    0.80, whatever the configuration; the factor of the trend is exactly 1
    for every year before 2010, and from 2010 on it is linear in
    [year - 2010]: minus 0.01 a year for the debt ratio, plus 0.004 a year
    for the tax rate.  The noise draw multiplies the result. *)
Theorem C6_ratio_series (self : Analyzer) (dates : list Timestamp)
    (st : RandomState) (i : nat) (d : Timestamp) :
  nth_error dates i = Some d ->
  ((year d < 2010)%Z ->
     nth_error (fst (_simulate_debt_ratio self dates st)) i =
       Some (0.70 * 1 * noise_at st 0.07 i) /\
     nth_error (fst (_simulate_tax_rate self dates st)) i =
       Some (0.80 * 1 * noise_at st 0.04 i)) /\
  ((2010 <= year d)%Z ->
     nth_error (fst (_simulate_debt_ratio self dates st)) i =
       Some (0.70 * (1 - 0.01 * inject_Z (year d - 2010))
             * noise_at st 0.07 i) /\
     nth_error (fst (_simulate_tax_rate self dates st)) i =
       Some (0.80 * (1 + 0.004 * inject_Z (year d - 2010))
             * noise_at st 0.04 i)) /\
  (forall self',
     _simulate_debt_ratio self' dates st = _simulate_debt_ratio self dates st /\
     _simulate_tax_rate self' dates st = _simulate_tax_rate self dates st).
Proof.
  intros H. unfold _simulate_debt_ratio, _simulate_tax_rate.
  repeat split.
  - series_nth H.
    assert (E : (2010 <=? year d)%Z = false) by (apply Z.leb_gt; lia).
    now rewrite E.
  - series_nth H.
    assert (E : (2010 <=? year d)%Z = false) by (apply Z.leb_gt; lia).
    now rewrite E.
  - series_nth H.
    assert (E : (2010 <=? year d)%Z = true) by (apply Z.leb_le; lia).
    now rewrite E.
  - series_nth H.
    assert (E : (2010 <=? year d)%Z = true) by (apply Z.leb_le; lia).
    now rewrite E.
Qed.

(** C10.  The total debt has no growth term: in a year of neither list of
    change years the value is the budget base times 0.75 (times the factor
    1.0) times the noise draw, whatever the index of the year. *)
Theorem C10_total_debt_flat (self : Analyzer) (dates : list Timestamp)
    (st : RandomState) (i : nat) (d : Timestamp) :
  nth_error dates i = Some d ->
  ~ In (year d) [2006; 2012; 2018; 2023]%Z ->
  ~ In (year d) [2009; 2015; 2021]%Z ->
  nth_error (fst (_simulate_total_debt self dates st)) i =
    Some (budget_base (config self) * 0.75 * 1.0 * noise_at st 0.09 i) /\
  budget_base (config self) * 0.75 * 1.0 == budget_base (config self) * 0.75.
Proof.
  intros H H1 H2. split; [|ring].
  unfold _simulate_total_debt. series_nth H.
  now rewrite (Zcontains_false _ _ H1), (Zcontains_false _ _ H2).
Qed.

Lemma trend_only_pos s self i :
  0 < budget_base (config self) -> 0 < trend_only s self i.
Proof.
  intros Hb. pose proof (idx_nonneg i) as Hi.
  destruct s; unfold trend_only;
    match goal with
    | |- context [if ?b then _ else _] => destruct b
    end;
    repeat apply Qmult_lt_0_compat; try exact Hb; try reflexivity; lra.
Qed.

(** C7, as the code has it.  The property is about the series a sector
    generator returns, before the pass over the table multiplies some of
    its cells again (in the table the fishing investment of 2024 carries
    1.7 and 1.10).  With every noise draw equal to 1, for each of the six
    sector metrics: the value generated for a cycle year of the metric is
    the product [base * growth * year_multiplier * multiplier * noise] of
    the generator with the cycle multiplier of the metric as year
    multiplier (1.7 for fishing in 2007, 2013, 2019 and 2024, and so on),
    and it is strictly greater than the value of the trend alone at the
    same index; in any other year the year multiplier is 1.0 and the value
    is that of the trend alone.  That the value is the multiplier times
    the value of the trend is not claimed: the product is taken from left
    to right, and in binary64 the two differ by rounding (the lemma that
    follows). *)
Theorem C7_cycle_factor (name : string) (s : Sector)
    (dates : list Timestamp) (st : RandomState) (i : nat) (d : Timestamp) :
  all_draws st 0 ->
  nth_error dates i = Some d ->
  let self := WallisFutunaCommuneFinanceAnalyzer name in
  let noise := noise_at st (sector_noise s) i in
  noise == 1 /\
  (In (year d) (cycle_years s) ->
     nth_error (fst (simulate_sector s self dates st)) i =
       Some (sector_value s self i (cycle_multiplier s) noise) /\
     trend_only s self i < sector_value s self i (cycle_multiplier s) noise) /\
  (~ In (year d) (cycle_years s) ->
     nth_error (fst (simulate_sector s self dates st)) i =
       Some (sector_value s self i 1.0 noise) /\
     sector_value s self i 1.0 noise == trend_only s self i).
Proof.
  intros Hst H self noise.
  assert (Hnoise : noise == 1) by (apply noise_at_one; exact Hst).
  assert (Hpos : 0 < trend_only s self i).
  { apply trend_only_pos. apply config_positive. }
  assert (Hval : forall m,
            sector_value s self i m noise == m * trend_only s self i).
  { intros m. destruct s; unfold sector_value, trend_only;
      rewrite Hnoise; ring. }
  split; [exact Hnoise|]. split; intros Hin; (split; [|rewrite Hval]).
  - unfold cycle_years in Hin. subst noise.
    destruct s; unfold simulate_sector;
      [ unfold _simulate_agriculture_investment
      | unfold _simulate_fishing_investment
      | unfold _simulate_transport_investment
      | unfold _simulate_education_investment
      | unfold _simulate_health_investment
      | unfold _simulate_culture_investment ];
      series_nth H; rewrite (Zcontains_true _ _ Hin); reflexivity.
  - destruct s; unfold cycle_multiplier; lra.
  - unfold cycle_years in Hin. subst noise.
    destruct s; unfold simulate_sector;
      [ unfold _simulate_agriculture_investment
      | unfold _simulate_fishing_investment
      | unfold _simulate_transport_investment
      | unfold _simulate_education_investment
      | unfold _simulate_health_investment
      | unfold _simulate_culture_investment ];
      series_nth H; rewrite (Zcontains_false _ _ Hin); reflexivity.
  - ring.
Qed.

(** C7 as stated fails in the arithmetic of the program.  For Hihifo
    (budget base 28, fishing among its specialities) with the noise at 1,
    the loop of [_simulate_fishing_investment] computes for the cycle year
    2007 (index 5) the double 5.2093440000000015, while 1.7 times the
    value of the trend alone at that index is the double
    5.2093440000000006: the generated value is not exactly the multiplier
    times the trend-only value, though it is greater than the latter. *)
Lemma C7_rounding_counterexample :
  let self := WallisFutunaCommuneFinanceAnalyzer "Hihifo" in
  let date := mkTimestamp 2007 12 31 in
  nth_error (dates_of self) 5 = Some date /\
  In (year date) (cycle_years Peche) /\
  Double.fishing_is_multiple self 5 date = false /\
  Double.fishing_investment_at self 5 date 1 = Double.fishing_hihifo_2007 /\
  Double.fishing_cycle_of_trend self 5 =
    Double.fishing_hihifo_2007_from_trend /\
  PrimFloat.ltb (Double.fishing_trend_only self 5)
                (Double.fishing_investment_at self 5 date 1) = true.
Proof.
  cbv zeta. split; [reflexivity|]. split; [simpl; tauto|].
  repeat split; vm_compute; reflexivity.
Qed.

(** In a year outside the cycle the double the loop computes is the double
    of the trend alone: the factors 1.0 change nothing. *)
Example fishing_hihifo_2008_is_trend :
  let self := WallisFutunaCommuneFinanceAnalyzer "Hihifo" in
  PrimFloat.eqb
    (Double.fishing_investment_at self 6 (mkTimestamp 2008 12 31) 1)
    (Double.fishing_trend_only self 6) = true.
Proof. vm_compute. reflexivity. Qed.

(* ------------------------------------------------------------------ *)
(** ** The assembly of the table *)

(** Every noisy generator draws once per date and returns one value per
    date. *)
Lemma generator_runs g :
  In g noisy_generators ->
  forall self dates st,
    g self dates st = (fst (g self dates st), advance st (length dates)) /\
    length (fst (g self dates st)) = length dates.
Proof.
  intros Hin self dates st. unfold noisy_generators in Hin. simpl in Hin.
  repeat (destruct Hin as [<-|Hin];
    [ lazymatch goal with |- ?g _ _ _ = _ /\ _ => unfold g end;
      cbv beta zeta;
      split; [eapply for_enumerate_state | eapply for_enumerate_length];
      intros ? ?; reflexivity | ]).
  destruct Hin.
Qed.

Lemma generator_step g :
  In g noisy_generators ->
  forall self dates st k,
    g self dates (advance st (k * length dates)) =
    (fst (g self dates (advance st (k * length dates))),
     advance st (S k * length dates)).
Proof.
  intros Hin self dates st k.
  rewrite (proj1 (generator_runs g Hin self dates _)) at 1.
  rewrite advance_advance. do 2 f_equal. lia.
Qed.

Ltac in_generators := unfold noisy_generators; simpl; tauto.

Ltac step g :=
  rewrite (generator_step g ltac:(in_generators)); cbv beta iota.

Lemma generate_run_aux self st :
  generate_financial_data self (advance st (0 * length (dates_of self))) =
  (df <-? pd_DataFrame (raw_data self st) ;; _add_municipal_trends df,
   advance st (20 * length (dates_of self))).
Proof.
  unfold generate_financial_data, bind, ret. fold (dates_of self).
  cbv zeta.
  step _simulate_total_revenue. step _simulate_tax_revenue.
  step _simulate_state_grants. step _simulate_territorial_grants.
  step _simulate_other_revenue. step _simulate_total_expenses.
  step _simulate_operating_expenses. step _simulate_investment_expenses.
  step _simulate_debt_charges. step _simulate_staff_costs.
  step _simulate_gross_savings. step _simulate_total_debt.
  step _simulate_debt_ratio. step _simulate_tax_rate.
  step _simulate_agriculture_investment. step _simulate_fishing_investment.
  step _simulate_transport_investment. step _simulate_education_investment.
  step _simulate_health_investment. step _simulate_culture_investment.
  reflexivity.
Qed.

(** [generate_financial_data] builds [raw_data], makes the table and runs
    the pass; it draws one variate per noisy series and date. *)
Lemma generate_run self st :
  generate_financial_data self st =
  (df <-? pd_DataFrame (raw_data self st) ;; _add_municipal_trends df,
   advance st (20 * length (dates_of self))).
Proof.
  pose proof (generate_run_aux self st) as H.
  change (0 * length (dates_of self))%nat with 0%nat in H.
  now rewrite advance_0 in H.
Qed.

Lemma date_range_length s e :
  length (date_range_Y s e) = Z.to_nat (e - s + 1).
Proof. unfold date_range_Y. now rewrite length_map, length_seq. Qed.

Lemma date_range_nth s e j :
  (j < Z.to_nat (e - s + 1))%nat ->
  nth_error (date_range_Y s e) j = Some (mkTimestamp (s + Z.of_nat j) 12 31).
Proof.
  intros Hj. unfold date_range_Y.
  rewrite nth_error_map, nth_error_seq.
  apply Nat.ltb_lt in Hj. now rewrite Hj.
Qed.

Lemma raw_data_columns self st :
  map fst (raw_data self st) = column_names /\
  Forall (fun kv => length (snd kv) = length (dates_of self))
    (raw_data self st).
Proof.
  split; [reflexivity|].
  unfold raw_data. cbv zeta.
  repeat (apply Forall_cons;
    [ cbn [snd];
      first [ apply length_map
            | apply for_enumerate_pure_length
            | lazymatch goal with
              | |- length (fst (?g _ _ _)) = _ =>
                  apply (generator_runs g ltac:(in_generators))
              end ] | ]).
  apply Forall_nil.
Qed.

Lemma getitem_In {V} (d : Py.dict V) k v :
  Py.getitem d k = Some v -> In (k, v) d.
Proof.
  induction d as [|[k' v'] d IH]; simpl; [discriminate|].
  destruct (String.eqb k' k) eqn:E.
  - apply String.eqb_eq in E; subst k'. intros H; inversion H. now left.
  - intros H. right. now apply IH.
Qed.

Lemma getitem_present {V} (d : Py.dict V) k :
  In k (map fst d) -> exists v, Py.getitem d k = Some v.
Proof.
  induction d as [|[k' v'] d IH]; simpl; [intros []|].
  destruct (String.eqb k' k) eqn:E; [eexists; reflexivity|].
  intros [H|H]; [subst k'; now rewrite String.eqb_refl in E | now apply IH].
Qed.

(** Every cell of the table before the pass has a value. *)
Lemma raw_table_cell self st c j :
  In c column_names -> (j < length (dates_of self))%nat ->
  cell (raw_table self st) c j <> None.
Proof.
  intros Hc Hj. destruct (raw_data_columns self st) as (Hk & Hlen).
  unfold cell, raw_table; cbn [columns].
  destruct (getitem_present (raw_data self st) c) as (v & Hv);
    [now rewrite Hk|].
  rewrite Hv. apply nth_error_Some.
  rewrite Forall_forall in Hlen.
  pose proof (Hlen _ (getitem_In _ _ _ Hv)) as Hl. cbn [snd] in Hl.
  now rewrite Hl.
Qed.

Lemma pd_DataFrame_ok data k c rest n :
  data = (k, c) :: rest ->
  Forall (fun kv => length (snd kv) = n) data ->
  pd_DataFrame data = Some (mkDataFrame n data).
Proof.
  intros Hd Hlen. unfold pd_DataFrame. rewrite Hd. rewrite <- Hd.
  assert (Hc : length c = n).
  { rewrite Forall_forall in Hlen. apply (Hlen (k, c)). rewrite Hd. now left. }
  rewrite Hc.
  assert (Hall : forallb (fun kv => Nat.eqb (length (snd kv)) n) data = true).
  { apply forallb_forall. rewrite Forall_forall in Hlen.
    intros kv Hin. apply Nat.eqb_eq. now apply Hlen. }
  now rewrite Hall.
Qed.

Lemma raw_data_frame self st :
  pd_DataFrame (raw_data self st) = Some (raw_table self st).
Proof.
  unfold raw_table.
  eapply pd_DataFrame_ok; [reflexivity | apply raw_data_columns].
Qed.

(** The generator returns a table: the pass applied to [raw_table]. *)
Lemma generate_table self st :
  exists df,
    generate_financial_data self st =
      (Some df, advance st (20 * length (dates_of self))) /\
    _add_municipal_trends (raw_table self st) = Some df.
Proof.
  destruct (trends_some (raw_table self st)) as (df & Hdf).
  { intros j Hj. cbn [index raw_table] in Hj. split.
    - apply raw_table_cell; [simpl; tauto | exact Hj].
    - intros c Hc. apply raw_table_cell; [|exact Hj].
      unfold shock_columns in Hc. simpl in Hc. unfold column_names. simpl.
      intuition. }
  exists df. split; [|exact Hdf].
  rewrite generate_run, raw_data_frame. cbn [obind]. now rewrite Hdf.
Qed.

(* ------------------------------------------------------------------ *)
(** ** The generated table *)

Lemma raw_year self st j :
  (j < length (dates_of self))%nat ->
  cell (raw_table self st) "Annee" j =
  Some (inject_Z (start_year self + Z.of_nat j)).
Proof.
  intros Hj. unfold cell, raw_table; cbn [columns].
  change (Py.getitem (raw_data self st) "Annee")
    with (Some (map (fun date => inject_Z (year date)) (dates_of self))).
  unfold dates_of in *. rewrite date_range_length in Hj.
  now rewrite nth_error_map, (date_range_nth _ _ _ Hj).
Qed.

(** A cell of the generated table: the cell before the pass, with the
    assignments of the row's year. *)
Lemma table_cell self st df :
  _add_municipal_trends (raw_table self st) = Some df ->
  forall c j, (j < length (dates_of self))%nat ->
    cell df c j =
    option_map
      (apply_rules (shock_rules (inject_Z (start_year self + Z.of_nat j))) c)
      (cell (raw_table self st) c j).
Proof.
  intros Hrun c j Hj.
  destruct (trends_cell _ _ Hrun) as (_ & _ & _ & Hc).
  destruct (proj1 (Hc c j) Hj) as (y & Hy & Hcell & _).
  rewrite (raw_year self st j Hj) in Hy. inversion Hy; subst y. exact Hcell.
Qed.

Lemma table_shape self st df :
  _add_municipal_trends (raw_table self st) = Some df ->
  index df = length (dates_of self) /\
  map fst (columns df) = column_names /\
  (forall c v, In (c, v) (columns df) -> length v = length (dates_of self)) /\
  (forall c j, In c column_names -> (j < length (dates_of self))%nat ->
     cell df c j <> None).
Proof.
  intros Hrun.
  destruct (trends_cell _ _ Hrun) as (Hi & Hk & Hcol & _).
  destruct (raw_data_columns self st) as (Hnames & Hlen).
  repeat split.
  - exact Hi.
  - rewrite Hk. exact Hnames.
  - intros c v Hin. destruct (Hcol _ _ Hin) as (v0 & Hin0 & ->).
    rewrite Forall_forall in Hlen. apply (Hlen (c, v0)). exact Hin0.
  - intros c j Hc Hj. rewrite (table_cell _ _ _ Hrun c j Hj).
    pose proof (raw_table_cell self st c j Hc Hj) as Hraw.
    destruct (cell (raw_table self st) c j); [discriminate | congruence].
Qed.

Lemma dates_of_constructor name :
  dates_of (WallisFutunaCommuneFinanceAnalyzer name) = date_range_Y 2002 2025.
Proof. reflexivity. Qed.

Lemma length_dates_constructor name :
  length (dates_of (WallisFutunaCommuneFinanceAnalyzer name)) = 24%nat.
Proof. reflexivity. Qed.

(** C1, as the code has it.  For every subdivision name, known or not, and
    whatever the generator draws, [generate_financial_data] returns a
    table of [end_year - start_year + 1 = 24] rows whose columns are the
    fixed list [column_names], in that order: 23 columns (the year, the
    population, the households, 5 revenue, 5 expense, 4 ratio and 6
    sector-investment metrics), each of 24 values, so that every cell is
    populated. *)
Theorem C1_table_shape (name : string) (st : RandomState) :
  let self := WallisFutunaCommuneFinanceAnalyzer name in
  exists df,
    fst (generate_financial_data self st) = Some df /\
    index df = 24%nat /\
    Z.of_nat (index df) = (end_year self - start_year self + 1)%Z /\
    map fst (columns df) = column_names /\
    length (columns df) = 23%nat /\
    (forall c v, In (c, v) (columns df) -> length v = 24%nat) /\
    (forall c j, In c column_names -> (j < 24)%nat -> cell df c j <> None).
Proof.
  intros self.
  destruct (generate_table self st) as (df & Hgen & Hrun).
  destruct (table_shape self st df Hrun) as (Hi & Hk & Hlen & Hcell).
  exists df. rewrite Hgen. cbn [fst].
  change (length (dates_of self)) with 24%nat in *.
  repeat split; try assumption.
  - now rewrite Hi.
  - rewrite <- (length_map fst), Hk. reflexivity.
Qed.

(** C1 as stated fails on the number of columns: the table generated for
    Mata-Utu has 23 columns, not 22. *)
Lemma C1_columns_counterexample :
  ~ (exists df,
       fst (generate_financial_data
              (WallisFutunaCommuneFinanceAnalyzer "Mata-Utu")
              (constant_state 0)) = Some df /\
       index df = 24%nat /\
       length (columns df) = 22%nat).
Proof.
  intros (df & Hdf & _ & Hlen).
  destruct (generate_table (WallisFutunaCommuneFinanceAnalyzer "Mata-Utu")
              (constant_state 0)) as (df' & Hgen & Hrun).
  rewrite Hgen in Hdf. cbn [fst] in Hdf. inversion Hdf; subst df'.
  destruct (table_shape _ _ _ Hrun) as (_ & Hk & _).
  rewrite <- (length_map fst), Hk in Hlen. discriminate Hlen.
Qed.

(** The column of [raw_data] under a label, by computation. *)
Ltac raw_column c v :=
  unfold cell, raw_table; cbn [columns];
  change (Py.getitem (raw_data _ _) c) with (Some v).

Lemma raw_population self st j d :
  nth_error (dates_of self) j = Some d ->
  cell (raw_table self st) "Population" j =
  Some (population_base (config self) *
        (1 + (if String.eqb (type (config self)) "chef_lieu" then 0.01
              else if String.eqb (type (config self)) "district_futuna"
                   then 0.008 else 0.009) * idx j)).
Proof.
  intros Hd. raw_column "Population"%string
    (_simulate_population self (dates_of self)).
  unfold _simulate_population. cbv zeta.
  now rewrite (for_enumerate_pure_nth _ _ _ _ Hd).
Qed.

Lemma raw_households self st j d :
  nth_error (dates_of self) j = Some d ->
  cell (raw_table self st) "Menages" j =
  Some (population_base (config self) / 4.5 * (1 + 0.008 * idx j)).
Proof.
  intros Hd. raw_column "Menages"%string
    (_simulate_households self (dates_of self)).
  unfold _simulate_households. cbv zeta.
  now rewrite (for_enumerate_pure_nth _ _ _ _ Hd).
Qed.

Lemma raw_debt_ratio self st j d :
  nth_error (dates_of self) j = Some d ->
  cell (raw_table self st) "Taux_Endettement" j =
  Some (0.70 *
        (if (2010 <=? year d)%Z then 1 - 0.01 * inject_Z (year d - 2010)
         else 1) *
        noise_at st 0.07 (12 * length (dates_of self) + j)).
Proof.
  intros Hd. raw_column "Taux_Endettement"%string
    (fst (_simulate_debt_ratio self (dates_of self)
            (advance st (12 * length (dates_of self))))).
  unfold _simulate_debt_ratio. series_nth Hd.
  now rewrite noise_at_advance.
Qed.

Lemma raw_tax_rate self st j d :
  nth_error (dates_of self) j = Some d ->
  cell (raw_table self st) "Taux_Fiscalite" j =
  Some (0.80 *
        (if (2010 <=? year d)%Z then 1 + 0.004 * inject_Z (year d - 2010)
         else 1) *
        noise_at st 0.04 (13 * length (dates_of self) + j)).
Proof.
  intros Hd. raw_column "Taux_Fiscalite"%string
    (fst (_simulate_tax_rate self (dates_of self)
            (advance st (13 * length (dates_of self))))).
  unfold _simulate_tax_rate. series_nth Hd.
  now rewrite noise_at_advance.
Qed.

Lemma raw_agriculture self st j :
  cell (raw_table self st) "Investissement_Agriculture" j =
  nth_error (fst (_simulate_agriculture_investment self (dates_of self)
                    (advance st (14 * length (dates_of self))))) j.
Proof. reflexivity. Qed.

Lemma raw_fishing self st j :
  cell (raw_table self st) "Investissement_Peche" j =
  nth_error (fst (_simulate_fishing_investment self (dates_of self)
                    (advance st (15 * length (dates_of self))))) j.
Proof. reflexivity. Qed.

(** A cell of a column the pass does not assign to. *)
Lemma table_cell_frame self st df c j :
  _add_municipal_trends (raw_table self st) = Some df ->
  ~ In c shock_columns ->
  cell df c j = cell (raw_table self st) c j.
Proof.
  intros Hrun Hn. unfold cell.
  now rewrite (trends_frame_column _ _ c Hrun Hn).
Qed.

Lemma all_draws_constant g : all_draws (constant_state g) g.
Proof. intros n. reflexivity. Qed.

(** C2.  With every noise draw equal to 1 and a configuration of category
    "chef_lieu", over the years 2002 to 2025: the population of 2002
    (index 0) is the population base, the population of 2003 (index 1) is
    the base times [1 + 0.01 * 1], and in the row of 2002 the agriculture
    and fishing investments are the trend values times 1.4 and times 1.3,
    the multipliers of the first four years. *)
Theorem C2_chef_lieu_scenario (self : Analyzer) (st : RandomState) :
  start_year self = 2002%Z ->
  end_year self = 2025%Z ->
  type (config self) = "chef_lieu"%string ->
  all_draws st 0 ->
  exists df p0 p1 a f,
    fst (generate_financial_data self st) = Some df /\
    cell df "Annee" 0 = Some (inject_Z 2002) /\
    cell df "Annee" 1 = Some (inject_Z 2003) /\
    cell df "Population" 0 = Some p0 /\
    p0 == population_base (config self) /\
    cell df "Population" 1 = Some p1 /\
    p1 == population_base (config self) * (1 + 0.01 * 1) /\
    cell df "Investissement_Agriculture" 0 = Some (a * 1.4) /\
    a == trend_only Agriculture self 0 /\
    cell df "Investissement_Peche" 0 = Some (f * 1.3) /\
    f == trend_only Peche self 0.
Proof.
  destruct self as [nm s e cfg]. cbn [start_year end_year config].
  intros -> -> Hty Hst.
  set (self := mkAnalyzer nm 2002 2025 cfg).
  assert (Hadv : forall k, all_draws (advance st k) 0)
    by (intros k; exact Hst).
  destruct (generate_table self st) as (df & Hgen & Hrun).
  assert (H0 : nth_error (dates_of self) 0 = Some (mkTimestamp 2002 12 31))
    by reflexivity.
  assert (H1 : nth_error (dates_of self) 1 = Some (mkTimestamp 2003 12 31))
    by reflexivity.
  assert (Hagri : exists a,
            cell (raw_table self st) "Investissement_Agriculture" 0 = Some a /\
            a == trend_only Agriculture self 0).
  { rewrite raw_agriculture. unfold _simulate_agriculture_investment.
    series_nth H0. eexists. split; [reflexivity|].
    rewrite (noise_at_one _ _ _ (Hadv _)). unfold trend_only. cbn. ring. }
  assert (Hfish : exists f,
            cell (raw_table self st) "Investissement_Peche" 0 = Some f /\
            f == trend_only Peche self 0).
  { rewrite raw_fishing. unfold _simulate_fishing_investment.
    series_nth H0. eexists. split; [reflexivity|].
    rewrite (noise_at_one _ _ _ (Hadv _)). unfold trend_only. cbn. ring. }
  destruct Hagri as (a & Ha & Ea). destruct Hfish as (f & Hf & Ef).
  exists df. eexists. eexists. exists a, f.
  rewrite Hgen. cbn [fst].
  split; [reflexivity|].
  split.
  { rewrite (table_cell_frame _ _ _ _ _ Hrun) by not_a_shock_column.
    now rewrite raw_year by (simpl; lia). }
  split.
  { rewrite (table_cell_frame _ _ _ _ _ Hrun) by not_a_shock_column.
    now rewrite raw_year by (simpl; lia). }
  split.
  { rewrite (table_cell_frame _ _ _ _ _ Hrun) by not_a_shock_column.
    apply (raw_population self st _ _ H0). }
  split.
  { cbn [config self]. rewrite Hty. cbn. change (idx 0) with 0. ring. }
  split.
  { rewrite (table_cell_frame _ _ _ _ _ Hrun) by not_a_shock_column.
    apply (raw_population self st _ _ H1). }
  split.
  { cbn [config self]. rewrite Hty. cbn. change (idx 1) with 1. ring. }
  split.
  { rewrite (table_cell _ _ _ Hrun) by (simpl; lia). rewrite Ha. reflexivity. }
  split; [exact Ea|].
  split; [|exact Ef].
  rewrite (table_cell _ _ _ Hrun) by (simpl; lia). rewrite Hf. reflexivity.
Qed.

Lemma C2_chef_lieu_scenario_witness :
  exists df p0 p1 a f,
    fst (generate_financial_data
           (WallisFutunaCommuneFinanceAnalyzer "Mata-Utu")
           (constant_state 0)) = Some df /\
    cell df "Annee" 0 = Some (inject_Z 2002) /\
    cell df "Annee" 1 = Some (inject_Z 2003) /\
    cell df "Population" 0 = Some p0 /\
    p0 == 1200 /\
    cell df "Population" 1 = Some p1 /\
    p1 == 1200 * (1 + 0.01 * 1) /\
    cell df "Investissement_Agriculture" 0 = Some (a * 1.4) /\
    a == trend_only Agriculture
           (WallisFutunaCommuneFinanceAnalyzer "Mata-Utu") 0 /\
    cell df "Investissement_Peche" 0 = Some (f * 1.3) /\
    f == trend_only Peche (WallisFutunaCommuneFinanceAnalyzer "Mata-Utu") 0.
Proof.
  apply (C2_chef_lieu_scenario
           (WallisFutunaCommuneFinanceAnalyzer "Mata-Utu") (constant_state 0)).
  - reflexivity.
  - reflexivity.
  - reflexivity.
  - intros n. reflexivity.
Defined.

(* ------------------------------------------------------------------ *)
(** ** Signs *)

Lemma pos_mul_iff c x : 0 < c -> (0 < c * x <-> 0 < x).
Proof.
  intros Hc. split; intros H.
  - destruct (Qlt_le_dec 0 x) as [Hx|Hx]; [exact Hx|].
    exfalso. assert (c * x <= 0) by nra. lra.
  - now apply Qmult_lt_0_compat.
Qed.

Lemma growth_pos r i : 0 <= r -> 0 < 1 + r * idx i.
Proof.
  intros Hr. pose proof (idx_nonneg i) as Hi.
  assert (0 <= r * idx i) by now apply Qmult_le_0_compat. lra.
Qed.

Lemma debt_improvement_pos (y : Z) :
  (y <= 2025)%Z ->
  0 < 0.70 * (if (2010 <=? y)%Z then 1 - 0.01 * inject_Z (y - 2010) else 1).
Proof.
  intros Hy. destruct (2010 <=? y)%Z; [|reflexivity].
  assert (H : inject_Z (y - 2010) <= inject_Z 15)
    by (rewrite <- Zle_Qle; lia).
  change (inject_Z 15) with 15 in H. lra.
Qed.

Lemma tax_increase_pos (y : Z) :
  0 < 0.80 * (if (2010 <=? y)%Z then 1 + 0.004 * inject_Z (y - 2010) else 1).
Proof.
  destruct (2010 <=? y)%Z eqn:E; [|reflexivity].
  apply Z.leb_le in E.
  assert (H : inject_Z 0 <= inject_Z (y - 2010))
    by (rewrite <- Zle_Qle; lia).
  change (inject_Z 0) with 0 in H. lra.
Qed.

Lemma noise_at_lower st scale k :
  gauss_in_range st -> 0 <= scale ->
  1 - scale * 12.0073 <= noise_at st scale k.
Proof.
  intros Hst Hs. unfold noise_at.
  destruct (Hst (drawn st + k)%nat) as (Hl & _). nra.
Qed.

Lemma gauss_in_range_constant g :
  -12.0073 <= g -> g <= 12.0073 -> gauss_in_range (constant_state g).
Proof. intros Hl Hu n. split; assumption. Qed.

(** The runs the statements name draw variates of that range. *)
Lemma named_runs_in_range :
  gauss_in_range (constant_state 0) /\ gauss_in_range (constant_state 1) /\
  gauss_in_range third_draw_a /\ gauss_in_range third_draw_b /\
  gauss_in_range draw_50_a /\ gauss_in_range draw_50_b.
Proof.
  repeat split; cbn;
    repeat match goal with
      | |- context [if ?b then _ else _] => destruct b
      end; lra.
Qed.

(** C5.  The variates of NumPy's generator have a magnitude of at most
    12.0073 ([gauss_in_range]).  For every subdivision name and every such
    run, in every row of the generated table the population, the
    households, the debt ratio and the tax rate are strictly positive.
    The noise is never clamped, but it cannot reach zero: the noise of the
    debt ratio is at least [1 - 0.07 * 12.0073 > 0.159], that of the tax
    rate at least [1 - 0.04 * 12.0073 > 0.519], and the values they
    multiply are strictly positive over the years 2002 to 2025. *)
Theorem C5_rows_positive (name : string) (st : RandomState) :
  gauss_in_range st ->
  let self := WallisFutunaCommuneFinanceAnalyzer name in
  exists df,
    fst (generate_financial_data self st) = Some df /\
    index df = 24%nat /\
    forall i, (i < index df)%nat ->
      exists p h d t,
        cell df "Population" i = Some p /\ 0 < p /\
        cell df "Menages" i = Some h /\ 0 < h /\
        cell df "Taux_Endettement" i = Some d /\ 0 < d /\
        cell df "Taux_Fiscalite" i = Some t /\ 0 < t.
Proof.
  intros Hst self.
  destruct (generate_table self st) as (df & Hgen & Hrun).
  destruct (table_shape _ _ _ Hrun) as (Hindex & _).
  change (length (dates_of self)) with 24%nat in Hindex.
  exists df. rewrite Hgen. split; [reflexivity|]. split; [exact Hindex|].
  intros i Hi. rewrite Hindex in Hi.
  assert (Hd : nth_error (dates_of self) i =
               Some (mkTimestamp (2002 + Z.of_nat i) 12 31)).
  { unfold self. rewrite dates_of_constructor.
    apply date_range_nth. simpl. lia. }
  destruct (config_positive name) as (Hpop & _).
  pose proof (noise_at_lower st 0.07 (12 * 24 + i) Hst ltac:(lra)) as Hn1.
  pose proof (noise_at_lower st 0.04 (13 * 24 + i) Hst ltac:(lra)) as Hn2.
  do 4 eexists.
  split.
  { rewrite (table_cell_frame _ _ _ _ _ Hrun) by not_a_shock_column.
    apply (raw_population self st _ _ Hd). }
  split.
  { apply Qmult_lt_0_compat; [exact Hpop|]. apply growth_pos.
    destruct (String.eqb _ _); [|destruct (String.eqb _ _)]; lra. }
  split.
  { rewrite (table_cell_frame _ _ _ _ _ Hrun) by not_a_shock_column.
    apply (raw_households self st _ _ Hd). }
  split.
  { apply Qmult_lt_0_compat; [|apply growth_pos; lra].
    unfold Qdiv. apply Qmult_lt_0_compat; [exact Hpop | reflexivity]. }
  split.
  { rewrite (table_cell_frame _ _ _ _ _ Hrun) by not_a_shock_column.
    apply (raw_debt_ratio self st _ _ Hd). }
  split.
  { apply Qmult_lt_0_compat; [apply debt_improvement_pos; cbn [year]; lia|].
    change (length (dates_of self)) with 24%nat. lra. }
  split.
  { rewrite (table_cell_frame _ _ _ _ _ Hrun) by not_a_shock_column.
    apply (raw_tax_rate self st _ _ Hd). }
  apply Qmult_lt_0_compat; [apply tax_increase_pos|].
  change (length (dates_of self)) with 24%nat. lra.
Qed.

(* ------------------------------------------------------------------ *)
(** ** Two runs *)

Lemma config_cases name : In (_get_commune_config name) (map snd configs).
Proof.
  unfold _get_commune_config, Py.get, configs. cbn [Py.getitem].
  repeat match goal with
    | |- context [String.eqb ?a name] => destruct (String.eqb a name)
    end; simpl; tauto.
Qed.

Lemma differ_at_sound df1 df2 i c :
  differ_at df1 df2 i c = true ->
  exists x y, cell df1 c i = Some x /\ cell df2 c i = Some y /\ ~ x == y.
Proof.
  unfold differ_at.
  destruct (cell df1 c i) as [x|]; [|discriminate].
  destruct (cell df2 c i) as [y|]; [|discriminate].
  intros H. exists x, y. repeat split.
  intros E. apply Qeq_bool_iff in E. rewrite E in H. discriminate.
Qed.

Lemma noise_sensitive_sound self st1 st2 :
  noise_sensitive self st1 st2 = true ->
  exists df1 df2,
    fst (generate_financial_data self st1) = Some df1 /\
    fst (generate_financial_data self st2) = Some df2 /\
    forall c, In c noisy_columns ->
      exists x y, cell df1 c 0 = Some x /\ cell df2 c 0 = Some y /\ ~ x == y.
Proof.
  unfold noise_sensitive.
  destruct (fst (generate_financial_data self st1)) as [df1|]; [|discriminate].
  destruct (fst (generate_financial_data self st2)) as [df2|]; [|discriminate].
  intros H. exists df1, df2. repeat split.
  intros c Hc. apply differ_at_sound.
  rewrite forallb_forall in H. now apply H.
Qed.

(** For every configuration of the registry the run that draws only the
    variate 0 and the run that draws only the variate 1 differ in every
    noisy column. *)
Lemma constructor_noise_sensitive name :
  noise_sensitive (WallisFutunaCommuneFinanceAnalyzer name)
    (constant_state 0) (constant_state 1) = true.
Proof.
  unfold WallisFutunaCommuneFinanceAnalyzer.
  pose proof (config_cases name) as H.
  destruct (_get_commune_config name) as [pb bb ty sp].
  unfold configs, default_config in H. simpl in H.
  repeat (destruct H as [H|H]; [inversion H; subst; vm_compute; reflexivity|]).
  destruct H.
Qed.

(** C9.  The population and the households are generated without any
    noise draw: for a fixed configuration they are the functions
    [population_base * (1 + rate * i)] and
    [population_base / 4.5 * (1 + 0.008 * i)] of the index of the year, so
    the two columns of two runs, whatever the generator draws in each, are
    the same lists.  Every other metric depends on the draws: for each
    subdivision there are two runs that differ in each of the twenty other
    metric columns. *)
Theorem C9_population_households_deterministic :
  (forall (self : Analyzer) (st1 st2 : RandomState) (df1 df2 : DataFrame),
     fst (generate_financial_data self st1) = Some df1 ->
     fst (generate_financial_data self st2) = Some df2 ->
     Py.getitem (columns df1) "Population" =
       Py.getitem (columns df2) "Population" /\
     Py.getitem (columns df1) "Menages" =
       Py.getitem (columns df2) "Menages" /\
     forall i, (i < length (dates_of self))%nat ->
       cell df1 "Population" i =
         Some (population_base (config self) *
               (1 + (if String.eqb (type (config self)) "chef_lieu" then 0.01
                     else if String.eqb (type (config self)) "district_futuna"
                          then 0.008 else 0.009) * idx i)) /\
       cell df1 "Menages" i =
         Some (population_base (config self) / 4.5 * (1 + 0.008 * idx i))) /\
  (forall name : string,
     exists st1 st2 df1 df2,
       fst (generate_financial_data
              (WallisFutunaCommuneFinanceAnalyzer name) st1) = Some df1 /\
       fst (generate_financial_data
              (WallisFutunaCommuneFinanceAnalyzer name) st2) = Some df2 /\
       forall c, In c noisy_columns ->
         exists x y,
           cell df1 c 0 = Some x /\ cell df2 c 0 = Some y /\ ~ x == y).
Proof.
  split.
  - intros self st1 st2 df1 df2 H1 H2.
    destruct (generate_table self st1) as (d1 & Hgen1 & Hrun1).
    destruct (generate_table self st2) as (d2 & Hgen2 & Hrun2).
    rewrite Hgen1 in H1. rewrite Hgen2 in H2. cbn [fst] in H1, H2.
    inversion H1; subst d1. inversion H2; subst d2.
    split.
    { rewrite (trends_frame_column _ _ "Population" Hrun1)
        by not_a_shock_column.
      rewrite (trends_frame_column _ _ "Population" Hrun2)
        by not_a_shock_column.
      reflexivity. }
    split.
    { rewrite (trends_frame_column _ _ "Menages" Hrun1)
        by not_a_shock_column.
      rewrite (trends_frame_column _ _ "Menages" Hrun2)
        by not_a_shock_column.
      reflexivity. }
    intros i Hi.
    destruct (nth_error (dates_of self) i) as [d|] eqn:Hd.
    + split.
      * rewrite (table_cell_frame _ _ _ _ _ Hrun1) by not_a_shock_column.
        apply (raw_population self st1 _ _ Hd).
      * rewrite (table_cell_frame _ _ _ _ _ Hrun1) by not_a_shock_column.
        apply (raw_households self st1 _ _ Hd).
    + apply nth_error_None in Hd. lia.
  - intros name. exists (constant_state 0), (constant_state 1).
    apply noise_sensitive_sound. apply constructor_noise_sensitive.
Qed.

Lemma C9_population_households_deterministic_witness :
  Py.getitem (columns mata_utu_table_0) "Population" =
    Py.getitem (columns mata_utu_table_1) "Population" /\
  Py.getitem (columns mata_utu_table_0) "Menages" =
    Py.getitem (columns mata_utu_table_1) "Menages".
Proof.
  assert (H0 : fst (generate_financial_data
                      (WallisFutunaCommuneFinanceAnalyzer "Mata-Utu")
                      (constant_state 0)) = Some mata_utu_table_0)
    by (vm_compute; reflexivity).
  assert (H1 : fst (generate_financial_data
                      (WallisFutunaCommuneFinanceAnalyzer "Mata-Utu")
                      (constant_state 1)) = Some mata_utu_table_1)
    by (vm_compute; reflexivity).
  destruct (proj1 C9_population_households_deterministic _ _ _ _ _ H0 H1)
    as (Hp & Hm & _).
  split; [exact Hp | exact Hm].
Defined.

Lemma C1_table_shape_witness :
  exists df,
    fst (generate_financial_data
           (WallisFutunaCommuneFinanceAnalyzer "Hahake")
           (constant_state 0)) = Some df /\
    index df = 24%nat /\
    map fst (columns df) = column_names /\
    length (columns df) = 23%nat.
Proof.
  destruct (C1_table_shape "Hahake" (constant_state 0))
    as (df & Hdf & Hi & _ & Hk & Hn & _).
  exists df. repeat split; assumption.
Defined.

Lemma C5_rows_positive_witness :
  exists df d t,
    fst (generate_financial_data
           (WallisFutunaCommuneFinanceAnalyzer "Alo")
           (constant_state 0)) = Some df /\
    cell df "Taux_Endettement" 23 = Some d /\ 0 < d /\
    cell df "Taux_Fiscalite" 23 = Some t /\ 0 < t.
Proof.
  destruct (C5_rows_positive "Alo" (constant_state 0)
              (gauss_in_range_constant 0 ltac:(lra) ltac:(lra)))
    as (df & Hdf & Hindex & Hrows).
  destruct (Hrows 23%nat ltac:(rewrite Hindex; lia))
    as (p & h & d & t & _ & _ & _ & _ & Hd & Hd0 & Ht & Ht0).
  exists df, d, t. repeat split; assumption.
Defined.

Lemma C6_ratio_series_witness :
  nth_error (fst (_simulate_debt_ratio
                    (WallisFutunaCommuneFinanceAnalyzer "Mata-Utu")
                    (date_range_Y 2002 2025) (constant_state 0))) 10 =
    Some (0.70 * (1 - 0.01 * inject_Z (2012 - 2010)) *
          noise_at (constant_state 0) 0.07 10) /\
  nth_error (fst (_simulate_tax_rate
                    (WallisFutunaCommuneFinanceAnalyzer "Mata-Utu")
                    (date_range_Y 2002 2025) (constant_state 0))) 10 =
    Some (0.80 * (1 + 0.004 * inject_Z (2012 - 2010)) *
          noise_at (constant_state 0) 0.04 10).
Proof.
  apply (proj1 (proj2 (C6_ratio_series
                         (WallisFutunaCommuneFinanceAnalyzer "Mata-Utu")
                         (date_range_Y 2002 2025) (constant_state 0) 10
                         (mkTimestamp 2012 12 31) eq_refl))).
  simpl. lia.
Defined.

Lemma C10_total_debt_flat_witness :
  nth_error (fst (_simulate_total_debt
                    (WallisFutunaCommuneFinanceAnalyzer "Sigave")
                    (date_range_Y 2002 2025) (constant_state 0))) 1 =
    Some (28 * 0.75 * 1.0 * noise_at (constant_state 0) 0.09 1).
Proof.
  apply (proj1 (C10_total_debt_flat
                  (WallisFutunaCommuneFinanceAnalyzer "Sigave")
                  (date_range_Y 2002 2025) (constant_state 0) 1
                  (mkTimestamp 2003 12 31) eq_refl
                  ltac:(simpl; lia) ltac:(simpl; lia))).
Defined.

Lemma C7_cycle_factor_witness :
  nth_error (fst (_simulate_fishing_investment
                    (WallisFutunaCommuneFinanceAnalyzer "Hihifo")
                    (date_range_Y 2002 2025) (constant_state 0))) 5 =
    Some (sector_value Peche (WallisFutunaCommuneFinanceAnalyzer "Hihifo") 5
            1.7 (noise_at (constant_state 0) 0.16 5)) /\
  trend_only Peche (WallisFutunaCommuneFinanceAnalyzer "Hihifo") 5 <
    sector_value Peche (WallisFutunaCommuneFinanceAnalyzer "Hihifo") 5
      1.7 (noise_at (constant_state 0) 0.16 5).
Proof.
  destruct (C7_cycle_factor "Hihifo" Peche (date_range_Y 2002 2025)
              (constant_state 0) 5 (mkTimestamp 2007 12 31)
              (fun n => Qeq_refl 0) eq_refl) as (_ & Hin & _).
  apply Hin. simpl. lia.
Defined.

(* ------------------------------------------------------------------ *)
(** ** Values of the table of Mata-Utu without noise *)

Example mata_utu_population_2003 :
  option_map Qred (cell mata_utu_table_0 "Population" 1) = Some 1212.
Proof. vm_compute. reflexivity. Qed.

Example mata_utu_agriculture_2002 :
  option_map Qred (cell mata_utu_table_0 "Investissement_Agriculture" 0) =
  Some (Qred (35 * 0.07 * 0.8 * 1.4)).
Proof. vm_compute. reflexivity. Qed.

(** In the table, the fishing investment of the cycle year 2024 carries the
    factor 1.10 of the pass for the years from 2022 on top of the cycle
    multiplier 1.7 of its generator. *)
Example mata_utu_fishing_2024 :
  option_map Qred (cell mata_utu_table_0 "Investissement_Peche" 22) =
  Some (Qred (35 * 0.06 * (1 + 0.028 * 22) * 1.7 * 0.7 * 1.10)).
Proof. vm_compute. reflexivity. Qed.

(** The debt ratio of 2025, fifteen years after 2010. *)
Example mata_utu_debt_ratio_2025 :
  option_map Qred (cell mata_utu_table_0 "Taux_Endettement" 23) =
  Some (Qred (0.70 * (1 - 0.01 * 15))).
Proof. vm_compute. reflexivity. Qed.

(* ------------------------------------------------------------------ *)
(** * Further properties of the generators *)

Lemma for_enumerate_value {A} (body : nat -> A -> Rand Q) scale f :
  noisy body scale f ->
  exists scale' f', forall xs st j x,
    nth_error xs j = Some x ->
    nth_error (fst (for_enumerate body 0 xs [] st)) j =
    Some (f' j x (noise_at st scale' j)).
Proof.
  intros Hb. exists scale, f. intros xs st j x Hx.
  now apply for_enumerate_nth.
Qed.

(** The value at [j] of any noisy generator is a function of the index,
    the date and the [j]-th next noise value. *)
Lemma generator_value g :
  In g noisy_generators ->
  forall self, exists scale f, forall dates st j d,
    nth_error dates j = Some d ->
    nth_error (fst (g self dates st)) j = Some (f j d (noise_at st scale j)).
Proof.
  intros Hin self. unfold noisy_generators in Hin. simpl in Hin.
  repeat (destruct Hin as [<-|Hin];
    [ lazymatch goal with
      | |- exists _ _, forall _ _ _ _, _ -> nth_error (fst (?g _ _ _)) _ = _ =>
          unfold g
      end;
      cbv zeta; eapply for_enumerate_value; intros ? ?; reflexivity | ]).
  destruct Hin.
Qed.

(** X1.  Every noisy generator returns one value per date and draws one
    variate per date, no more and no less; without dates it returns the
    empty list and leaves the random generator as it is.  Hence
    [generate_financial_data] draws twenty variates per year. *)
Theorem generators_draw_once_per_date :
  (forall g, In g noisy_generators ->
     forall self dates st,
       length (fst (g self dates st)) = length dates /\
       snd (g self dates st) = advance st (length dates)) /\
  (forall g, In g noisy_generators ->
     forall self st, g self [] st = ([], st)) /\
  (forall self st,
     snd (generate_financial_data self st) =
     advance st (20 * length (dates_of self))).
Proof.
  split; [|split].
  - intros g Hin self dates st.
    destruct (generator_runs g Hin self dates st) as (Hrun & Hlen).
    split; [exact Hlen|]. now rewrite Hrun.
  - intros g Hin self st.
    destruct (generator_runs g Hin self [] st) as (Hrun & Hlen).
    rewrite Hrun. simpl in *. rewrite advance_0.
    destruct (fst (g self [] st)); [reflexivity | discriminate].
  - intros self st. now rewrite generate_run.
Qed.

Lemma generators_draw_once_per_date_witness :
  length (fst (_simulate_total_debt
                 (WallisFutunaCommuneFinanceAnalyzer "Mua")
                 (date_range_Y 2002 2025) (constant_state 0))) = 24%nat /\
  snd (_simulate_total_debt
         (WallisFutunaCommuneFinanceAnalyzer "Mua")
         (date_range_Y 2002 2025) (constant_state 0)) =
  advance (constant_state 0) 24.
Proof.
  apply (proj1 generators_draw_once_per_date _simulate_total_debt).
  unfold noisy_generators. simpl. tauto.
Defined.

(** X2.  The noise is local to the year: the value a noisy generator gives the
    date at [j] depends on the state of the random generator through the
    [j]-th next variate only. *)
Theorem generator_noise_local g self dates st1 st2 j :
  In g noisy_generators ->
  gauss st1 (drawn st1 + j) = gauss st2 (drawn st2 + j) ->
  nth_error (fst (g self dates st1)) j = nth_error (fst (g self dates st2)) j.
Proof.
  intros Hin Hg.
  destruct (nth_error dates j) as [d|] eqn:Hd.
  - destruct (generator_value g Hin self) as (scale & f & Hv).
    rewrite (Hv dates st1 j d Hd), (Hv dates st2 j d Hd).
    unfold noise_at. now rewrite Hg.
  - apply nth_error_None in Hd.
    destruct (generator_runs g Hin self dates st1) as (_ & H1).
    destruct (generator_runs g Hin self dates st2) as (_ & H2).
    assert (E1 : nth_error (fst (g self dates st1)) j = None)
      by (apply nth_error_None; lia).
    assert (E2 : nth_error (fst (g self dates st2)) j = None)
      by (apply nth_error_None; lia).
    now rewrite E1, E2.
Qed.

Lemma generator_noise_local_witness :
  nth_error (fst (_simulate_fishing_investment
                    (WallisFutunaCommuneFinanceAnalyzer "Alo")
                    (date_range_Y 2002 2025) third_draw_a)) 2 =
  nth_error (fst (_simulate_fishing_investment
                    (WallisFutunaCommuneFinanceAnalyzer "Alo")
                    (date_range_Y 2002 2025) third_draw_b)) 2.
Proof.
  apply (generator_noise_local _simulate_fishing_investment).
  - unfold noisy_generators. simpl. tauto.
  - reflexivity.
Defined.

(** X4.  A category that is neither "chef_lieu" nor "district_futuna" gets the
    rates of "district": the population and the total revenue are those of
    the same configuration with the category "district". *)
Theorem unknown_category_is_district (self self' : Analyzer)
    (dates : list Timestamp) (st : RandomState) :
  population_base (config self') = population_base (config self) ->
  budget_base (config self') = budget_base (config self) ->
  type (config self) <> "chef_lieu"%string ->
  type (config self) <> "district_futuna"%string ->
  type (config self') = "district"%string ->
  _simulate_population self dates = _simulate_population self' dates /\
  _simulate_total_revenue self dates st =
    _simulate_total_revenue self' dates st.
Proof.
  intros Hp Hb H1 H2 H3.
  apply String.eqb_neq in H1. apply String.eqb_neq in H2.
  unfold _simulate_population, _simulate_total_revenue.
  rewrite Hp, Hb, H1, H2, H3. split; reflexivity.
Qed.

Lemma unknown_category_is_district_witness :
  _simulate_population atoll_analyzer (date_range_Y 2002 2025) =
    _simulate_population atoll_as_district (date_range_Y 2002 2025) /\
  _simulate_total_revenue atoll_analyzer (date_range_Y 2002 2025)
    (constant_state 0) =
  _simulate_total_revenue atoll_as_district (date_range_Y 2002 2025)
    (constant_state 0).
Proof.
  apply (unknown_category_is_district atoll_analyzer atoll_as_district);
    try reflexivity; simpl; discriminate.
Defined.

Lemma threshold_factor (r : Q) (t y : Z) :
  (if (t <=? y)%Z then 1 + r * inject_Z (y - t) else 1) ==
  1 + r * inject_Z (Z.max 0 (y - t)).
Proof.
  destruct (t <=? y)%Z eqn:E.
  - apply Z.leb_le in E. rewrite Z.max_r by lia. reflexivity.
  - apply Z.leb_gt in E. rewrite Z.max_l by lia.
    change (inject_Z 0) with 0. ring.
Qed.

(** X5.  The four series with a threshold year (the grants of the State from
    2010, the territorial grants and the debt charges from 2005, the gross
    savings from 2010) are flat up to and including the threshold year and
    grow linearly after it: the factor of the trend is
    [1 + rate * max(0, year - threshold)]. *)
Theorem threshold_series (self : Analyzer) (dates : list Timestamp)
    (st : RandomState) (i : nat) (d : Timestamp) :
  nth_error dates i = Some d ->
  exists state territorial charges savings,
    nth_error (fst (_simulate_state_grants self dates st)) i = Some state /\
    state == budget_base (config self) * 0.55
             * (1 + 0.012 * inject_Z (Z.max 0 (year d - 2010)))
             * noise_at st 0.06 i /\
    nth_error (fst (_simulate_territorial_grants self dates st)) i =
      Some territorial /\
    territorial == budget_base (config self) * 0.12
                   * (1 + 0.01 * inject_Z (Z.max 0 (year d - 2005)))
                   * noise_at st 0.07 i /\
    nth_error (fst (_simulate_debt_charges self dates st)) i = Some charges /\
    charges == budget_base (config self) * 0.06
               * (1 + 0.009 * inject_Z (Z.max 0 (year d - 2005)))
               * noise_at st 0.10 i /\
    nth_error (fst (_simulate_gross_savings self dates st)) i = Some savings /\
    savings == budget_base (config self) * 0.02
               * (1 + 0.007 * inject_Z (Z.max 0 (year d - 2010)))
               * noise_at st 0.13 i.
Proof.
  intros H. do 4 eexists.
  unfold _simulate_state_grants, _simulate_territorial_grants,
    _simulate_debt_charges, _simulate_gross_savings.
  split; [series_nth H; reflexivity|].
  split; [now rewrite threshold_factor|].
  split; [series_nth H; reflexivity|].
  split; [now rewrite threshold_factor|].
  split; [series_nth H; reflexivity|].
  split; [now rewrite threshold_factor|].
  split; [series_nth H; reflexivity|].
  now rewrite threshold_factor.
Qed.

Lemma threshold_series_witness :
  exists state,
    nth_error (fst (_simulate_state_grants
                      (WallisFutunaCommuneFinanceAnalyzer "Hahake")
                      (date_range_Y 2002 2025) (constant_state 0))) 8 =
      Some state /\
    state == 30 * 0.55 * (1 + 0.012 * 0) * noise_at (constant_state 0) 0.06 8.
Proof.
  destruct (threshold_series (WallisFutunaCommuneFinanceAnalyzer "Hahake")
              (date_range_Y 2002 2025) (constant_state 0) 8
              (mkTimestamp 2010 12 31) eq_refl)
    as (state & _ & _ & _ & Hs & Es & _).
  exists state. split; [exact Hs | exact Es].
Defined.

(** X6.  The investment expenses with every noise draw equal to 1: in the
    years 2006, 2012, 2018 and 2023 they are 1.6 times the value of the
    trend, hence above it; in 2008, 2014 and 2020 they are 0.8 times that
    value, hence below it; in any other year they are the value of the
    trend. *)
Theorem investment_expenses_cycles (name : string)
    (dates : list Timestamp) (st : RandomState) (i : nat) (d : Timestamp) :
  all_draws st 0 ->
  nth_error dates i = Some d ->
  let self := WallisFutunaCommuneFinanceAnalyzer name in
  exists v,
    nth_error (fst (_simulate_investment_expenses self dates st)) i = Some v /\
    (In (year d) [2006; 2012; 2018; 2023]%Z ->
       v == 1.6 * investment_trend self i /\ investment_trend self i < v) /\
    (In (year d) [2008; 2014; 2020]%Z ->
       v == 0.8 * investment_trend self i /\ v < investment_trend self i) /\
    (~ In (year d) [2006; 2012; 2018; 2023]%Z ->
     ~ In (year d) [2008; 2014; 2020]%Z ->
       v == investment_trend self i).
Proof.
  intros Hst H self.
  assert (Hpos : 0 < investment_trend self i).
  { unfold investment_trend.
    repeat apply Qmult_lt_0_compat;
      [apply config_positive | reflexivity | apply growth_pos; lra]. }
  unfold _simulate_investment_expenses. series_nth H.
  eexists. split; [reflexivity|].
  rewrite (noise_at_one st _ i Hst).
  fold (investment_trend self i).
  split; [|split].
  - intros Hin. rewrite (Zcontains_true _ _ Hin).
    assert (E : investment_trend self i * 1.6 * 1
                == 1.6 * investment_trend self i) by ring.
    split; [exact E | rewrite E; lra].
  - intros Hin.
    assert (Hn : ~ In (year d) [2006; 2012; 2018; 2023]%Z)
      by (simpl in *; lia).
    rewrite (Zcontains_false _ _ Hn), (Zcontains_true _ _ Hin).
    assert (E : investment_trend self i * 0.8 * 1
                == 0.8 * investment_trend self i) by ring.
    split; [exact E | rewrite E; lra].
  - intros H1 H2.
    rewrite (Zcontains_false _ _ H1), (Zcontains_false _ _ H2). ring.
Qed.

Lemma investment_expenses_cycles_witness :
  exists v,
    nth_error (fst (_simulate_investment_expenses
                      (WallisFutunaCommuneFinanceAnalyzer "Mua")
                      (date_range_Y 2002 2025) (constant_state 0))) 6 =
      Some v /\
    v == 0.8 * investment_trend (WallisFutunaCommuneFinanceAnalyzer "Mua") 6 /\
    v < investment_trend (WallisFutunaCommuneFinanceAnalyzer "Mua") 6.
Proof.
  destruct (investment_expenses_cycles "Mua" (date_range_Y 2002 2025)
              (constant_state 0) 6 (mkTimestamp 2008 12 31)
              (fun n => Qeq_refl 0) eq_refl) as (v & Hv & _ & Hdip & _).
  exists v. split; [exact Hv|]. apply Hdip. simpl. lia.
Defined.

(** X7.  The total debt in its years of change: the base times 1.25 in 2006,
    2012, 2018 and 2023, and times 0.92 in 2009, 2015 and 2021 (the two
    lists share no year), times the noise draw. *)
Theorem total_debt_change_years (self : Analyzer) (dates : list Timestamp)
    (st : RandomState) (i : nat) (d : Timestamp) :
  nth_error dates i = Some d ->
  (In (year d) [2006; 2012; 2018; 2023]%Z ->
     nth_error (fst (_simulate_total_debt self dates st)) i =
       Some (budget_base (config self) * 0.75 * 1.25 * noise_at st 0.09 i)) /\
  (In (year d) [2009; 2015; 2021]%Z ->
     nth_error (fst (_simulate_total_debt self dates st)) i =
       Some (budget_base (config self) * 0.75 * 0.92 * noise_at st 0.09 i)).
Proof.
  intros H. unfold _simulate_total_debt. split; intros Hin; series_nth H.
  - now rewrite (Zcontains_true _ _ Hin).
  - assert (Hn : ~ In (year d) [2006; 2012; 2018; 2023]%Z)
      by (simpl in *; lia).
    now rewrite (Zcontains_false _ _ Hn), (Zcontains_true _ _ Hin).
Qed.

Lemma total_debt_change_years_witness :
  nth_error (fst (_simulate_total_debt
                    (WallisFutunaCommuneFinanceAnalyzer "Alo")
                    (date_range_Y 2002 2025) (constant_state 0))) 13 =
    Some (30 * 0.75 * 0.92 * noise_at (constant_state 0) 0.09 13).
Proof.
  apply (proj2 (total_debt_change_years
                  (WallisFutunaCommuneFinanceAnalyzer "Alo")
                  (date_range_Y 2002 2025) (constant_state 0) 13
                  (mkTimestamp 2015 12 31) eq_refl)).
  simpl. lia.
Defined.

(* ------------------------------------------------------------------ *)
(** * Further properties of the pass *)

Lemma Qle_bool_true a b : a <= b -> Qle_bool a b = true.
Proof. apply Qle_bool_iff. Qed.

Lemma Qle_bool_false a b : b < a -> Qle_bool a b = false.
Proof.
  intros H. destruct (Qle_bool a b) eqn:E; [|reflexivity].
  apply Qle_bool_iff in E. lra.
Qed.

Lemma Qeq_bool_false a b : ~ a == b -> Qeq_bool a b = false.
Proof.
  intros H. destruct (Qeq_bool a b) eqn:E; [|reflexivity].
  apply Qeq_bool_iff in E. contradiction.
Qed.

(** The assignments of a year, from facts on the year that [lra] decides. *)
Ltac rules_of_year :=
  unfold shock_rules;
  repeat match goal with
    | |- context [Qle_bool ?a ?b] =>
        first [ rewrite (Qle_bool_true a b) by lra
              | rewrite (Qle_bool_false a b) by lra ]
    | |- context [Qeq_bool ?a ?b] =>
        first [ rewrite (Qeq_eq_bool a b) by lra
              | rewrite (Qeq_bool_false a b) by lra ]
    end;
  repeat match goal with
    | |- context [Qle_bool ?a ?b] => destruct (Qle_bool a b)
    end;
  reflexivity.

(** The row at [i] after the pass, given the assignments of its year. *)
Lemma trends_row_effect df df' i y rs :
  _add_municipal_trends df = Some df' ->
  (i < index df)%nat ->
  cell df "Annee" i = Some y ->
  shock_rules y = rs ->
  (forall c f, In (c, f) rs -> exists x, cell df c i = Some x) /\
  (forall c, cell df' c i = option_map (apply_rules rs c) (cell df c i)).
Proof.
  intros Hrun Hi Hy <-.
  destruct (trends_cell _ _ Hrun) as (_ & _ & _ & Hc).
  split.
  - intros c f Hin. destruct (proj1 (Hc c i) Hi) as (y' & Hy' & _ & Hd).
    rewrite Hy in Hy'. inversion Hy'; subst y'.
    specialize (Hd f Hin). destruct (cell df c i) as [x|]; [|congruence].
    now exists x.
  - intros c. destruct (proj1 (Hc c i) Hi) as (y' & Hy' & Hc' & _).
    rewrite Hy in Hy'. inversion Hy'; subst y'. exact Hc'.
Qed.

Ltac in_rules := simpl; tauto.

Ltac other_column :=
  let f := fresh in let H := fresh in
  intros f H; simpl in H;
  repeat (destruct H as [H|H]; [inversion H; congruence|]); exact H.

(** X9.  A row whose year lies between 2002 and 2005 has its agriculture
    investment multiplied by 1.4 and its fishing investment by 1.3; no
    other cell of the row changes. *)
Theorem initial_development_window (df df' : DataFrame) (i : nat) (y : Q) :
  _add_municipal_trends df = Some df' ->
  (i < index df)%nat ->
  cell df "Annee" i = Some y ->
  2002 <= y -> y <= 2005 ->
  exists a p,
    cell df "Investissement_Agriculture" i = Some a /\
    cell df "Investissement_Peche" i = Some p /\
    cell df' "Investissement_Agriculture" i = Some (a * 1.4) /\
    cell df' "Investissement_Peche" i = Some (p * 1.3) /\
    forall c, c <> "Investissement_Agriculture"%string ->
              c <> "Investissement_Peche"%string ->
              cell df' c i = cell df c i.
Proof.
  intros Hrun Hi Hy H1 H2.
  destruct (trends_row_effect df df' i y
              [("Investissement_Agriculture"%string, 1.4);
               ("Investissement_Peche"%string, 1.3)] Hrun Hi Hy)
    as (Hd & Hc); [rules_of_year|].
  destruct (Hd "Investissement_Agriculture"%string 1.4) as (a & Ha);
    [in_rules|].
  destruct (Hd "Investissement_Peche"%string 1.3) as (p & Hp); [in_rules|].
  exists a, p. rewrite !Hc, Ha, Hp.
  do 4 (split; [reflexivity|]).
  intros c N1 N2. rewrite Hc. apply option_map_id. intros x.
  apply apply_rules_frame. other_column.
Qed.

(** X10.  A row whose year lies between 2010 and 2015 has its education
    investment multiplied by 1.3 and its health investment by 1.4; no
    other cell of the row changes. *)
Theorem public_services_window (df df' : DataFrame) (i : nat) (y : Q) :
  _add_municipal_trends df = Some df' ->
  (i < index df)%nat ->
  cell df "Annee" i = Some y ->
  2010 <= y -> y <= 2015 ->
  exists e s,
    cell df "Investissement_Education" i = Some e /\
    cell df "Investissement_Sante" i = Some s /\
    cell df' "Investissement_Education" i = Some (e * 1.3) /\
    cell df' "Investissement_Sante" i = Some (s * 1.4) /\
    forall c, c <> "Investissement_Education"%string ->
              c <> "Investissement_Sante"%string ->
              cell df' c i = cell df c i.
Proof.
  intros Hrun Hi Hy H1 H2.
  destruct (trends_row_effect df df' i y
              [("Investissement_Education"%string, 1.3);
               ("Investissement_Sante"%string, 1.4)] Hrun Hi Hy)
    as (Hd & Hc); [rules_of_year|].
  destruct (Hd "Investissement_Education"%string 1.3) as (e & He);
    [in_rules|].
  destruct (Hd "Investissement_Sante"%string 1.4) as (s & Hs); [in_rules|].
  exists e, s. rewrite !Hc, He, Hs.
  do 4 (split; [reflexivity|]).
  intros c N1 N2. rewrite Hc. apply option_map_id. intros x.
  apply apply_rules_frame. other_column.
Qed.

(** X11.  Of the window 2020-2021 only the year 2020 is adjusted: a row of year
    2020 has its other revenue multiplied by 0.78 and its State grants by
    1.15, and no other cell of it changes; a row of a year after 2020 and
    before 2022, 2021 for one, does not change at all. *)
Theorem covid_year_only_2020 (df df' : DataFrame) (i : nat) (y : Q) :
  _add_municipal_trends df = Some df' ->
  (i < index df)%nat ->
  cell df "Annee" i = Some y ->
  (y == 2020 ->
     exists o g,
       cell df "Autres_Recettes" i = Some o /\
       cell df "Dotations_Etat" i = Some g /\
       cell df' "Autres_Recettes" i = Some (o * 0.78) /\
       cell df' "Dotations_Etat" i = Some (g * 1.15) /\
       forall c, c <> "Autres_Recettes"%string ->
                 c <> "Dotations_Etat"%string ->
                 cell df' c i = cell df c i) /\
  (2020 < y -> y < 2022 -> forall c, cell df' c i = cell df c i).
Proof.
  intros Hrun Hi Hy. split.
  - intros E.
    destruct (trends_row_effect df df' i y
                [("Autres_Recettes"%string, 0.78);
                 ("Dotations_Etat"%string, 1.15)] Hrun Hi Hy)
      as (Hd & Hc); [rules_of_year|].
    destruct (Hd "Autres_Recettes"%string 0.78) as (o & Ho); [in_rules|].
    destruct (Hd "Dotations_Etat"%string 1.15) as (g & Hg); [in_rules|].
    exists o, g. rewrite !Hc, Ho, Hg.
    do 4 (split; [reflexivity|]).
    intros c N1 N2. rewrite Hc. apply option_map_id. intros x.
    apply apply_rules_frame. other_column.
  - intros H1 H2 c.
    destruct (trends_row_effect df df' i y [] Hrun Hi Hy) as (_ & Hc);
      [rules_of_year|].
    rewrite Hc. apply option_map_id. reflexivity.
Qed.

(** X12.  The recovery plan has no last year: a row of any year from 2022 on has
    its investment expense multiplied by 1.14, its agriculture investment
    by 1.12 and its fishing investment by 1.10; no other cell of the row
    changes. *)
Theorem recovery_from_2022 (df df' : DataFrame) (i : nat) (y : Q) :
  _add_municipal_trends df = Some df' ->
  (i < index df)%nat ->
  cell df "Annee" i = Some y ->
  2022 <= y ->
  exists v a p,
    cell df "Investissement" i = Some v /\
    cell df "Investissement_Agriculture" i = Some a /\
    cell df "Investissement_Peche" i = Some p /\
    cell df' "Investissement" i = Some (v * 1.14) /\
    cell df' "Investissement_Agriculture" i = Some (a * 1.12) /\
    cell df' "Investissement_Peche" i = Some (p * 1.10) /\
    forall c, c <> "Investissement"%string ->
              c <> "Investissement_Agriculture"%string ->
              c <> "Investissement_Peche"%string ->
              cell df' c i = cell df c i.
Proof.
  intros Hrun Hi Hy H1.
  destruct (trends_row_effect df df' i y
              [("Investissement"%string, 1.14);
               ("Investissement_Agriculture"%string, 1.12);
               ("Investissement_Peche"%string, 1.10)] Hrun Hi Hy)
    as (Hd & Hc); [rules_of_year|].
  destruct (Hd "Investissement"%string 1.14) as (v & Hv); [in_rules|].
  destruct (Hd "Investissement_Agriculture"%string 1.12) as (a & Ha);
    [in_rules|].
  destruct (Hd "Investissement_Peche"%string 1.10) as (p & Hp); [in_rules|].
  exists v, a, p. rewrite !Hc, Hv, Ha, Hp.
  do 6 (split; [reflexivity|]).
  intros c N1 N2 N3. rewrite Hc. apply option_map_id. intros x.
  apply apply_rules_frame. other_column.
Qed.

(** X13.  The years without event: a row whose year is before 2002, between 2005
    and 2008, between 2009 and 2010, between 2015 and 2020 or between 2020
    and 2022 (bounds excluded) is the same after the pass. *)
Theorem quiet_years (df df' : DataFrame) (i : nat) (y : Q) :
  _add_municipal_trends df = Some df' ->
  (i < index df)%nat ->
  cell df "Annee" i = Some y ->
  y < 2002 \/ (2005 < y /\ y < 2008) \/ (2009 < y /\ y < 2010) \/
  (2015 < y /\ y < 2020) \/ (2020 < y /\ y < 2022) ->
  forall c, cell df' c i = cell df c i.
Proof.
  intros Hrun Hi Hy H c.
  destruct (trends_row_effect df df' i y [] Hrun Hi Hy) as (_ & Hc).
  - destruct H as [H|[[H1 H2]|[[H1 H2]|[[H1 H2]|[H1 H2]]]]]; rules_of_year.
  - rewrite Hc. apply option_map_id. reflexivity.
Qed.

Lemma events_table_run :
  _add_municipal_trends events_table = Some events_table_after.
Proof. vm_compute. reflexivity. Qed.

Lemma initial_development_window_witness :
  cell events_table_after "Investissement_Agriculture" 1 = Some (51 * 1.4) /\
  cell events_table_after "Investissement_Peche" 1 = Some (61 * 1.3) /\
  cell events_table_after "Investissement" 1 = Some 41.
Proof.
  destruct (initial_development_window events_table events_table_after
              1 2003 events_table_run ltac:(simpl; lia) eq_refl
              ltac:(lra) ltac:(lra))
    as (a & p & Ha & Hp & Ha' & Hp' & Hframe).
  inversion Ha; subst a. inversion Hp; subst p.
  split; [exact Ha'|]. split; [exact Hp'|].
  rewrite Hframe; [reflexivity | discriminate | discriminate].
Defined.

Lemma public_services_window_witness :
  cell events_table_after "Investissement_Education" 3 = Some (73 * 1.3) /\
  cell events_table_after "Investissement_Sante" 3 = Some (83 * 1.4).
Proof.
  destruct (public_services_window events_table events_table_after
              3 2012 events_table_run ltac:(simpl; lia) eq_refl
              ltac:(lra) ltac:(lra))
    as (e & s & He & Hs & He' & Hs' & _).
  inversion He; subst e. inversion Hs; subst s.
  split; [exact He' | exact Hs'].
Defined.

Lemma covid_year_only_2020_witness :
  cell events_table_after "Autres_Recettes" 4 = Some (34 * 0.78) /\
  cell events_table_after "Dotations_Etat" 4 = Some (24 * 1.15) /\
  cell events_table_after "Autres_Recettes" 5 = Some 35 /\
  cell events_table_after "Dotations_Etat" 5 = Some 25.
Proof.
  destruct (covid_year_only_2020 events_table events_table_after
              4 2020 events_table_run ltac:(simpl; lia) eq_refl)
    as (H2020 & _).
  destruct (covid_year_only_2020 events_table events_table_after
              5 2021 events_table_run ltac:(simpl; lia) eq_refl)
    as (_ & H2021).
  destruct (H2020 ltac:(reflexivity)) as (o & g & Ho & Hg & Ho' & Hg' & _).
  inversion Ho; subst o. inversion Hg; subst g.
  split; [exact Ho'|]. split; [exact Hg'|].
  split; rewrite (H2021 ltac:(lra) ltac:(lra)); reflexivity.
Defined.

Lemma recovery_from_2022_witness :
  cell events_table_after "Investissement" 6 = Some (46 * 1.14) /\
  cell events_table_after "Investissement_Agriculture" 6 = Some (56 * 1.12) /\
  cell events_table_after "Investissement_Peche" 6 = Some (66 * 1.10).
Proof.
  destruct (recovery_from_2022 events_table events_table_after
              6 2030 events_table_run ltac:(simpl; lia) eq_refl ltac:(lra))
    as (v & a & p & Hv & Ha & Hp & Hv' & Ha' & Hp' & _).
  inversion Hv; subst v. inversion Ha; subst a. inversion Hp; subst p.
  split; [exact Hv'|]. split; [exact Ha' | exact Hp'].
Defined.

Lemma quiet_years_witness :
  cell events_table_after "Investissement" 2 = Some 42 /\
  cell events_table_after "Investissement_Peche" 2 = Some 62.
Proof.
  assert (H : 2006 < 2002 \/ (2005 < 2006 /\ 2006 < 2008) \/
              (2009 < 2006 /\ 2006 < 2010) \/
              (2015 < 2006 /\ 2006 < 2020) \/ (2020 < 2006 /\ 2006 < 2022))
    by (right; left; split; lra).
  split;
    rewrite (quiet_years events_table events_table_after 2 2006
               events_table_run ltac:(simpl; lia) eq_refl H);
    reflexivity.
Defined.

(* ------------------------------------------------------------------ *)
(** ** When the pass raises, what it keeps, what a second run does *)

Lemma trends_loop_some_exact df0 : forall n a df,
  (forall j, (a <= j < a + n)%nat ->
     exists y, cell df0 "Annee" j = Some y /\
       forall c f, In (c, f) (shock_rules y) -> cell df c j <> None) ->
  exists df',
    _add_municipal_trends_loop
      (map (fun i => (i, fun c => cell df0 c i)) (seq a n)) df = Some df'.
Proof.
  induction n as [|n IH]; intros a df Hall; simpl.
  - eexists; reflexivity.
  - destruct (Hall a ltac:(lia)) as (y & Hy & Hcols).
    rewrite Hy. simpl. rewrite trends_row_rules.
    destruct (loc_imul_all_some a (shock_rules y) df Hcols) as (d1 & H1).
    rewrite H1; simpl. apply IH. intros j Hj.
    destruct (Hall j ltac:(lia)) as (yj & Hyj & Hcj).
    exists yj. split; [exact Hyj|].
    intros c f Hc. destruct (loc_imul_all_cell _ _ _ _ H1) as (_ & _ & Hc1).
    rewrite Hc1. assert (Hne : Nat.eqb j a = false) by (apply Nat.eqb_neq; lia).
    rewrite Hne. now apply (Hcj c f).
Qed.

(** X14.  The pass returns normally exactly when every row has a year and, for
    each assignment the year of the row calls for, a value in the assigned
    column; otherwise it raises [KeyError]. *)
Theorem trends_succeeds_iff (df : DataFrame) :
  (exists df', _add_municipal_trends df = Some df') <->
  (forall j, (j < index df)%nat ->
     exists y, cell df "Annee" j = Some y /\
       forall c f, In (c, f) (shock_rules y) -> cell df c j <> None).
Proof.
  split.
  - intros (df' & Hrun) j Hj.
    destruct (trends_cell _ _ Hrun) as (_ & _ & _ & Hc).
    destruct (proj1 (Hc "Annee"%string j) Hj) as (y & Hy & _).
    exists y. split; [exact Hy|]. intros c f Hin.
    destruct (proj1 (Hc c j) Hj) as (y' & Hy' & _ & Hd).
    rewrite Hy in Hy'. inversion Hy'; subst y'. now apply (Hd f).
  - intros H. unfold _add_municipal_trends, iterrows.
    apply trends_loop_some_exact. intros j Hj. apply H. lia.
Qed.

(** X15.  The errors of the pass, case by case.  A table without rows is
    returned as it is, whatever its columns.  A row without a year makes
    the pass raise.  So does a row of 2008 or 2009 without a value for the
    investment expense; a table that has only the column of the years
    passes when its years call for no assignment. *)
Theorem trends_key_errors (df : DataFrame) :
  (index df = 0%nat -> _add_municipal_trends df = Some df) /\
  (forall j, (j < index df)%nat -> cell df "Annee" j = None ->
     _add_municipal_trends df = None) /\
  (forall j y, (j < index df)%nat -> cell df "Annee" j = Some y ->
     2008 <= y -> y <= 2009 -> cell df "Investissement" j = None ->
     _add_municipal_trends df = None) /\
  (forall years,
     df = mkDataFrame (length years) [("Annee"%string, years)] ->
     Forall (fun y => 2005 < y /\ y < 2008) years ->
     _add_municipal_trends df = Some df).
Proof.
  split; [|split; [|split]].
  - intros H0. unfold _add_municipal_trends, iterrows. now rewrite H0.
  - intros j Hj Hn.
    destruct (_add_municipal_trends df) as [df'|] eqn:Hrun; [|reflexivity].
    destruct (proj1 (trends_succeeds_iff df) (ex_intro _ df' Hrun) j Hj)
      as (y & Hy & _). congruence.
  - intros j y Hj Hy H1 H2 Hn.
    destruct (_add_municipal_trends df) as [df'|] eqn:Hrun; [|reflexivity].
    destruct (proj1 (trends_succeeds_iff df) (ex_intro _ df' Hrun) j Hj)
      as (y' & Hy' & Hd).
    rewrite Hy in Hy'. inversion Hy'; subst y'.
    exfalso. apply (Hd "Investissement"%string 0.85); [|exact Hn].
    assert (E : shock_rules y =
                [("Recettes_Totales"%string, 0.94);
                 ("Investissement"%string, 0.85);
                 ("Autres_Recettes"%string, 0.88)]) by rules_of_year.
    rewrite E. in_rules.
  - intros years -> Hall.
    set (df := mkDataFrame (length years) [("Annee"%string, years)]).
    destruct (proj2 (trends_succeeds_iff df)) as (df' & Hrun).
    { intros j Hj. cbn [index df] in Hj.
      destruct (nth_error years j) as [y|] eqn:Hy;
        [|apply nth_error_None in Hy; lia].
      exists y. split; [exact Hy|].
      rewrite Forall_forall in Hall.
      destruct (Hall y (nth_error_In _ _ Hy)) as (H1 & H2).
      assert (E : shock_rules y = []) by rules_of_year.
      rewrite E. intros c f []. }
    rewrite Hrun. f_equal.
    destruct (trends_cell _ _ Hrun) as (Hi & Hk & _ & _).
    pose proof (trends_frame_column df df' "Annee" Hrun
                  ltac:(not_a_shock_column)) as Hcol.
    destruct df' as [n cols]. cbn [index columns df] in *. subst n.
    destruct cols as [|[k v] [|? ?]]; try discriminate.
    cbn in Hk. inversion Hk; subst k. cbn in Hcol. inversion Hcol; subst v.
    reflexivity.
Qed.

Lemma trends_succeeds_iff_witness :
  exists y, cell events_table "Annee" 4 = Some y /\
    forall c f, In (c, f) (shock_rules y) -> cell events_table c 4 <> None.
Proof.
  apply (proj1 (trends_succeeds_iff events_table)).
  - exists events_table_after. vm_compute. reflexivity.
  - simpl. lia.
Defined.

Lemma trends_key_errors_witness :
  _add_municipal_trends no_year_table = None.
Proof.
  apply (proj1 (proj2 (trends_key_errors no_year_table)) 0%nat).
  - simpl. lia.
  - reflexivity.
Defined.

Lemma nth_error_same_length {A} (v v' : list A) :
  (forall j, nth_error v' j = None <-> nth_error v j = None) ->
  length v' = length v.
Proof.
  intros H.
  assert (H1 : nth_error v' (length v) = None)
    by (apply H; apply nth_error_None; lia).
  assert (H2 : nth_error v (length v') = None)
    by (apply H; apply nth_error_None; lia).
  apply nth_error_None in H1. apply nth_error_None in H2. lia.
Qed.

(** X16.  The pass keeps the shape of the table: the index, the labels in their
    order, and the length of every column. *)
Theorem trends_keeps_shape (df df' : DataFrame) :
  _add_municipal_trends df = Some df' ->
  index df' = index df /\
  map fst (columns df') = map fst (columns df) /\
  forall c v, df_col df c = Some v ->
    exists v', df_col df' c = Some v' /\ length v' = length v.
Proof.
  intros Hrun.
  destruct (trends_cell _ _ Hrun) as (Hi & Hk & _ & Hc).
  split; [exact Hi|]. split; [exact Hk|].
  intros c v Hv. unfold df_col in *.
  destruct (Py.getitem (columns df') c) as [v'|] eqn:Hv'.
  - exists v'. split; [reflexivity|].
    apply nth_error_same_length. intros j.
    assert (Hcell : cell df' c j = None <-> cell df c j = None).
    { destruct (Nat.lt_ge_cases j (index df)) as [Hj|Hj].
      - destruct (proj1 (Hc c j) Hj) as (y & _ & -> & _).
        destruct (cell df c j); simpl; split; congruence.
      - rewrite (proj2 (Hc c j) Hj). reflexivity. }
    unfold cell in Hcell. now rewrite Hv, Hv' in Hcell.
  - rewrite (getitem_keys _ _ _ Hk Hv') in Hv. discriminate.
Qed.

Lemma trends_keeps_shape_witness :
  exists v', df_col events_table_after "Investissement" = Some v' /\
             length v' = 7%nat.
Proof.
  destruct (trends_keeps_shape events_table events_table_after
              events_table_run) as (_ & _ & H).
  apply (H "Investissement"%string [40; 41; 42; 43; 44; 45; 46]).
  reflexivity.
Defined.

(** X17.  The pass is not idempotent.  On the table it returns it runs again
    without error, and it applies the factors a second time: a row of 2008
    or 2009 ends with its total revenue multiplied by 0.94 twice, its
    investment expense by 0.85 twice and its other revenue by 0.88
    twice. *)
Theorem trends_twice (df df1 : DataFrame) :
  _add_municipal_trends df = Some df1 ->
  exists df2,
    _add_municipal_trends df1 = Some df2 /\
    forall i y, (i < index df)%nat -> cell df "Annee" i = Some y ->
      2008 <= y -> y <= 2009 ->
      exists r v o,
        cell df "Recettes_Totales" i = Some r /\
        cell df "Investissement" i = Some v /\
        cell df "Autres_Recettes" i = Some o /\
        cell df2 "Recettes_Totales" i = Some (r * 0.94 * 0.94) /\
        cell df2 "Investissement" i = Some (v * 0.85 * 0.85) /\
        cell df2 "Autres_Recettes" i = Some (o * 0.88 * 0.88).
Proof.
  intros Hrun.
  destruct (trends_cell _ _ Hrun) as (Hi & _ & _ & Hc).
  assert (Hyear : forall j, cell df1 "Annee" j = cell df "Annee" j).
  { intros j. unfold cell.
    now rewrite (trends_frame_column df df1 "Annee" Hrun
                   ltac:(not_a_shock_column)). }
  destruct (proj2 (trends_succeeds_iff df1)) as (df2 & Hrun2).
  { intros j Hj. rewrite Hi in Hj.
    destruct (proj1 (Hc "Annee"%string j) Hj) as (y & Hy & _).
    exists y. split; [now rewrite Hyear|].
    intros c f Hin.
    destruct (proj1 (Hc c j) Hj) as (y' & Hy' & Hcell & Hd).
    rewrite Hy in Hy'. inversion Hy'; subst y'.
    rewrite Hcell. specialize (Hd f Hin).
    destruct (cell df c j); [discriminate | congruence]. }
  exists df2. split; [exact Hrun2|].
  intros i y Hlt Hy H1 H2.
  set (rs := [("Recettes_Totales"%string, 0.94);
              ("Investissement"%string, 0.85);
              ("Autres_Recettes"%string, 0.88)]).
  assert (E : shock_rules y = rs) by rules_of_year.
  destruct (trends_row_effect df df1 i y rs Hrun Hlt Hy E) as (Hd & Hc1).
  assert (Hlt1 : (i < index df1)%nat) by now rewrite Hi.
  assert (Hy1 : cell df1 "Annee" i = Some y) by now rewrite Hyear.
  destruct (trends_row_effect df1 df2 i y rs Hrun2 Hlt1 Hy1 E) as (_ & Hc2).
  destruct (Hd "Recettes_Totales"%string 0.94) as (r & Hr);
    [unfold rs; in_rules|].
  destruct (Hd "Investissement"%string 0.85) as (v & Hv);
    [unfold rs; in_rules|].
  destruct (Hd "Autres_Recettes"%string 0.88) as (o & Ho);
    [unfold rs; in_rules|].
  exists r, v, o. rewrite !Hc2, !Hc1, Hr, Hv, Ho.
  repeat split; reflexivity.
Qed.

Lemma trends_twice_witness :
  exists df2,
    _add_municipal_trends crisis_row_table_after = Some df2 /\
    cell df2 "Recettes_Totales" 0 = Some (200 * 0.94 * 0.94).
Proof.
  destruct (trends_twice crisis_row_table crisis_row_table_after eq_refl)
    as (df2 & Hrun2 & Hrows).
  exists df2. split; [exact Hrun2|].
  destruct (Hrows 0%nat 2009 ltac:(simpl; lia) eq_refl ltac:(lra) ltac:(lra))
    as (r & v & o & Hr & _ & _ & Hr2 & _).
  inversion Hr; subst r. exact Hr2.
Defined.

(* ------------------------------------------------------------------ *)
(** * Further properties of the generated table *)

(** The [k]-th noisy column of [raw_data] is the output of the [k]-th
    noisy generator, started after [k] series of draws. *)
Lemma raw_noisy_column self st k g c :
  nth_error noisy_generators k = Some g ->
  nth_error noisy_columns k = Some c ->
  Py.getitem (raw_data self st) c =
  Some (fst (g self (dates_of self)
               (advance st (k * length (dates_of self))))).
Proof.
  intros Hg Hc.
  do 20 (destruct k as [|k];
    [ cbn in Hg, Hc; inversion Hg; inversion Hc; reflexivity | ]).
  destruct k; discriminate.
Qed.

Lemma noisy_generator_In k g :
  nth_error noisy_generators k = Some g -> In g noisy_generators.
Proof. apply nth_error_In. Qed.

(** X3.  In the generated table too the noise is local: the cell of the [k]-th
    noisy column in the row at [j] depends on the state of the random
    generator through one variate only, the one drawn at position
    [k * (number of years) + j]. *)
Theorem table_noise_local (self : Analyzer) (st1 st2 : RandomState)
    (df1 df2 : DataFrame) (k j : nat) (c : string) :
  fst (generate_financial_data self st1) = Some df1 ->
  fst (generate_financial_data self st2) = Some df2 ->
  nth_error noisy_columns k = Some c ->
  gauss st1 (drawn st1 + k * length (dates_of self) + j) =
  gauss st2 (drawn st2 + k * length (dates_of self) + j) ->
  cell df1 c j = cell df2 c j.
Proof.
  intros H1 H2 Hc Hg.
  destruct (generate_table self st1) as (d1 & Hgen1 & Hrun1).
  destruct (generate_table self st2) as (d2 & Hgen2 & Hrun2).
  rewrite Hgen1 in H1. rewrite Hgen2 in H2. cbn [fst] in H1, H2.
  inversion H1; subst d1. inversion H2; subst d2.
  destruct (nth_error noisy_generators k) as [g|] eqn:Hgk.
  2:{ apply nth_error_None in Hgk.
      assert (Hk : (k < length noisy_columns)%nat)
        by (apply nth_error_Some; congruence).
      cbn in Hgk, Hk. lia. }
  assert (Hraw : cell (raw_table self st1) c j = cell (raw_table self st2) c j).
  { unfold cell, raw_table; cbn [columns].
    rewrite (raw_noisy_column self st1 k g c Hgk Hc).
    rewrite (raw_noisy_column self st2 k g c Hgk Hc).
    apply generator_noise_local; [now apply (noisy_generator_In k)|].
    exact Hg. }
  destruct (Nat.lt_ge_cases j (length (dates_of self))) as [Hj|Hj].
  - rewrite (table_cell _ _ _ Hrun1 c j Hj), (table_cell _ _ _ Hrun2 c j Hj).
    now rewrite Hraw.
  - destruct (trends_cell _ _ Hrun1) as (_ & _ & _ & Hc1).
    destruct (trends_cell _ _ Hrun2) as (_ & _ & _ & Hc2).
    rewrite (proj2 (Hc1 c j) Hj), (proj2 (Hc2 c j) Hj). exact Hraw.
Qed.

Lemma table_noise_local_witness :
  cell mata_utu_table_a "Dotations_Etat" 2 =
  cell mata_utu_table_b "Dotations_Etat" 2.
Proof.
  apply (table_noise_local (WallisFutunaCommuneFinanceAnalyzer "Mata-Utu")
           draw_50_a draw_50_b mata_utu_table_a mata_utu_table_b 2 2
           "Dotations_Etat").
  - vm_compute. reflexivity.
  - vm_compute. reflexivity.
  - reflexivity.
  - reflexivity.
Defined.

(** The value a noisy generator gives one date, with the noise off. *)
Ltac quiet_value Hd Hadv :=
  eexists; split;
  [ lazymatch goal with
    | |- nth_error (fst (?g _ _ _)) _ = _ => unfold g
    end;
    series_nth Hd; reflexivity
  | rewrite (noise_at_one _ _ _ (Hadv _)) ].

(** The cell of a sector column of the generated table: the value of its
    generator, with the assignments of the row's year. *)
Ltac sector_cell Hrun self st c j g k d :=
  rewrite (table_cell _ _ _ Hrun)
    by (change (length (dates_of self)) with 24%nat; lia);
  change (cell (raw_table self st) c j)
    with (nth_error (fst (g self (dates_of self) (advance st (k * 24)))) j);
  unfold g;
  series_nth (eq_refl : nth_error (dates_of self) j = Some d);
  rewrite noise_at_advance; reflexivity.

(** X18.  Cycle years inside an event window carry both factors, in the
    order the code multiplies them.  For every subdivision and whatever
    the generator draws, the cell of the table is the product of the
    generator, with the multiplier of the cycle in the place of the year
    multiplier, times the factor of the pass: the agriculture investment
    of 2005 has 1.8 in the product and 1.4 after it, the education
    investment of 2014 has 1.6 and 1.3, the health investment of 2015 has
    1.7 and 1.4, the fishing investment of 2024 has 1.7 and 1.10; the
    investment expense of 2008 is [base * growth * 0.8 * noise * 0.85],
    that of 2023 is [base * growth * 1.6 * noise * 1.14]. *)
Theorem cycle_and_window_compose (name : string) (st : RandomState) :
  let self := WallisFutunaCommuneFinanceAnalyzer name in
  exists df,
    fst (generate_financial_data self st) = Some df /\
    cell df "Investissement_Agriculture" 3 =
      Some (sector_value Agriculture self 3 1.8
              (noise_at st 0.15 (14 * 24 + 3)) * 1.4) /\
    cell df "Investissement_Education" 12 =
      Some (sector_value Education self 12 1.6
              (noise_at st 0.17 (17 * 24 + 12)) * 1.3) /\
    cell df "Investissement_Sante" 13 =
      Some (sector_value Sante self 13 1.7
              (noise_at st 0.16 (18 * 24 + 13)) * 1.4) /\
    cell df "Investissement_Peche" 22 =
      Some (sector_value Peche self 22 1.7
              (noise_at st 0.16 (15 * 24 + 22)) * 1.10) /\
    cell df "Investissement" 6 =
      Some (budget_base (config self) * 0.30 * (1 + 0.022 * idx 6) * 0.8
            * noise_at st 0.16 (7 * 24 + 6) * 0.85) /\
    cell df "Investissement" 21 =
      Some (budget_base (config self) * 0.30 * (1 + 0.022 * idx 21) * 1.6
            * noise_at st 0.16 (7 * 24 + 21) * 1.14).
Proof.
  intros self.
  destruct (generate_table self st) as (df & Hgen & Hrun).
  exists df. rewrite Hgen. cbn [fst].
  split; [reflexivity|].
  split; [sector_cell Hrun self st "Investissement_Agriculture"%string 3%nat
            _simulate_agriculture_investment 14%nat
            (mkTimestamp 2005 12 31)|].
  split; [sector_cell Hrun self st "Investissement_Education"%string 12%nat
            _simulate_education_investment 17%nat
            (mkTimestamp 2014 12 31)|].
  split; [sector_cell Hrun self st "Investissement_Sante"%string 13%nat
            _simulate_health_investment 18%nat
            (mkTimestamp 2015 12 31)|].
  split; [sector_cell Hrun self st "Investissement_Peche"%string 22%nat
            _simulate_fishing_investment 15%nat
            (mkTimestamp 2024 12 31)|].
  split; [sector_cell Hrun self st "Investissement"%string 6%nat
            _simulate_investment_expenses 7%nat
            (mkTimestamp 2008 12 31)|].
  sector_cell Hrun self st "Investissement"%string 21%nat
    _simulate_investment_expenses 7%nat (mkTimestamp 2023 12 31).
Qed.

(** A cell of the generated table, from the value of its generator. *)
Ltac table_value Hrun self st c j g k H :=
  rewrite (table_cell _ _ _ Hrun)
    by (change (length (dates_of self)) with 24%nat; lia);
  change (cell (raw_table self st) c j)
    with (nth_error (fst (g self (dates_of self) (advance st (k * 24)))) j);
  rewrite H; reflexivity.

(** X19.  The revenue of the first year adds up when the noise is off.  With
    every noise draw equal to 1, for every subdivision, in the row of 2002:
    the total revenue is the budget base, and the local taxes, the grants
    of the State, the territorial grants and the other revenue add up to
    it.  (The gross savings are drawn from their own share, 0.02 of the
    budget base, not computed from the revenue and the expenses.) *)
Theorem first_year_balances (name : string) (st : RandomState) :
  all_draws st 0 ->
  let self := WallisFutunaCommuneFinanceAnalyzer name in
  exists df revenue taxes state territorial other,
    fst (generate_financial_data self st) = Some df /\
    cell df "Recettes_Totales" 0 = Some revenue /\
    cell df "Impots_Locaux" 0 = Some taxes /\
    cell df "Dotations_Etat" 0 = Some state /\
    cell df "Dotations_Territoriales" 0 = Some territorial /\
    cell df "Autres_Recettes" 0 = Some other /\
    revenue == budget_base (config self) /\
    taxes + state + territorial + other == revenue.
Proof.
  intros Hst self.
  assert (Hadv : forall k, all_draws (advance st k) 0)
    by (intros k; exact Hst).
  destruct (generate_table self st) as (df & Hgen & Hrun).
  pose proof (eq_refl : nth_error (dates_of self) 0 =
                        Some (mkTimestamp 2002 12 31))
    as Hd.
  assert (H1 : exists x,
    nth_error (fst (_simulate_total_revenue self (dates_of self)
                      (advance st (0 * 24)))) 0 = Some x /\
    x == budget_base (config self)).
  { quiet_value Hd Hadv. change (idx 0) with 0. ring. }
  assert (H2 : exists x,
    nth_error (fst (_simulate_tax_revenue self (dates_of self)
                      (advance st (1 * 24)))) 0 = Some x /\
    x == budget_base (config self) * 0.25).
  { quiet_value Hd Hadv. change (idx 0) with 0. ring. }
  assert (H3 : exists x,
    nth_error (fst (_simulate_state_grants self (dates_of self)
                      (advance st (2 * 24)))) 0 = Some x /\
    x == budget_base (config self) * 0.55).
  { quiet_value Hd Hadv. cbn. ring. }
  assert (H4 : exists x,
    nth_error (fst (_simulate_territorial_grants self (dates_of self)
                      (advance st (3 * 24)))) 0 = Some x /\
    x == budget_base (config self) * 0.12).
  { quiet_value Hd Hadv. cbn. ring. }
  assert (H5 : exists x,
    nth_error (fst (_simulate_other_revenue self (dates_of self)
                      (advance st (4 * 24)))) 0 = Some x /\
    x == budget_base (config self) * 0.08).
  { quiet_value Hd Hadv. change (idx 0) with 0. ring. }
  destruct H1 as (revenue & H1 & E1). destruct H2 as (taxes & H2 & E2).
  destruct H3 as (state & H3 & E3). destruct H4 as (territorial & H4 & E4).
  destruct H5 as (other & H5 & E5).
  exists df, revenue, taxes, state, territorial, other.
  rewrite Hgen. cbn [fst].
  split; [reflexivity|].
  split; [table_value Hrun self st "Recettes_Totales"%string 0%nat
            _simulate_total_revenue 0%nat H1|].
  split; [table_value Hrun self st "Impots_Locaux"%string 0%nat
            _simulate_tax_revenue 1%nat H2|].
  split; [table_value Hrun self st "Dotations_Etat"%string 0%nat
            _simulate_state_grants 2%nat H3|].
  split; [table_value Hrun self st "Dotations_Territoriales"%string 0%nat
            _simulate_territorial_grants 3%nat H4|].
  split; [table_value Hrun self st "Autres_Recettes"%string 0%nat
            _simulate_other_revenue 4%nat H5|].
  split; [exact E1|].
  rewrite E1, E2, E3, E4, E5; ring.
Qed.

Lemma first_year_balances_witness :
  exists df revenue taxes state territorial other,
    fst (generate_financial_data
           (WallisFutunaCommuneFinanceAnalyzer "Hahake")
           (constant_state 0)) = Some df /\
    cell df "Recettes_Totales" 0 = Some revenue /\
    cell df "Impots_Locaux" 0 = Some taxes /\
    cell df "Dotations_Etat" 0 = Some state /\
    cell df "Dotations_Territoriales" 0 = Some territorial /\
    cell df "Autres_Recettes" 0 = Some other /\
    revenue == 30 /\
    taxes + state + territorial + other == revenue.
Proof.
  destruct (first_year_balances "Hahake" (constant_state 0)
              (fun n => Qeq_refl 0))
    as (df & r & t & s & tt & o & Hdf & Hr & Ht & Hs & Htt & Ho & Er & Esum).
  exists df, r, t, s, tt, o. repeat split; assumption.
Defined.

(** The same sum in binary64: for every subdivision name the four doubles
    of the first year add up, from left to right, to the double of the
    total revenue. *)
Lemma first_year_revenue_adds_up_in_doubles name :
  Double.first_year_revenue_adds_up
    (WallisFutunaCommuneFinanceAnalyzer name) = true.
Proof.
  unfold WallisFutunaCommuneFinanceAnalyzer.
  pose proof (config_cases name) as H.
  destruct (_get_commune_config name) as [pb bb ty sp].
  unfold configs, default_config in H. simpl in H.
  repeat (destruct H as [H|H]; [inversion H; subst; vm_compute; reflexivity|]).
  destruct H.
Qed.

(** X20.  The parts exceed the whole.  With every noise draw equal to 1, for
    every subdivision and every year, the operating expenses and the staff
    costs together are strictly greater than the total expenses. *)
Theorem parts_exceed_total_expenses (name : string) (st : RandomState)
    (i : nat) :
  all_draws st 0 ->
  (i < 24)%nat ->
  let self := WallisFutunaCommuneFinanceAnalyzer name in
  exists df total operating staff,
    fst (generate_financial_data self st) = Some df /\
    cell df "Depenses_Totales" i = Some total /\
    cell df "Fonctionnement" i = Some operating /\
    cell df "Personnel" i = Some staff /\
    total < operating + staff.
Proof.
  intros Hst Hi self.
  assert (Hadv : forall k, all_draws (advance st k) 0)
    by (intros k; exact Hst).
  destruct (generate_table self st) as (df & Hgen & Hrun).
  assert (Hd : nth_error (dates_of self) i =
               Some (mkTimestamp (2002 + Z.of_nat i) 12 31)).
  { unfold self. rewrite dates_of_constructor.
    apply date_range_nth. simpl. lia. }
  assert (H1 : exists x,
    nth_error (fst (_simulate_total_expenses self (dates_of self)
                      (advance st (5 * 24)))) i = Some x /\
    x == budget_base (config self) * 0.98 * (1 + 0.026 * idx i)).
  { quiet_value Hd Hadv. ring. }
  assert (H2 : exists x,
    nth_error (fst (_simulate_operating_expenses self (dates_of self)
                      (advance st (6 * 24)))) i = Some x /\
    x == budget_base (config self) * 0.68 * (1 + 0.024 * idx i)).
  { quiet_value Hd Hadv. ring. }
  assert (H3 : exists x,
    nth_error (fst (_simulate_staff_costs self (dates_of self)
                      (advance st (9 * 24)))) i = Some x /\
    x == budget_base (config self) * 0.48 * (1 + 0.026 * idx i)).
  { quiet_value Hd Hadv. ring. }
  destruct H1 as (total & H1 & E1). destruct H2 as (operating & H2 & E2).
  destruct H3 as (staff & H3 & E3).
  exists df, total, operating, staff.
  rewrite Hgen. cbn [fst].
  split; [reflexivity|].
  split; [rewrite (table_cell_frame _ _ _ _ _ Hrun) by not_a_shock_column;
          exact H1|].
  split; [rewrite (table_cell_frame _ _ _ _ _ Hrun) by not_a_shock_column;
          exact H2|].
  split; [rewrite (table_cell_frame _ _ _ _ _ Hrun) by not_a_shock_column;
          exact H3|].
  rewrite E1, E2, E3.
  destruct (config_positive name) as (_ & Hb).
  pose proof (idx_nonneg i) as Hidx.
  assert (Hgap : 0 < budget_base (config self) * (0.18 + 0.00332 * idx i)).
  { apply Qmult_lt_0_compat; [exact Hb | lra]. }
  lra.
Qed.

Lemma parts_exceed_total_expenses_witness :
  exists df total operating staff,
    fst (generate_financial_data
           (WallisFutunaCommuneFinanceAnalyzer "Mua")
           (constant_state 0)) = Some df /\
    cell df "Depenses_Totales" 10 = Some total /\
    cell df "Fonctionnement" 10 = Some operating /\
    cell df "Personnel" 10 = Some staff /\
    total < operating + staff.
Proof.
  apply (parts_exceed_total_expenses "Mua" (constant_state 0) 10).
  - intros n. reflexivity.
  - lia.
Defined.

(* ------------------------------------------------------------------ *)
(** * The figures of the report *)

Lemma py_index_first {A} (v : list A) : py_index v 0 = nth_error v 0.
Proof. reflexivity. Qed.

Lemma py_index_last {A} (v : list A) :
  py_index v (-1) =
  match v with
  | [] => None
  | _ :: _ => nth_error v (length v - 1)
  end.
Proof.
  unfold py_index. cbn [Z.ltb Z.compare Z.opp].
  destruct v as [|x l]; [reflexivity|].
  assert (E : (1 <=? Z.of_nat (length (x :: l)))%Z = true)
    by (apply Z.leb_le; cbn [length]; lia).
  rewrite E. f_equal. cbn [length]. lia.
Qed.

Lemma py_index_none {A} (v : list A) (k : Z) :
  k = 0%Z \/ k = (-1)%Z -> (py_index v k = None <-> v = []).
Proof.
  intros [->| ->].
  - rewrite py_index_first. destruct v; simpl; split; congruence.
  - rewrite py_index_last. destruct v as [|x l]; [tauto|].
    split; [|discriminate]. intros H. apply nth_error_None in H.
    cbn [length] in H. lia.
Qed.

Lemma col_mean_some df c :
  col_mean df c <> None <-> df_col df c <> None.
Proof.
  unfold col_mean. destruct (df_col df c); simpl; split; congruence.
Qed.

Lemma col_iloc_some df c k :
  k = 0%Z \/ k = (-1)%Z ->
  (col_iloc df c k <> None <->
   df_col df c <> None /\ df_col df c <> Some []).
Proof.
  intros Hk. unfold col_iloc. destruct (df_col df c) as [v|]; simpl.
  - pose proof (py_index_none v k Hk) as Hn.
    destruct (py_index v k); simpl.
    + split; [|congruence]. intros _. split; [congruence|].
      intros E. inversion E; subst v.
      discriminate (proj2 Hn eq_refl).
    + split; [intros H; exfalso; now apply H|].
      intros (_ & H) _. apply H. f_equal. now apply Hn.
  - split; [intros H; exfalso; now apply H|]. intros (H & _). congruence.
Qed.

Ltac in_list := simpl; tauto.

Lemma col_iloc_col df c k f :
  k = 0%Z \/ k = (-1)%Z ->
  col_iloc df c k = Some f ->
  df_col df c <> None /\ df_col df c <> Some [].
Proof.
  intros Hk H. apply (col_iloc_some df c k Hk). congruence.
Qed.

(** X21.  The report raises exactly when the table lacks one of the eleven
    columns it reads ([KeyError]) or has no first or last value in the
    total revenue, the population or the debt ratio ([IndexError], a table
    without rows); an empty column elsewhere gives [nan], not an error. *)
Theorem insights_raise_iff (self : Analyzer) (df : DataFrame) :
  (exists ins, _generate_financial_insights self df = Some ins) <->
  (forall c, In c insight_columns -> df_col df c <> None) /\
  (forall c, In c insight_end_columns -> df_col df c <> Some []).
Proof.
  split.
  - intros (ins & H). unfold _generate_financial_insights in H.
    repeat match type of H with
      | obind ?m _ = Some _ =>
          let E := fresh "E" in
          destruct m eqn:E; [cbn [obind] in H | discriminate H]
      end.
    split; intros c Hin; simpl in Hin.
    + repeat (destruct Hin as [<-|Hin];
        [ first
            [ apply col_mean_some; congruence
            | eapply proj1; eapply col_iloc_col; [ | eassumption];
              solve [left; reflexivity | right; reflexivity] ]
        | ]).
      destruct Hin.
    + repeat (destruct Hin as [<-|Hin];
        [ eapply proj2; eapply col_iloc_col; [ | eassumption];
          solve [left; reflexivity | right; reflexivity] | ]).
      destruct Hin.
  - intros (Hc & He). unfold _generate_financial_insights.
    repeat match goal with
      | |- context [obind (col_mean df ?c) _] =>
          let E := fresh "E" in
          destruct (col_mean df c) eqn:E;
          [ cbn [obind]
          | exfalso; revert E; apply col_mean_some; apply Hc; in_list ]
      | |- context [obind (col_iloc df ?c ?k) _] =>
          let E := fresh "E" in
          destruct (col_iloc df c k) eqn:E;
          [ cbn [obind]
          | exfalso; revert E;
            apply col_iloc_some;
            [ first [left; reflexivity | right; reflexivity]
            | split; [apply Hc; in_list | apply He; in_list] ] ]
      end.
    eexists. reflexivity.
Qed.

Lemma insights_raise_iff_witness :
  exists ins,
    _generate_financial_insights
      (WallisFutunaCommuneFinanceAnalyzer "Mata-Utu") mata_utu_table_0 =
    Some ins.
Proof.
  apply (proj2 (insights_raise_iff
                  (WallisFutunaCommuneFinanceAnalyzer "Mata-Utu")
                  mata_utu_table_0)).
  split; intros c Hin; simpl in Hin;
    repeat (destruct Hin as [<-|Hin]; [vm_compute; discriminate|]);
    destruct Hin.
Defined.





(* ------------------------------------------------------------------ *)
(** * The stacked charts *)

Lemma np_iadd_length bottom values bottom' :
  np_iadd bottom values = Some bottom' ->
  length values = length bottom /\
  length bottom' = length bottom /\
  bottom' = map (fun p => fst p + snd p) (combine bottom values).
Proof.
  unfold np_iadd. destruct (Nat.eqb (length bottom) (length values)) eqn:E;
    [|discriminate].
  apply Nat.eqb_eq in E. intros H; inversion H; subst bottom'.
  rewrite length_map, length_combine. repeat split; lia.
Qed.

Lemma nth_error_sum (xs ys : list Q) j x y :
  nth_error xs j = Some x -> nth_error ys j = Some y ->
  nth_error (map (fun p => fst p + snd p) (combine xs ys)) j = Some (x + y).
Proof.
  revert ys j. induction xs as [|a xs IH]; intros [|b ys] [|j]; simpl;
    try discriminate.
  - intros H1 H2. inversion H1; inversion H2. reflexivity.
  - apply IH.
Qed.

(** The loop of the stacked charts: one bar per category, the first on
    the bottom it is given, each next one on top of the one before. *)
Lemma stacked_bars_spec df years w labels colors :
  forall cats i bottom calls,
    stacked_bars df years w labels colors i cats bottom = Some calls ->
    length calls = length cats /\
    (forall b, nth_error calls 0 = Some b -> bar_bottom b = bottom) /\
    (forall k b b', nth_error calls k = Some b ->
       nth_error calls (S k) = Some b' -> bar_bottom b' = bar_top b) /\
    (forall k b, nth_error calls k = Some b ->
       exists c, nth_error cats k = Some c /\
         df_col df c = Some (bar_height b) /\
         nth_error labels (i + k) = Some (bar_label b) /\
         nth_error colors (i + k) = Some (bar_color b) /\
         bar_x b = years /\ bar_width b = w /\
         length (bar_height b) = length bottom).
Proof.
  induction cats as [|c cats IH]; intros i bottom calls; simpl.
  - intros H; inversion H; subst calls.
    repeat split; intros; try destruct k; discriminate.
  - destruct (df_col df c) as [height|] eqn:Hc; [|discriminate].
    cbn [obind].
    destruct (nth_error labels i) as [label|] eqn:Hl; [|discriminate].
    destruct (nth_error colors i) as [color|] eqn:Hco; [|discriminate].
    cbn [obind].
    destruct (np_iadd bottom height) as [bottom'|] eqn:Hadd; [|discriminate].
    cbn [obind].
    destruct (stacked_bars df years w labels colors (S i) cats bottom')
      as [calls'|] eqn:Hrec; [|discriminate].
    cbn [obind]. intros H; inversion H; subst calls; clear H.
    destruct (np_iadd_length _ _ _ Hadd) as (Hlh & Hlb & Hb').
    destruct (IH _ _ _ Hrec) as (Hlen & Hfirst & Hnext & Hbars).
    split; [simpl; now rewrite Hlen|].
    split; [intros b Hb; inversion Hb; reflexivity|].
    split.
    + intros [|k] b b' Hb Hb'0; simpl in *.
      * inversion Hb; subst b. rewrite (Hfirst _ Hb'0).
        unfold bar_top. simpl. exact Hb'.
      * now apply (Hnext k).
    + intros [|k] b Hb; simpl in *.
      * inversion Hb; subst b. exists c. simpl.
        rewrite Nat.add_0_r. repeat split; assumption.
      * destruct (Hbars k b Hb) as (c' & H1 & H2 & H3 & H4 & H5 & H6 & H7).
        exists c'. rewrite Nat.add_succ_r.
        repeat split; try assumption. congruence.
Qed.

(** X23.  The three stacked charts stack the columns of their categories
    without gap or overlap.  Each chart draws one bar per category of its
    list (four for the revenue, four for the expenses, five for the
    sectors), over the years of the table and with the width 0.8; the bar
    of rank [k] has the column of the category of rank [k] as heights and
    the label and the colour of rank [k]; the first bar stands on zero and
    each next bar stands on the top of the bar before it. *)
Theorem stacked_charts_contiguous (ch : StackedChart) (df : DataFrame)
    (calls : list BarCall) :
  plot_chart ch df = Some calls ->
  exists years,
    df_col df "Annee" = Some years /\
    length calls = length (chart_categories ch) /\
    (forall b, nth_error calls 0 = Some b ->
       bar_bottom b = np_zeros (length years)) /\
    (forall k b b', nth_error calls k = Some b ->
       nth_error calls (S k) = Some b' -> bar_bottom b' = bar_top b) /\
    (forall k b, nth_error calls k = Some b ->
       bar_x b = years /\ bar_width b = 0.8 /\
       length (bar_height b) = length years /\
       exists c,
         nth_error (chart_categories ch) k = Some c /\
         df_col df c = Some (bar_height b) /\
         nth_error (chart_labels ch) k = Some (bar_label b) /\
         nth_error (chart_colors ch) k = Some (bar_color b)).
Proof.
  intros H.
  assert (Hgen : exists years,
            df_col df "Annee" = Some years /\
            stacked_bars df years 0.8 (chart_labels ch) (chart_colors ch) 0
              (chart_categories ch) (np_zeros (length years)) = Some calls).
  { destruct ch; unfold plot_chart in H;
      [ unfold _plot_revenue_structure in H
      | unfold _plot_expenses_structure in H
      | unfold _plot_sectorial_investments in H ];
      destruct (df_col df "Annee") as [years|]; try discriminate;
      cbn [obind] in H; cbv zeta in H;
      exists years; (split; [reflexivity | exact H]). }
  destruct Hgen as (years & Hy & Hrun).
  destruct (stacked_bars_spec _ _ _ _ _ _ _ _ _ Hrun)
    as (Hlen & Hfirst & Hnext & Hbars).
  exists years. split; [exact Hy|]. split; [exact Hlen|].
  split; [exact Hfirst|]. split; [exact Hnext|].
  intros k b Hb.
  destruct (Hbars k b Hb) as (c & Hk & Hc & Hlab & Hcol & Hx & Hw & Hl).
  unfold np_zeros in Hl. rewrite repeat_length in Hl.
  split; [exact Hx|]. split; [exact Hw|]. split; [exact Hl|].
  exists c. repeat split; assumption.
Qed.

Lemma stacked_charts_contiguous_witness :
  length mata_utu_revenue_bars = 4%nat /\
  forall b, nth_error mata_utu_revenue_bars 1 = Some b ->
    df_col mata_utu_table_0 "Dotations_Etat" = Some (bar_height b) /\
    bar_label b = "Dotations État"%string /\
    bar_color b = "#2A9D8F"%string.
Proof.
  destruct (stacked_charts_contiguous RevenueChart mata_utu_table_0
              mata_utu_revenue_bars ltac:(vm_compute; reflexivity))
    as (years & _ & Hn & _ & _ & Hbars).
  split; [exact Hn|].
  intros b Hb. destruct (Hbars 1%nat b Hb) as (_ & _ & _ & c & Hc & Hh & Hl & Hco).
  cbn in Hc, Hl, Hco. inversion Hc; subst c.
  inversion Hl. inversion Hco. repeat split. exact Hh.
Defined.

(** X24.  The top of the revenue chart is the sum of its four parts: in every
    row the last bar ends at the local taxes plus the grants of the State
    plus the territorial grants plus the other revenue. *)
Theorem revenue_stack_total (df : DataFrame) (calls : list BarCall)
    (j : nat) (taxes state territorial other : Q) :
  _plot_revenue_structure df = Some calls ->
  cell df "Impots_Locaux" j = Some taxes ->
  cell df "Dotations_Etat" j = Some state ->
  cell df "Dotations_Territoriales" j = Some territorial ->
  cell df "Autres_Recettes" j = Some other ->
  exists b,
    nth_error calls 3 = Some b /\
    nth_error (bar_top b) j = Some (0 + taxes + state + territorial + other).
Proof.
  intros H Ht Hs Hr Ho. unfold _plot_revenue_structure in H.
  destruct (df_col df "Annee") as [years|]; [|discriminate].
  cbn [obind] in H. cbv zeta in H.
  destruct (stacked_bars_spec _ _ _ _ _ _ _ _ _ H)
    as (Hlen & Hfirst & Hnext & Hbars).
  destruct calls as [|b0 [|b1 [|b2 [|b3 [|? ?]]]]]; try discriminate Hlen.
  destruct (Hbars 0%nat b0 eq_refl) as (c0 & Hc0 & Hh0 & _ & _ & _ & _ & Hl0).
  destruct (Hbars 1%nat b1 eq_refl) as (c1 & Hc1 & Hh1 & _).
  destruct (Hbars 2%nat b2 eq_refl) as (c2 & Hc2 & Hh2 & _).
  destruct (Hbars 3%nat b3 eq_refl) as (c3 & Hc3 & Hh3 & _).
  cbn in Hc0, Hc1, Hc2, Hc3.
  inversion Hc0; subst c0. inversion Hc1; subst c1.
  inversion Hc2; subst c2. inversion Hc3; subst c3.
  unfold cell in Ht, Hs, Hr, Ho. unfold df_col in Hh0, Hh1, Hh2, Hh3.
  rewrite Hh0 in Ht. rewrite Hh1 in Hs. rewrite Hh2 in Hr. rewrite Hh3 in Ho.
  assert (Hz : nth_error (bar_bottom b0) j = Some 0).
  { rewrite (Hfirst b0 eq_refl). unfold np_zeros.
    assert (Hj : (j < length (bar_height b0))%nat)
      by (apply nth_error_Some; congruence).
    unfold np_zeros in Hl0. rewrite repeat_length in Hl0.
    rewrite nth_error_repeat by lia. reflexivity. }
  assert (T0 : nth_error (bar_top b0) j = Some (0 + taxes))
    by (now apply nth_error_sum).
  assert (T1 : nth_error (bar_top b1) j = Some (0 + taxes + state)).
  { apply nth_error_sum; [|exact Hs].
    now rewrite (Hnext 0%nat b0 b1 eq_refl eq_refl). }
  assert (T2 : nth_error (bar_top b2) j =
               Some (0 + taxes + state + territorial)).
  { apply nth_error_sum; [|exact Hr].
    now rewrite (Hnext 1%nat b1 b2 eq_refl eq_refl). }
  exists b3. split; [reflexivity|].
  apply nth_error_sum; [|exact Ho].
  now rewrite (Hnext 2%nat b2 b3 eq_refl eq_refl).
Qed.

Lemma revenue_stack_total_witness :
  exists b top,
    nth_error mata_utu_revenue_bars 3 = Some b /\
    nth_error (bar_top b) 0 = Some top /\
    top == 35.
Proof.
  destruct (revenue_stack_total mata_utu_table_0 mata_utu_revenue_bars 0
              _ _ _ _
              ltac:(vm_compute; reflexivity)
              eq_refl eq_refl eq_refl eq_refl) as (b & Hb & Htop).
  exists b. eexists. split; [exact Hb|]. split; [exact Htop|].
  vm_compute. reflexivity.
Defined.

(* ------------------------------------------------------------------ *)
(** * The choice in [main] *)

(** X25.  A choice from 1 to 6 selects the subdivision of that rank in the
    list; every other answer, 0 and the negative numbers included (the
    index [choix - 1] never counts from the end of the list), and an
    answer that is no integer, selects Mata-Utu. *)
Theorem selection_by_rank (choix : option Z) :
  match choix with
  | Some c =>
      ((1 <= c <= 6)%Z ->
         nth_error circonscriptions (Z.to_nat (c - 1)) =
         Some (circonscription_selectionnee choix)) /\
      ((c < 1 \/ 6 < c)%Z ->
         circonscription_selectionnee choix = "Mata-Utu"%string)
  | None => circonscription_selectionnee choix = "Mata-Utu"%string
  end.
Proof.
  destruct choix as [c|]; [|reflexivity].
  split.
  - intros Hc.
    assert (E : (c = 1 \/ c = 2 \/ c = 3 \/ c = 4 \/ c = 5 \/ c = 6)%Z)
      by lia.
    destruct E as [->|[->|[->|[->|[->| ->]]]]]; reflexivity.
  - intros Hc. unfold circonscription_selectionnee.
    assert (E : ((c <? 1)%Z || (c >? Z.of_nat (length circonscriptions))%Z)
                = true).
    { apply orb_true_iff. cbn [length circonscriptions Z.of_nat].
      destruct Hc as [Hc|Hc]; [left; apply Z.ltb_lt; lia|].
      right. rewrite Z.gtb_ltb. apply Z.ltb_lt. simpl. lia. }
    now rewrite E.
Qed.

Lemma selection_by_rank_witness :
  nth_error circonscriptions 4 =
    Some (circonscription_selectionnee (Some 5%Z)) /\
  circonscription_selectionnee (Some 0%Z) = "Mata-Utu"%string.
Proof.
  split.
  - apply (proj1 (selection_by_rank (Some 5%Z))). lia.
  - apply (proj2 (selection_by_rank (Some 0%Z))). lia.
Defined.

Lemma selection_in_list (choix : option Z) :
  In (circonscription_selectionnee choix) circonscriptions.
Proof.
  destruct choix as [c|]; [|simpl; tauto].
  unfold circonscription_selectionnee.
  destruct ((c <? 1)%Z || (c >? Z.of_nat (length circonscriptions))%Z) eqn:E;
    [simpl; tauto|].
  apply orb_false_iff in E. destruct E as (E1 & E2).
  apply Z.ltb_ge in E1. rewrite Z.gtb_ltb in E2. apply Z.ltb_ge in E2.
  cbn [length circonscriptions Z.of_nat] in E2. simpl in E2.
  assert (E : (c = 1 \/ c = 2 \/ c = 3 \/ c = 4 \/ c = 5 \/ c = 6)%Z)
      by lia.
  destruct E as [->|[->|[->|[->|[->| ->]]]]]; simpl; tauto.
Qed.

(** X26.  Whatever is answered, [main] analyses one of the six subdivisions of
    its list, each of which is a key of the registry: the configuration it
    uses is the registry's entry for that name and never the default one,
    and the table it generates has 24 rows and the 23 columns. *)
Theorem main_never_uses_default (choix : option Z) (st : RandomState) :
  In (circonscription_selectionnee choix) circonscriptions /\
  Py.getitem configs (circonscription_selectionnee choix) =
    Some (config (main_analyzer choix)) /\
  circonscription_selectionnee choix <> "default"%string /\
  config (main_analyzer choix) <> default_config /\
  exists df,
    fst (main_financial_data choix st) = Some df /\
    index df = 24%nat /\
    map fst (columns df) = column_names.
Proof.
  pose proof (selection_in_list choix) as Hin.
  split; [exact Hin|].
  unfold main_financial_data, main_analyzer.
  set (name := circonscription_selectionnee choix) in *.
  split; [|split; [|split]].
  - simpl in Hin.
    repeat (destruct Hin as [<-|Hin]; [reflexivity|]). destruct Hin.
  - simpl in Hin.
    repeat (destruct Hin as [<-|Hin]; [discriminate|]). destruct Hin.
  - simpl in Hin.
    repeat (destruct Hin as [<-|Hin]; [discriminate|]). destruct Hin.
  - destruct (generate_table (WallisFutunaCommuneFinanceAnalyzer name) st)
      as (df & Hgen & Hrun).
    destruct (table_shape _ _ _ Hrun) as (Hi & Hk & _).
    exists df. rewrite Hgen. repeat split; assumption.
Qed.
